(** * tty0tty: the null-modem emulator (kernel module)

    A shallow embedding of
    [examples/tools/nullmodem/linux/module/tty0tty.c]: the table of
    virtual serial ports, the even/odd pairing, the cross-wiring of the
    modem control lines and the [TIOCMIWAIT] loop, followed by the
    properties of these operations.

    Conventions.
    - A C [int] or [unsigned int] is a [Z]; conversions between the two
      are written out with [to_unsigned] and [to_int] (32 bits, two's
      complement, as the kernel is compiled).
    - A pointer that the driver dereferences is a key of a finite map;
      [NULL] is [None].  A dereference that C leaves undefined (a [NULL]
      or dangling pointer, an index outside [tty0tty_table]) makes the
      operation yield [None].
    - The semaphore [sem] serialises the callers; the embedding is the
      sequential behaviour of one call at a time.
    - The kernel services the driver calls ([kmalloc], the flip buffer
      of a tty, the wait queue, [set_current_state], [schedule] and
      [signal_pending]) are not part of the driver; they appear through
      the effect that the kernel documents for them on this memory,
      including what they leave undefined (a wait queue head that was
      never initialised) and what they hand back to the caller (the
      number of bytes a flip buffer took). *)

From Stdlib Require Import ZArith Lia Bool List.
From stdpp Require Import base option list gmap.

Local Open Scope Z_scope.

(** ** C integers *)

Module CInt.

Definition to_unsigned (x : Z) : Z := x mod 2 ^ 32.

Definition to_int (x : Z) : Z :=
  let r := x mod 2 ^ 32 in
  if r <? 2 ^ 31 then r else r - 2 ^ 32.

Definition INT_MAX : Z := 2 ^ 31 - 1.

Definition int_range (x : Z) : Prop := - 2 ^ 31 <= x < 2 ^ 31.

(** C truth value of an integer expression used as a condition. *)
Definition truth (x : Z) : bool := negb (x =? 0).

End CInt.
Import CInt.

(** ** Constants *)

Definition TINY_TTY_MINORS : Z := 8.

(** Fake UART values: outbound (MCR) and inbound (MSR) bits. *)
Definition MCR_DTR : Z := 0x01.
Definition MCR_RTS : Z := 0x02.
Definition MCR_LOOP : Z := 0x04.
Definition MSR_CTS : Z := 0x10.
Definition MSR_CD : Z := 0x20.
Definition MSR_DSR : Z := 0x40.
Definition MSR_RI : Z := 0x80.

(** Modem-line masks and error numbers of the kernel headers the file
    includes ([asm-generic/termios.h], [linux/errno.h]). *)
Definition TIOCM_DTR : Z := 0x002.
Definition TIOCM_RTS : Z := 0x004.
Definition TIOCM_CTS : Z := 0x020.
Definition TIOCM_CAR : Z := 0x040.
Definition TIOCM_RNG : Z := 0x080.
Definition TIOCM_DSR : Z := 0x100.
Definition TIOCM_CD : Z := TIOCM_CAR.
Definition TIOCM_RI : Z := TIOCM_RNG.
Definition TIOCM_LOOP : Z := 0x8000.

Definition EIO : Z := 5.
Definition ENOMEM : Z := 12.
Definition ENODEV : Z := 19.
Definition EINVAL : Z := 22.
Definition ERESTARTSYS : Z := 512.
Definition ENOIOCTLCMD : Z := 515.

Definition TIOCMIWAIT : Z := 0x545C.

(** ** Data *)

Definition tty_ptr := positive.

(** [struct async_icount]: the per-line event counters. *)
Record async_icount := {
  cts : Z; dsr : Z; rng : Z; dcd : Z;
  tx : Z; rx : Z;
  frame : Z; parity : Z; overrun : Z; brk : Z; buf_overrun : Z
}.

(** [struct tty0tty_serial].  [wait] is the wait queue head: [Some q]
    when its bytes are a well-formed head, [q] being the entries queued
    on it, first the one added last, each named by the task whose call
    declared it; [None] when they are not, as in a block fresh from
    [kmalloc] on which nobody has called [init_waitqueue_head].  [sem]
    is left out, and so is [serial], which only [TIOCGSERIAL] reads. *)
Record tty0tty_serial := {
  tty : option tty_ptr;
  open_count : Z;
  msr : Z;
  mcr : Z;
  wait : option (list positive);
  icount : async_icount
}.

(** The part of [struct tty_struct] the driver touches: its minor index,
    the driver's private pointer (a slot of [tty0tty_table]), the bytes
    pushed into its flip buffer, and the number of bytes the tty core
    will still take into that buffer ([tty_buffer_request_room] grants
    no more). *)
Record tty_struct := {
  index : Z;
  driver_data : option Z;
  flip_buffer : list Z;
  flip_room : Z
}.

(** What [TIOCMIWAIT] reads and writes of the calling task
    ([current]): its run state and whether a signal is pending. *)
Inductive task_state := TASK_RUNNING | TASK_INTERRUPTIBLE.

Record task_struct := {
  state : task_state;
  sigpending : bool
}.

(** The memory the driver works on: the tty objects of the tty core,
    [tty0tty_table] (a missing key is a [NULL] entry) and the tasks. *)
Record kernel := {
  ttys : gmap tty_ptr tty_struct;
  tty0tty_table : gmap Z tty0tty_serial;
  tasks : gmap positive task_struct
}.

Definition set_ttys (f : gmap tty_ptr tty_struct -> gmap tty_ptr tty_struct)
    (k : kernel) : kernel :=
  {| ttys := f (ttys k); tty0tty_table := tty0tty_table k;
     tasks := tasks k |}.

Definition set_table (f : gmap Z tty0tty_serial -> gmap Z tty0tty_serial)
    (k : kernel) : kernel :=
  {| ttys := ttys k; tty0tty_table := f (tty0tty_table k);
     tasks := tasks k |}.

Definition set_tasks (f : gmap positive task_struct -> gmap positive task_struct)
    (k : kernel) : kernel :=
  {| ttys := ttys k; tty0tty_table := tty0tty_table k;
     tasks := f (tasks k) |}.

Definition with_state (st : task_state) (c : task_struct) : task_struct :=
  {| state := st; sigpending := sigpending c |}.

Definition with_driver_data (d : option Z) (t : tty_struct) : tty_struct :=
  {| index := index t; driver_data := d; flip_buffer := flip_buffer t;
     flip_room := flip_room t |}.

Definition with_flip (f : list Z) (room : Z) (t : tty_struct) : tty_struct :=
  {| index := index t; driver_data := driver_data t; flip_buffer := f;
     flip_room := room |}.

Definition with_tty (p : option tty_ptr) (s : tty0tty_serial) : tty0tty_serial :=
  {| tty := p; open_count := open_count s; msr := msr s; mcr := mcr s;
     wait := wait s; icount := icount s |}.

Definition with_open_count (n : Z) (s : tty0tty_serial) : tty0tty_serial :=
  {| tty := tty s; open_count := n; msr := msr s; mcr := mcr s;
     wait := wait s; icount := icount s |}.

Definition with_msr (v : Z) (s : tty0tty_serial) : tty0tty_serial :=
  {| tty := tty s; open_count := open_count s; msr := v; mcr := mcr s;
     wait := wait s; icount := icount s |}.

Definition with_mcr (v : Z) (s : tty0tty_serial) : tty0tty_serial :=
  {| tty := tty s; open_count := open_count s; msr := msr s; mcr := v;
     wait := wait s; icount := icount s |}.

Definition with_wait (q : option (list positive)) (s : tty0tty_serial)
    : tty0tty_serial :=
  {| tty := tty s; open_count := open_count s; msr := msr s; mcr := mcr s;
     wait := q; icount := icount s |}.

(** ** Pairing *)

(** [tty0tty_table[i]] for an [int] index: outside the array the read is
    undefined. *)
Definition table_at (tbl : gmap Z tty0tty_serial) (i : Z)
    : option (option tty0tty_serial) :=
  if (0 <=? i) && (i <? TINY_TTY_MINORS) then Some (tbl !! i) else None.

(** The index the driver pairs with [index]: the branch
    [if ((index % 2) == 0) ... index+1 ... else ... index-1 ...]
    that [open], [write] and [tiocmset] repeat. *)
Definition partner_of (index : Z) : Z :=
  if Z.rem index 2 =? 0 then index + 1 else index - 1.

(** The pairing as the specification words it: [index XOR 1]. *)
Definition partner_of_xor (index : Z) : Z := Z.lxor index 1.

(** The partner's record when the slot is not [NULL] and its
    [open_count > 0]; the guard of every cross-port access. *)
Definition active_partner (tbl : gmap Z tty0tty_serial) (index : Z)
    : option (option tty0tty_serial) :=
  p ← table_at tbl (partner_of index);
  Some (match p with
        | Some s => if 0 <? open_count s then Some s else None
        | None => None
        end).

Definition valid_index (i : Z) : Prop := 0 <= i < TINY_TTY_MINORS.

(** ** The null-modem connection *)

(** [tty0tty_open], the block after "null modem connection": the MSR a
    port sees for the MCR of the other side, built up from [msr = 0]. *)
Definition null_modem_msr (mcr : Z) : Z :=
  let msr := 0 in
  let msr := if Z.land mcr MCR_RTS =? MCR_RTS then Z.lor msr MSR_CTS else msr in
  let msr :=
    if Z.land mcr MCR_DTR =? MCR_DTR
    then Z.lor (Z.lor msr MSR_DSR) MSR_CD else msr in
  msr.

(** [tty0tty_tiocmset], the four [if]s after "null modem connection",
    on the two [unsigned int] locals [mcr] and [msr].  [~MCR_RTS] is an
    [int] converted to [unsigned int] by the compound assignment. *)
Definition null_modem_set (set clear : Z) (regs : Z * Z) : Z * Z :=
  let '(mcr, msr) := regs in
  let '(mcr, msr) :=
    if truth (Z.land set TIOCM_RTS)
    then (Z.lor mcr MCR_RTS, Z.lor msr MSR_CTS) else (mcr, msr) in
  let '(mcr, msr) :=
    if truth (Z.land set TIOCM_DTR)
    then (Z.lor mcr MCR_DTR, Z.lor (Z.lor msr MSR_DSR) MSR_CD)
    else (mcr, msr) in
  let '(mcr, msr) :=
    if truth (Z.land clear TIOCM_RTS)
    then (Z.land mcr (to_unsigned (Z.lnot MCR_RTS)),
          Z.land msr (to_unsigned (Z.lnot MSR_CTS)))
    else (mcr, msr) in
  let '(mcr, msr) :=
    if truth (Z.land clear TIOCM_DTR)
    then (Z.land mcr (to_unsigned (Z.lnot MCR_DTR)),
          Z.land (Z.land msr (to_unsigned (Z.lnot MSR_DSR)))
                 (to_unsigned (Z.lnot MSR_CD)))
    else (mcr, msr) in
  (mcr, msr).

(** ** Operations *)

(** [tty0tty_open].  [fresh] is what [kmalloc] hands back: [None] when
    it fails, otherwise the (uninitialised) contents of the new block. *)
Definition tty0tty_open (t : tty_ptr) (fresh : option tty0tty_serial)
    (k : kernel) : option (Z * kernel) :=
  ts ← ttys k !! t;
  let k := set_ttys <[t := with_driver_data None ts]> k in
  let index := index ts in
  slot ← table_at (tty0tty_table k) index;
  let created :=
    match slot with
    | Some _ => Some k
    | None =>
        match fresh with
        | None => None
        | Some m => Some (set_table <[index := with_open_count 0 m]> k)
        end
    end in
  match created with
  | None => Some (- ENOMEM, k)
  | Some k =>
      p ← active_partner (tty0tty_table k) index;
      let m_mcr := match p with Some ps => mcr ps | None => 0 end in
      let m_msr := null_modem_msr m_mcr in
      s ← tty0tty_table k !! index;
      let s := with_msr m_msr s in
      let k := set_ttys <[t := with_driver_data (Some index) ts]> k in
      let s := with_tty (Some t) s in
      let s := with_open_count (to_int (open_count s + 1)) s in
      Some (0, set_table <[index := s]> k)
  end.

(** [do_close] on the record in slot [i]. *)
Definition do_close (i : Z) (k : kernel) : option kernel :=
  s ← tty0tty_table k !! i;
  if open_count s =? 0 then Some k
  else Some (set_table
               <[i := with_open_count (to_int (open_count s - 1)) s]> k).

(** [tty0tty_close]. *)
Definition tty0tty_close (t : tty_ptr) (k : kernel) : option kernel :=
  ts ← ttys k !! t;
  match driver_data ts with
  | Some i => do_close i k
  | None => Some k
  end.

(** The number of bytes [tty_insert_flip_string] copies when asked for
    [count] with [room] left: all of them, or as many as there is room
    for. *)
Definition flip_copied (count room : Z) : Z := Z.min count (Z.max 0 room).

(** [tty_insert_flip_string] followed by [tty_flip_buffer_push] on
    [ttyx], as the tty core documents them.  The first copies the first
    bytes of [buffer], as many as the flip buffer of [ttyx] takes and at
    most [count], and returns their number; the second hands them to the
    reader of [ttyx].  The driver drops the number returned, so it does
    not appear here.  [buffer] holds [count] bytes by the contract of
    the [write] operation: a [count] below 0 or beyond the buffer makes
    the copy read outside it, which is undefined. *)
Definition flip_push (ttyx : tty_ptr) (buffer : list Z) (count : Z)
    (k : kernel) : option kernel :=
  tx ← ttys k !! ttyx;
  if (0 <=? count) && (count <=? Z.of_nat (length buffer)) then
    let copied := flip_copied count (flip_room tx) in
    Some (set_ttys
            <[ttyx := with_flip
                        (flip_buffer tx ++ take (Z.to_nat copied) buffer)
                        (flip_room tx - copied) tx]> k)
  else None.

(** [tty0tty_write]. *)
Definition tty0tty_write (t : tty_ptr) (buffer : list Z) (count : Z)
    (k : kernel) : option (Z * kernel) :=
  ts ← ttys k !! t;
  let retval := - EINVAL in
  match driver_data ts with
  | None => Some (- ENODEV, k)
  | Some i =>
      s ← tty0tty_table k !! i;
      if open_count s =? 0 then Some (retval, k)
      else
        own ← tty s;
        ots ← ttys k !! own;
        p ← active_partner (tty0tty_table k) (index ots);
        let ttyx := match p with Some ps => tty ps | None => None end in
        match ttyx with
        | Some x => k ← flip_push x buffer count k; Some (count, k)
        | None => Some (retval, k)
        end
  end.

(** [tty0tty_write_room]. *)
Definition tty0tty_write_room (t : tty_ptr) (k : kernel) : option Z :=
  ts ← ttys k !! t;
  match driver_data ts with
  | None => Some (- ENODEV)
  | Some i =>
      s ← tty0tty_table k !! i;
      if open_count s =? 0 then Some (- EINVAL) else Some 255
  end.

(** [tty0tty_tiocmget]: one conditional per line, or-ed together. *)
Definition tty0tty_tiocmget (t : tty_ptr) (k : kernel) : option Z :=
  ts ← ttys k !! t;
  i ← driver_data ts;
  s ← tty0tty_table k !! i;
  let m_msr := to_unsigned (msr s) in
  let m_mcr := to_unsigned (mcr s) in
  let bit (reg m r : Z) := if truth (Z.land reg m) then r else 0 in
  Some (Z.lor (bit m_mcr MCR_DTR TIOCM_DTR)
       (Z.lor (bit m_mcr MCR_RTS TIOCM_RTS)
       (Z.lor (bit m_mcr MCR_LOOP TIOCM_LOOP)
       (Z.lor (bit m_msr MSR_CTS TIOCM_CTS)
       (Z.lor (bit m_msr MSR_CD TIOCM_CAR)
       (Z.lor (bit m_msr MSR_RI TIOCM_RI)
              (bit m_msr MSR_DSR TIOCM_DSR))))))).

(** [tty0tty_tiocmset]. *)
Definition tty0tty_tiocmset (t : tty_ptr) (set clear : Z) (k : kernel)
    : option (Z * kernel) :=
  ts ← ttys k !! t;
  i ← driver_data ts;
  s ← tty0tty_table k !! i;
  let m_mcr := to_unsigned (mcr s) in
  let m_msr := 0 in
  own ← tty s;
  ots ← ttys k !! own;
  p ← active_partner (tty0tty_table k) (index ots);
  let m_msr :=
    match p with Some ps => to_unsigned (msr ps) | None => m_msr end in
  let '(m_mcr, m_msr) := null_modem_set set clear (m_mcr, m_msr) in
  let k := set_table <[i := with_mcr (to_int m_mcr) s]> k in
  s' ← tty0tty_table k !! i;
  own' ← tty s';
  ots' ← ttys k !! own';
  p' ← active_partner (tty0tty_table k) (index ots');
  match p' with
  | Some ps =>
      Some (0, set_table
                 <[partner_of (index ots') := with_msr (to_int m_msr) ps]> k)
  | None => Some (0, k)
  end.

(** ** Waiting for a modem-line change *)

(** How far a [TIOCMIWAIT] call has got: it has returned [retval], or
    it sleeps in [schedule()] holding the snapshot [cprev]. *)
Inductive wait_result :=
| Returned (retval : Z)
| Sleeping (cprev : async_icount).

(** [add_wait_queue(&tty0tty->wait, &wait)], as the kernel documents
    it: the entry the call declared with [DECLARE_WAITQUEUE(wait,
    current)] is linked in at the front of the queue.  On a head that
    is not well formed the call follows wild pointers: undefined. *)
Definition add_wait_queue (current : positive) (i : Z) (k : kernel)
    : option kernel :=
  s ← tty0tty_table k !! i;
  q ← wait s;
  Some (set_table <[i := with_wait (Some (current :: q)) s]> k).

(** The queue without the entry that [current] queued last. *)
Fixpoint unlink (current : positive) (q : list positive) : list positive :=
  match q with
  | [] => []
  | c :: q => if decide (c = current) then q else c :: unlink current q
  end.

(** [remove_wait_queue(&tty0tty->wait, &wait)]: the one entry of the
    call is unlinked, the other entries stay in their order.  A task
    sleeps in one call at a time, so the entry of the call is the first
    of its task in the queue.  Unlinking an entry that is not linked,
    or from a head that is not well formed, is undefined. *)
Definition remove_wait_queue (current : positive) (i : Z) (k : kernel)
    : option kernel :=
  s ← tty0tty_table k !! i;
  q ← wait s;
  if decide (current ∈ q)
  then Some (set_table <[i := with_wait (Some (unlink current q)) s]> k)
  else None.

Definition set_current_state (current : positive) (st : task_state)
    (k : kernel) : option kernel :=
  c ← tasks k !! current;
  Some (set_tasks <[current := with_state st c]> k).

(** The loop body from its top down to [schedule()]. *)
Definition tiocmiwait_sleep (current : positive) (i : Z) (k : kernel)
    : option kernel :=
  k ← add_wait_queue current i k;
  set_current_state current TASK_INTERRUPTIBLE k.

(** [cnow.rng == cprev.rng && cnow.dsr == cprev.dsr && ...]. *)
Definition no_change (cnow cprev : async_icount) : bool :=
  (rng cnow =? rng cprev) && (dsr cnow =? dsr cprev)
  && (dcd cnow =? dcd cprev) && (cts cnow =? cts cprev).

(** The disjunction that makes the loop [return 0]. *)
Definition asked_change (arg : Z) (cnow cprev : async_icount) : bool :=
  (truth (Z.land arg TIOCM_RNG) && negb (rng cnow =? rng cprev))
  || (truth (Z.land arg TIOCM_DSR) && negb (dsr cnow =? dsr cprev))
  || (truth (Z.land arg TIOCM_CD) && negb (dcd cnow =? dcd cprev))
  || (truth (Z.land arg TIOCM_CTS) && negb (cts cnow =? cts cprev)).

(** The loop from the return of [schedule()] to the next [schedule()]
    or to the [return]. *)
Definition tiocmiwait_wake (current : positive) (i : Z) (arg : Z)
    (cprev : async_icount) (k : kernel) : option (wait_result * kernel) :=
  k ← remove_wait_queue current i k;
  c ← tasks k !! current;
  if sigpending c then Some (Returned (- ERESTARTSYS), k)
  else
    s ← tty0tty_table k !! i;
    let cnow := icount s in
    if no_change cnow cprev then Some (Returned (- EIO), k)
    else if asked_change arg cnow cprev then Some (Returned 0, k)
    else
      k ← tiocmiwait_sleep current i k;
      Some (Sleeping cnow, k).

(** The loop against its environment.  The task sleeps in [k]; each
    element of [env] is what the rest of the system does to the memory
    before the scheduler looks at the task again, and [schedule()]
    returns the first time the task is found runnable.  A task asleep
    in [TASK_INTERRUPTIBLE] is made runnable by a wake-up on its queue
    and by the kernel when it sends the task a signal. *)
Fixpoint tiocmiwait_run (current : positive) (i : Z) (arg : Z)
    (cprev : async_icount) (k : kernel) (env : list (kernel -> kernel))
    : option (wait_result * kernel) :=
  match env with
  | [] => Some (Sleeping cprev, k)
  | f :: env =>
      let k := f k in
      c ← tasks k !! current;
      match state c with
      | TASK_INTERRUPTIBLE => tiocmiwait_run current i arg cprev k env
      | TASK_RUNNING =>
          r ← tiocmiwait_wake current i arg cprev k;
          match r with
          | (Returned v, k) => Some (Returned v, k)
          | (Sleeping cnow, k) => tiocmiwait_run current i arg cnow k env
          end
      end
  end.

(** [tty0tty_ioctl_tiocmiwait], called by the task [current].  At the
    first [schedule()] the task may already have a signal pending: the
    scheduler does not put such a task to sleep in
    [TASK_INTERRUPTIBLE] but makes it [TASK_RUNNING] again and returns
    to it, before the rest of the system does anything. *)
Definition tty0tty_ioctl_tiocmiwait (current : positive) (t : tty_ptr)
    (cmd arg : Z) (k : kernel) (env : list (kernel -> kernel))
    : option (wait_result * kernel) :=
  ts ← ttys k !! t;
  if cmd =? TIOCMIWAIT then
    i ← driver_data ts;
    s ← tty0tty_table k !! i;
    let cprev := icount s in
    k ← tiocmiwait_sleep current i k;
    c ← tasks k !! current;
    if sigpending c then
      k ← set_current_state current TASK_RUNNING k;
      r ← tiocmiwait_wake current i arg cprev k;
      match r with
      | (Returned v, k) => Some (Returned v, k)
      | (Sleeping cnow, k) => tiocmiwait_run current i arg cnow k env
      end
    else tiocmiwait_run current i arg cprev k env
  else Some (Returned (- ENOIOCTLCMD), k).

(** ** Vocabulary of the statements *)

(** A line is asserted in a register: [(reg & MASK) == MASK], the test
    [tty0tty_open] applies to the partner's MCR. *)
Definition asserted (reg mask : Z) : bool := Z.land reg mask =? mask.

(** The record of the partner of port [i] when the driver treats it as
    connected (slot not [NULL], [open_count > 0]). *)
Definition partner_rec (tbl : gmap Z tty0tty_serial) (i : Z)
    : option tty0tty_serial :=
  match tbl !! partner_of i with
  | Some s => if 0 <? open_count s then Some s else None
  | None => None
  end.

(** What [tty0tty_open] establishes between a tty and its port: the
    tty [t] points at slot [i], slot [i] holds [s], and the tty that
    [s] points back to has index [i]. *)
Definition attached (k : kernel) (t : tty_ptr) (i : Z) (s : tty0tty_serial)
    : Prop :=
  valid_index i /\
  (exists ts, ttys k !! t = Some ts /\ driver_data ts = Some i) /\
  tty0tty_table k !! i = Some s /\
  (exists own ots,
      tty s = Some own /\ ttys k !! own = Some ots /\ index ots = i).

(** Two masks that differ at most in the bits of [m]:
    [(x & ~m) == (y & ~m)]. *)
Definition differ_only_in (m x y : Z) : Prop :=
  Z.land x (Z.lnot m) = Z.land y (Z.lnot m).

(** The partner of port [i] is not connected: its slot is [NULL] or its
    [open_count] is not positive. *)
Definition partner_inactive (k : kernel) (i : Z) : Prop :=
  match tty0tty_table k !! partner_of i with
  | Some ps => open_count ps <= 0
  | None => True
  end.

(** A driver call made by somebody else while a task sleeps: the
    memory the call leaves behind (the memory as it was if the call
    faults). *)
Definition after {A : Type} (call : kernel -> option (A * kernel))
    (k : kernel) : kernel :=
  match call k with
  | Some (_, k') => k'
  | None => k
  end.

(** The two tests of [TIOCMIWAIT] on the counters, as propositions:
    none of the four monitored counters moved since the snapshot, and
    a counter named by the mask [arg] moved. *)
Definition counters_unchanged (cnow cprev : async_icount) : Prop :=
  rng cnow = rng cprev /\ dsr cnow = dsr cprev /\
  dcd cnow = dcd cprev /\ cts cnow = cts cprev.

Definition requested_changed (arg : Z) (cnow cprev : async_icount) : Prop :=
  (truth (Z.land arg TIOCM_RNG) = true /\ rng cnow <> rng cprev) \/
  (truth (Z.land arg TIOCM_DSR) = true /\ dsr cnow <> dsr cprev) \/
  (truth (Z.land arg TIOCM_CD) = true /\ dcd cnow <> dcd cprev) \/
  (truth (Z.land arg TIOCM_CTS) = true /\ cts cnow <> cts cprev).

(** The record [tty0tty_open] goes on with for slot [i]: the one in the
    table, or the new block with its [open_count] set to 0. *)
Definition slot_or_fresh (tbl : gmap Z tty0tty_serial) (i : Z)
    (fresh : option tty0tty_serial) : option tty0tty_serial :=
  match tbl !! i with
  | Some s => Some s
  | None => with_open_count 0 <$> fresh
  end.

(** The MCR [tty0tty_open] reads from the other side: the partner's
    when it is connected, 0 otherwise. *)
Definition partner_mcr (tbl : gmap Z tty0tty_serial) (i : Z) : Z :=
  match partner_rec tbl i with
  | Some ps => mcr ps
  | None => 0
  end.

(** ** Runs of driver calls *)

(** The calls of [serial_ops] that return without sleeping. *)
Inductive call :=
| Open (t : tty_ptr) (fresh : option tty0tty_serial)
| Close (t : tty_ptr)
| Write (t : tty_ptr) (buffer : list Z) (count : Z)
| Write_room (t : tty_ptr)
| Tiocmget (t : tty_ptr)
| Tiocmset (t : tty_ptr) (set clear : Z).

(** The memory a call leaves. *)
Definition perform (c : call) (k : kernel) : option kernel :=
  match c with
  | Open t fresh => snd <$> tty0tty_open t fresh k
  | Close t => tty0tty_close t k
  | Write t buffer count => snd <$> tty0tty_write t buffer count k
  | Write_room t => _ ← tty0tty_write_room t k; Some k
  | Tiocmget t => _ ← tty0tty_tiocmget t k; Some k
  | Tiocmset t set clear => snd <$> tty0tty_tiocmset t set clear k
  end.



Fixpoint perform_all (cs : list call) (k : kernel) : option kernel :=
  match cs with
  | [] => Some k
  | c :: cs => k ← perform c k; perform_all cs k
  end.

(** Every record of the table has its [open_count] within [0 .. n]. *)
Definition counts_within (n : Z) (k : kernel) : Prop :=
  forall i s, tty0tty_table k !! i = Some s -> 0 <= open_count s <= n.

(** ** Sample memories *)

Definition zero_icount : async_icount :=
  {| cts := 0; dsr := 0; rng := 0; dcd := 0; tx := 0; rx := 0;
     frame := 0; parity := 0; overrun := 0; brk := 0; buf_overrun := 0 |}.

(** A record whose wait queue head is well formed and empty. *)
Definition port (t : tty_ptr) (n m_msr m_mcr : Z) : tty0tty_serial :=
  {| tty := Some t; open_count := n; msr := m_msr; mcr := m_mcr;
     wait := Some []; icount := zero_icount |}.

(** The ttys of minors 0 and 1, and a task. *)
Definition tty_a : tty_ptr := 1%positive.
Definition tty_b : tty_ptr := 2%positive.
Definition task_w : positive := 9%positive.

Definition tty_of (i : Z) : tty_struct :=
  {| index := i; driver_data := Some i; flip_buffer := []; flip_room := 4096 |}.

Definition sample_ttys : gmap tty_ptr tty_struct :=
  {[ tty_a := tty_of 0; tty_b := tty_of 1 ]}.

Definition sample_tasks : gmap positive task_struct :=
  {[ task_w := {| state := TASK_RUNNING; sigpending := false |} ]}.

(** Ports 0 and 1 both open once, all lines down. *)
Definition pair_open : kernel :=
  {| ttys := sample_ttys;
     tty0tty_table := {[ 0 := port tty_a 1 0 0; 1 := port tty_b 1 0 0 ]};
     tasks := sample_tasks |}.

(** Port 0 open, port 1 closed again after use. *)
Definition partner_closed : kernel :=
  {| ttys := sample_ttys;
     tty0tty_table := {[ 0 := port tty_a 1 0 0; 1 := port tty_b 0 0 0 ]};
     tasks := sample_tasks |}.

(** Port 0 open with CTS, DSR and CD up (MSR 0x70); port 1 closed,
    its last MCR (DTR and RTS) still in its record. *)
Definition partner_gone : kernel :=
  {| ttys := sample_ttys;
     tty0tty_table := {[ 0 := port tty_a 1 0x70 0; 1 := port tty_b 0 0 3 ]};
     tasks := sample_tasks |}.

(** Port 0 open with CTS and RI in its MSR (0x90), left from before;
    port 1 open with DTR alone. *)
Definition stale_status : kernel :=
  {| ttys := sample_ttys;
     tty0tty_table := {[ 0 := port tty_a 1 0x90 0; 1 := port tty_b 1 0 1 ]};
     tasks := sample_tasks |}.

(** Port 1 open with DTR and RTS up; port 0 never opened. *)
Definition partner_ready : kernel :=
  {| ttys := sample_ttys;
     tty0tty_table := {[ 1 := port tty_b 1 0 3 ]};
     tasks := sample_tasks |}.

(** What [kmalloc] returns: a block with arbitrary contents, which are
    not a wait queue head. *)
Definition junk : tty0tty_serial :=
  {| tty := None; open_count := -7; msr := 0xFF; mcr := 0xFF;
     wait := None;
     icount := {| cts := 11; dsr := 12; rng := 13; dcd := 14; tx := 15;
                  rx := 16; frame := 17; parity := 18; overrun := 19;
                  brk := 20; buf_overrun := 21 |} |}.

(** The memory before any port is opened: every slot [NULL]. *)
Definition boot : kernel :=
  {| ttys := sample_ttys; tty0tty_table := ∅; tasks := sample_tasks |}.

(** Port 1 as its first open leaves it, in a module just loaded. *)
Definition first_opened : kernel :=
  default boot (snd <$> tty0tty_open tty_b (Some junk) boot).



(** Both ports open, [task_w] asleep in [TIOCMIWAIT] on port 1. *)
Definition pair_waiting : kernel :=
  default pair_open (tiocmiwait_sleep task_w 1 pair_open).

(** Environment steps for the samples: a task is made runnable, with
    or without a signal, and something counts a CTS edge on a port. *)
Definition make_runnable (task : positive) (sig : bool) (k : kernel) : kernel :=
  set_tasks <[task := {| state := TASK_RUNNING; sigpending := sig |}]> k.

Definition with_icount (c : async_icount) (s : tty0tty_serial) : tty0tty_serial :=
  {| tty := tty s; open_count := open_count s; msr := msr s; mcr := mcr s;
     wait := wait s; icount := c |}.

(** The record of port 1 when open, with [n] CTS edges counted. *)
Definition counted (n : Z) : tty0tty_serial :=
  with_icount
    {| cts := n; dsr := 0; rng := 0; dcd := 0; tx := 0; rx := 0; frame := 0;
       parity := 0; overrun := 0; brk := 0; buf_overrun := 0 |}
    (port tty_b 1 0 0).

Definition count_cts (i : Z) (k : kernel) : kernel :=
  set_table
    (alter (λ s, with_icount
                   {| cts := cts (icount s) + 1; dsr := dsr (icount s);
                      rng := rng (icount s); dcd := dcd (icount s);
                      tx := tx (icount s); rx := rx (icount s);
                      frame := frame (icount s); parity := parity (icount s);
                      overrun := overrun (icount s); brk := brk (icount s);
                      buf_overrun := buf_overrun (icount s) |} s) i) k.

(** ** Further operations of the driver *)

Definition EFAULT : Z := 14.
Definition TIOCGICOUNT : Z := 0x545D.

(** [struct serial_icounter_struct]: the [int] fields that
    [tty0tty_ioctl_tiocgicount] fills. *)
Record serial_icounter_struct := {
  ic_cts : Z; ic_dsr : Z; ic_rng : Z; ic_dcd : Z;
  ic_rx : Z; ic_tx : Z;
  ic_frame : Z; ic_overrun : Z; ic_parity : Z; ic_brk : Z;
  ic_buf_overrun : Z
}.

(** [tty0tty_ioctl_tiocgicount].  [user_ok] says whether [copy_to_user]
    can write at [arg]; the structure it copies out comes back with the
    return value. *)
Definition tty0tty_ioctl_tiocgicount (t : tty_ptr) (cmd : Z) (user_ok : bool)
    (k : kernel) : option (Z * option serial_icounter_struct) :=
  ts ← ttys k !! t;
  if cmd =? TIOCGICOUNT then
    i ← driver_data ts;
    s ← tty0tty_table k !! i;
    let cnow := icount s in
    let ic :=
      {| ic_cts := to_int (cts cnow); ic_dsr := to_int (dsr cnow);
         ic_rng := to_int (rng cnow); ic_dcd := to_int (dcd cnow);
         ic_rx := to_int (rx cnow); ic_tx := to_int (tx cnow);
         ic_frame := to_int (frame cnow);
         ic_overrun := to_int (overrun cnow);
         ic_parity := to_int (parity cnow); ic_brk := to_int (brk cnow);
         ic_buf_overrun := to_int (buf_overrun cnow) |} in
    if user_ok then Some (0, Some ic) else Some (- EFAULT, None)
  else Some (- ENOIOCTLCMD, None).

(** [tty0tty_exit], the loop [while (tty0tty->open_count) do_close(tty0tty)]
    on slot [i], for at most [fuel] turns: [None] also when the turns do
    not suffice. *)
Fixpoint close_until_zero (fuel : nat) (i : Z) (k : kernel) : option kernel :=
  s ← tty0tty_table k !! i;
  if open_count s =? 0 then Some k
  else
    match fuel with
    | O => None
    | S fuel => k ← do_close i k; close_until_zero fuel i k
    end.

(** [tty0tty_exit], the body of its second [for]: a slot that is not
    [NULL] is closed until its count is 0, freed and set to [NULL]. *)
Definition exit_slot (fuel : nat) (i : Z) (k : kernel) : option kernel :=
  slot ← table_at (tty0tty_table k) i;
  match slot with
  | None => Some k
  | Some _ =>
      k ← close_until_zero fuel i k;
      Some (set_table (delete i) k)
  end.

Fixpoint exit_slots (fuel : nat) (slots : list Z) (k : kernel)
    : option kernel :=
  match slots with
  | [] => Some k
  | i :: slots => k ← exit_slot fuel i k; exit_slots fuel slots k
  end.

(** [tty0tty_exit]: what it does to the memory of the driver.  The
    unregistering calls before the second [for] work on the tables of
    the tty core. *)
Definition tty0tty_exit (fuel : nat) (k : kernel) : option kernel :=
  exit_slots fuel (seqZ 0 TINY_TTY_MINORS) k.

(** What else happens while a task sleeps in [TIOCMIWAIT]: somebody
    makes a call of the driver, or the task is made runnable, by a
    wake-up or by a signal. *)
Inductive happening :=
| Driver_call (c : call)
| Made_runnable (task : positive) (sig : bool).

Definition happen (h : happening) (k : kernel) : kernel :=
  match h with
  | Driver_call c => default k (perform c k)
  | Made_runnable task sig => make_runnable task sig k
  end.

(** The first time [task] is made runnable among [hs], and whether a
    signal is pending then. *)
Fixpoint first_wake (task : positive) (hs : list happening) : option bool :=
  match hs with
  | [] => None
  | Driver_call _ :: hs => first_wake task hs
  | Made_runnable task' sig :: hs =>
      if decide (task' = task) then Some sig else first_wake task hs
  end.

(** ** Vocabulary of the further statements *)

(** A field of the records that none of the four writers of
    [tty0tty_open], [do_close] and [tty0tty_tiocmset] changes. *)
Definition kept_field {B : Type} (f : tty0tty_serial -> B) : Prop :=
  (forall v r, f (with_mcr v r) = f r) /\
  (forall v r, f (with_msr v r) = f r) /\
  (forall v r, f (with_open_count v r) = f r) /\
  (forall v r, f (with_tty v r) = f r).

(** Of the 32 bits of an MSR shadow only bits 4 (CTS), 5 (CD) and
    6 (DSR) may be up. *)
Definition lines_only (m_msr : Z) : Prop :=
  forall n, 0 <= n < 32 -> n <> 4 -> n <> 5 -> n <> 6 ->
            Z.testbit m_msr n = false.

Definition msr_lines_only (tbl : gmap Z tty0tty_serial) : Prop :=
  forall i s, tbl !! i = Some s -> lines_only (msr s).

(** What happens while a task sleeps leaves the wait queue of slot [i]
    as it is. *)
Definition leaves_queue (i : Z) (f : kernel -> kernel) : Prop :=
  forall k, wait <$> tty0tty_table (f k) !! i = wait <$> tty0tty_table k !! i.

(** A call that hands the driver no block with a well-formed wait queue
    head: any call but an open whose [kmalloc] returns such a block. *)
Definition no_head_given (c : call) : Prop :=
  match c with
  | Open _ (Some m) => wait m = None
  | _ => True
  end.

(** * Properties *)

(** ** The operations on the sample memories *)

(** The first open of port 0 creates its record from the block it is
    given: count 1, the MSR computed (nobody on the other side: 0), the
    MCR, the counters and the wait queue head whatever the block
    held. *)
Example open_first_time :
  (λ r, (fst r, tty0tty_table (snd r) !! 0))
    <$> tty0tty_open tty_a (Some junk) boot
  = Some (0, Some {| tty := Some tty_a; open_count := 1; msr := 0;
                     mcr := 0xFF; wait := None;
                     icount := icount junk |}).
Proof. reflexivity. Qed.

Example open_without_memory :
  (λ r, (fst r, tty0tty_table (snd r) !! 0, driver_data <$> ttys (snd r) !! tty_a))
    <$> tty0tty_open tty_a None boot
  = Some (- ENOMEM, None, Some None).
Proof. reflexivity. Qed.

(** Bytes written to port 0 reach the tty of port 1 when it is open. *)
Example write_delivered :
  (λ r, (fst r, flip_buffer <$> ttys (snd r) !! tty_b))
    <$> tty0tty_write tty_a [65; 66; 67] 3 pair_open
  = Some (3, Some [65; 66; 67]).
Proof. reflexivity. Qed.

(** With room for two more bytes at the tty of port 1, a write of three
    bytes still returns 3. *)
Example write_short_of_room :
  (λ r, (fst r, flip_buffer <$> ttys (snd r) !! tty_b))
    <$> tty0tty_write tty_a [65; 66; 67] 3
          (set_ttys <[tty_b := with_flip [] 2 (tty_of 1)]> pair_open)
  = Some (3, Some [65; 66]).
Proof. reflexivity. Qed.

Example write_room_open : tty0tty_write_room tty_a pair_open = Some 255.
Proof. reflexivity. Qed.

(** Port 0 raises DTR and RTS; port 1 then reports CTS, CAR and DSR. *)
Example tiocmget_after_set :
  (tty0tty_tiocmget tty_b ∘ snd)
    <$> tty0tty_tiocmset tty_a (Z.lor TIOCM_DTR TIOCM_RTS) 0 pair_open
  = Some (Some (Z.lor TIOCM_CTS (Z.lor TIOCM_CAR TIOCM_DSR))).
Proof. reflexivity. Qed.

(** A wait for CTS on port 1 returns 0 once a CTS edge has been counted
    there and the task made runnable; a wait for DSR sleeps on, with
    the counters it saw as its new snapshot. *)
Example wait_sees_counted_edge :
  fst <$> tty0tty_ioctl_tiocmiwait task_w tty_b TIOCMIWAIT TIOCM_CTS pair_open
            [make_runnable task_w false ∘ count_cts 1]
  = Some (Returned 0).
Proof. reflexivity. Qed.

Example wait_for_other_line :
  fst <$> tty0tty_ioctl_tiocmiwait task_w tty_b TIOCMIWAIT TIOCM_DSR pair_open
            [make_runnable task_w false ∘ count_cts 1]
  = Some (Sleeping {| cts := 1; dsr := 0; rng := 0; dcd := 0; tx := 0;
                      rx := 0; frame := 0; parity := 0; overrun := 0;
                      brk := 0; buf_overrun := 0 |}).
Proof. reflexivity. Qed.

(** On the record that the first open of port 1 creates, [TIOCMIWAIT]
    runs into the head that nobody initialised. *)
Example wait_on_created_record :
  (k ← snd <$> tty0tty_open tty_b (Some junk) boot;
   tty0tty_ioctl_tiocmiwait task_w tty_b TIOCMIWAIT TIOCM_CTS k
     [make_runnable task_w false])
  = None.
Proof. reflexivity. Qed.

Example other_ioctl :
  fst <$> tty0tty_ioctl_tiocmiwait task_w tty_b 0x5415 0 pair_open []
  = Some (Returned (- ENOIOCTLCMD)).
Proof. reflexivity. Qed.

(** ** C integers and single-bit masks *)

Module CIntFacts.

Lemma to_unsigned_testbit x n :
  0 <= n < 32 -> Z.testbit (to_unsigned x) n = Z.testbit x n.
Proof. intros Hn. unfold to_unsigned. apply Z.mod_pow2_bits_low. lia. Qed.

Lemma to_int_id x : int_range x -> to_int x = x.
Proof.
  unfold int_range, to_int. intros Hx.
  destruct (Z.neg_nonneg_cases x) as [Hneg | Hpos].
  - assert (Hm : x mod 2 ^ 32 = x + 2 ^ 32).
    { symmetry. apply (Z.mod_unique_pos _ _ (-1)); lia. }
    rewrite Hm. destruct (Z.ltb_spec (x + 2 ^ 32) (2 ^ 31)); lia.
  - rewrite Z.mod_small by lia.
    destruct (Z.ltb_spec x (2 ^ 31)); lia.
Qed.

Lemma to_int_testbit x n :
  0 <= n < 32 -> Z.testbit (to_int x) n = Z.testbit x n.
Proof.
  intros Hn.
  rewrite <- (Z.mod_pow2_bits_low (to_int x) 32 n) by lia.
  rewrite <- (Z.mod_pow2_bits_low x 32 n) by lia.
  f_equal. unfold to_int.
  destruct (Z.ltb_spec (x mod 2 ^ 32) (2 ^ 31)).
  - apply Z.mod_mod. lia.
  - replace (x mod 2 ^ 32 - 2 ^ 32)
      with (x mod 2 ^ 32 + (-1) * 2 ^ 32) by lia.
    rewrite Z.mod_add by lia. apply Z.mod_mod. lia.
Qed.

(** [if (x & (1 << n))] tests bit [n] of [x]. *)
Lemma truth_land_pow2 x n :
  0 <= n -> truth (Z.land x (2 ^ n)) = Z.testbit x n.
Proof.
  intros Hn. unfold truth.
  destruct (Z.testbit x n) eqn:Hb.
  - destruct (Z.eqb_spec (Z.land x (2 ^ n)) 0) as [H0 | ]; [ | reflexivity].
    assert (Hc : Z.testbit (Z.land x (2 ^ n)) n = true).
    { rewrite Z.land_spec, Hb, Z.pow2_bits_true by lia. reflexivity. }
    rewrite H0, Z.bits_0 in Hc. discriminate.
  - assert (H0 : Z.land x (2 ^ n) = 0).
    { apply Z.bits_inj_0. intros m. rewrite Z.land_spec.
      destruct (Z.eq_dec n m) as [<- | Hne].
      - rewrite Hb. reflexivity.
      - rewrite Z.pow2_bits_false by lia. apply andb_false_r. }
    rewrite H0. reflexivity.
Qed.

(** [(x & m) == m] for a single-bit mask [m] tests the same bit. *)
Lemma land_pow2_eqb x n :
  0 <= n -> (Z.land x (2 ^ n) =? 2 ^ n) = Z.testbit x n.
Proof.
  intros Hn.
  destruct (Z.testbit x n) eqn:Hb.
  - apply Z.eqb_eq. apply Z.bits_inj'. intros m Hm.
    rewrite Z.land_spec.
    destruct (Z.eq_dec n m) as [<- | Hne].
    + rewrite Hb, Z.pow2_bits_true by lia. reflexivity.
    + rewrite Z.pow2_bits_false by lia. apply andb_false_r.
  - apply Z.eqb_neq. intros Heq.
    assert (Hc : Z.testbit (Z.land x (2 ^ n)) n = true).
    { rewrite Heq. apply Z.pow2_bits_true. lia. }
    rewrite Z.land_spec, Hb in Hc. discriminate.
Qed.

End CIntFacts.
Import CIntFacts.

(** ** Pairing *)

Lemma partner_of_valid i : valid_index i -> valid_index (partner_of i).
Proof.
  unfold valid_index, partner_of, TINY_TTY_MINORS. intros Hi.
  destruct (Z.eqb_spec (Z.rem i 2) 0) as [He | Hne];
    revert He || revert Hne; Z.quot_rem_to_equations; lia.
Qed.

Lemma partner_of_involutive i : partner_of (partner_of i) = i.
Proof.
  unfold partner_of.
  destruct (Z.eqb_spec (Z.rem i 2) 0) as [He | Hne].
  - destruct (Z.eqb_spec (Z.rem (i + 1) 2) 0) as [He' | Hne']; [ | lia].
    exfalso. revert He He'. Z.quot_rem_to_equations. lia.
  - destruct (Z.eqb_spec (Z.rem (i - 1) 2) 0) as [He' | Hne']; [lia | ].
    exfalso. revert Hne Hne'. Z.quot_rem_to_equations. lia.
Qed.

Lemma partner_of_neq i : partner_of i <> i.
Proof. unfold partner_of. destruct (Z.rem i 2 =? 0); lia. Qed.

Lemma partner_of_is_xor i : valid_index i -> partner_of i = partner_of_xor i.
Proof.
  unfold valid_index, TINY_TTY_MINORS. intros Hi.
  assert (Hc : i = 0 \/ i = 1 \/ i = 2 \/ i = 3 \/ i = 4 \/ i = 5 \/ i = 6 \/ i = 7)
    by lia.
  repeat (destruct Hc as [-> | Hc]; [reflexivity | ]). subst i. reflexivity.
Qed.

(** C7.  The partner index the driver computes (the even/odd branch of
    [tty0tty_open], [tty0tty_write] and [tty0tty_tiocmset]) is, for every
    valid index, the index XOR 1; it is again a valid index (the
    function is total on the valid range), applying it twice gives the
    index back, and it is never the index itself. *)
Theorem partner_of_involution_no_fixpoint (i : Z) :
  valid_index i ->
  partner_of i = partner_of_xor i /\
  valid_index (partner_of i) /\
  partner_of (partner_of i) = i /\
  partner_of i <> i.
Proof.
  intros Hi. split; [ | split; [ | split]].
  - apply partner_of_is_xor, Hi.
  - apply partner_of_valid, Hi.
  - apply partner_of_involutive.
  - apply partner_of_neq.
Qed.

Lemma partner_of_involution_no_fixpoint_witness :
  valid_index 6 /\
  (partner_of 6 = partner_of_xor 6 /\
   valid_index (partner_of 6) /\
   partner_of (partner_of 6) = 6 /\
   partner_of 6 <> 6).
Proof.
  split.
  - unfold valid_index, TINY_TTY_MINORS. lia.
  - apply (partner_of_involution_no_fixpoint 6).
    unfold valid_index, TINY_TTY_MINORS. lia.
Defined.

(** ** Table access *)

Lemma table_at_valid tbl i : valid_index i -> table_at tbl i = Some (tbl !! i).
Proof.
  unfold valid_index, table_at. intros [Hlo Hhi].
  apply Z.leb_le in Hlo. apply Z.ltb_lt in Hhi. rewrite Hlo, Hhi. reflexivity.
Qed.

Lemma active_partner_valid tbl i :
  valid_index i -> active_partner tbl i = Some (partner_rec tbl i).
Proof.
  intros Hi. unfold active_partner, partner_rec.
  rewrite (table_at_valid tbl (partner_of i)) by (apply partner_of_valid, Hi).
  reflexivity.
Qed.

Lemma partner_rec_insert_own tbl i s :
  partner_rec (<[i := s]> tbl) i = partner_rec tbl i.
Proof.
  unfold partner_rec. rewrite lookup_insert_ne; [reflexivity | ].
  intros Heq. apply (partner_of_neq i). symmetry. exact Heq.
Qed.

Lemma partner_rec_Some tbl i ps :
  partner_rec tbl i = Some ps <->
  tbl !! partner_of i = Some ps /\ 0 < open_count ps.
Proof.
  unfold partner_rec. destruct (tbl !! partner_of i) as [s | ].
  - destruct (Z.ltb_spec 0 (open_count s)); split.
    + intros [= ->]. auto.
    + intros [[= ->] _]. reflexivity.
    + discriminate.
    + intros [[= ->] ?]. lia.
  - split; [discriminate | intros [? _]; discriminate].
Qed.

Lemma partner_rec_None tbl i :
  partner_rec tbl i = None <->
  match tbl !! partner_of i with
  | Some ps => open_count ps <= 0
  | None => True
  end.
Proof.
  unfold partner_rec. destruct (tbl !! partner_of i) as [s | ]; [ | tauto].
  destruct (Z.ltb_spec 0 (open_count s)); split; intros; try easy; lia.
Qed.

(** ** The wiring rule, bit by bit *)

Ltac modem_bits :=
  change TIOCM_RTS with (2 ^ 2); change TIOCM_DTR with (2 ^ 1);
  change MCR_DTR with (2 ^ 0); change MCR_RTS with (2 ^ 1);
  change MSR_CTS with (2 ^ 4); change MSR_CD with (2 ^ 5);
  change MSR_DSR with (2 ^ 6); change MSR_RI with (2 ^ 7);
  rewrite ?truth_land_pow2 by lia.

Ltac bitblast n :=
  repeat first
    [ rewrite Z.lor_spec | rewrite Z.land_spec
    | rewrite to_unsigned_testbit by lia
    | rewrite to_int_testbit by lia
    | rewrite Z.lnot_spec by lia
    | rewrite Z.pow2_bits_eqb by lia
    | rewrite Z.bits_0 ];
  repeat match goal with
         | |- context [?a =? n] => destruct (Z.eqb_spec a n); try lia
         | |- context [n =? ?a] => destruct (Z.eqb_spec n a); try lia
         end;
  subst;
  repeat match goal with
         | |- context [Z.testbit ?x ?m] => destruct (Z.testbit x m)
         end; try reflexivity.

Lemma asserted_bit reg n : 0 <= n -> asserted reg (2 ^ n) = Z.testbit reg n.
Proof. intros Hn. unfold asserted. apply land_pow2_eqb, Hn. Qed.

Lemma null_modem_set_msr_bit set clear mcr0 msr0 n :
  0 <= n < 32 ->
  Z.testbit (snd (null_modem_set set clear (mcr0, msr0))) n =
    if n =? 4
    then (Z.testbit msr0 4 || Z.testbit set 2) && negb (Z.testbit clear 2)
    else if (n =? 5) || (n =? 6)
    then (Z.testbit msr0 n || Z.testbit set 1) && negb (Z.testbit clear 1)
    else Z.testbit msr0 n.
Proof.
  intros Hn. unfold null_modem_set. modem_bits.
  destruct (Z.testbit set 2), (Z.testbit set 1), (Z.testbit clear 2),
    (Z.testbit clear 1); cbn [snd]; bitblast n.
Qed.

Lemma null_modem_set_mcr_bit set clear mcr0 msr0 n :
  0 <= n < 32 ->
  Z.testbit (fst (null_modem_set set clear (mcr0, msr0))) n =
    if n =? 1
    then (Z.testbit mcr0 1 || Z.testbit set 2) && negb (Z.testbit clear 2)
    else if n =? 0
    then (Z.testbit mcr0 0 || Z.testbit set 1) && negb (Z.testbit clear 1)
    else Z.testbit mcr0 n.
Proof.
  intros Hn. unfold null_modem_set. modem_bits.
  destruct (Z.testbit set 2), (Z.testbit set 1), (Z.testbit clear 2),
    (Z.testbit clear 1); cbn [fst]; bitblast n.
Qed.

(** Only bits 1 (DTR) and 2 (RTS) of the two masks are looked at. *)
Lemma null_modem_set_masks set clear set2 clear2 regs :
  Z.testbit set 1 = Z.testbit set2 1 -> Z.testbit set 2 = Z.testbit set2 2 ->
  Z.testbit clear 1 = Z.testbit clear2 1 ->
  Z.testbit clear 2 = Z.testbit clear2 2 ->
  null_modem_set set clear regs = null_modem_set set2 clear2 regs.
Proof.
  intros Hs1 Hs2 Hc1 Hc2. unfold null_modem_set. modem_bits.
  rewrite Hs1, Hs2, Hc1, Hc2. reflexivity.
Qed.

Lemma null_modem_msr_bit m n :
  0 <= n ->
  Z.testbit (null_modem_msr m) n =
    if n =? 4 then Z.testbit m 1
    else if (n =? 5) || (n =? 6) then Z.testbit m 0
    else false.
Proof.
  intros Hn. unfold null_modem_msr. modem_bits.
  rewrite !land_pow2_eqb by lia.
  destruct (Z.testbit m 1), (Z.testbit m 0); bitblast n.
Qed.

Lemma lookup_insert_field {B : Type} (f : tty0tty_serial -> B)
    (tbl : gmap Z tty0tty_serial) (i j : Z) (s s' : tty0tty_serial) :
  tbl !! i = Some s -> f s' = f s ->
  f <$> (<[i := s']> tbl) !! j = f <$> tbl !! j.
Proof.
  intros Hs Hf. destruct (decide (i = j)) as [<- | Hne].
  - rewrite lookup_insert_eq, Hs. cbn. f_equal. exact Hf.
  - rewrite lookup_insert_ne by exact Hne. reflexivity.
Qed.

Lemma differ_only_in_bit m x y n :
  differ_only_in m x y -> 0 <= n -> Z.testbit m n = false ->
  Z.testbit x n = Z.testbit y n.
Proof.
  unfold differ_only_in. intros Heq Hn Hm.
  apply (f_equal (fun v => Z.testbit v n)) in Heq.
  rewrite !Z.land_spec, Z.lnot_spec, Hm, !andb_true_r in Heq by exact Hn.
  exact Heq.
Qed.

(** ** A tty attached to its port

    The calls below are made through a tty [t] that [tty0tty_open] has
    attached to the record [s] in slot [i]. *)

Section Attached.

Variables (k : kernel) (t : tty_ptr) (i : Z) (s : tty0tty_serial).
Hypothesis Hattached : attached k t i s.

(** The call in closed form. *)
Lemma tiocmset_attached set clear :
  tty0tty_tiocmset t set clear k =
    let p := partner_rec (tty0tty_table k) i in
    let regs :=
      null_modem_set set clear
        (to_unsigned (mcr s),
         match p with Some ps => to_unsigned (msr ps) | None => 0 end) in
    let k1 := set_table <[i := with_mcr (to_int (fst regs)) s]> k in
    Some (0, match p with
             | Some ps =>
                 set_table
                   <[partner_of i := with_msr (to_int (snd regs)) ps]> k1
             | None => k1
             end).
Proof using Hattached.
  destruct Hattached
    as (Hi & (ts & Ht & Hd) & Hs & (own & ots & Hown & Hots & Hidx)).
  unfold tty0tty_tiocmset.
  rewrite Ht; cbn [mbind option_bind]. rewrite Hd; cbn [mbind option_bind].
  rewrite Hs; cbn [mbind option_bind]. rewrite Hown; cbn [mbind option_bind].
  rewrite Hots; cbn [mbind option_bind]. rewrite Hidx.
  rewrite (active_partner_valid _ i Hi); cbn [mbind option_bind].
  destruct (null_modem_set set clear _) as [m_mcr m_msr] eqn:Hregs.
  cbn [set_table tty0tty_table ttys fst snd].
  rewrite lookup_insert_eq; cbn [mbind option_bind with_mcr tty].
  rewrite Hown; cbn [mbind option_bind]. rewrite Hots; cbn [mbind option_bind].
  rewrite Hidx, (active_partner_valid _ i Hi); cbn [mbind option_bind].
  rewrite partner_rec_insert_own.
  destruct (partner_rec (tty0tty_table k) i); reflexivity.
Qed.

(** The LOOP bit of the masks is not looked at: two calls whose masks
    differ only there leave the same memory. *)
Lemma tiocmset_ignores_loop set clear set2 clear2 :
  differ_only_in TIOCM_LOOP set set2 ->
  differ_only_in TIOCM_LOOP clear clear2 ->
  tty0tty_tiocmset t set2 clear2 k = tty0tty_tiocmset t set clear k.
Proof using Hattached.
  intros Hs Hc. rewrite !tiocmset_attached.
  cbv zeta.
  rewrite (null_modem_set_masks set2 clear2 set clear);
    [reflexivity | symmetry .. ];
    (apply (differ_only_in_bit TIOCM_LOOP _ _ _ Hs)
     || apply (differ_only_in_bit TIOCM_LOOP _ _ _ Hc));
    (lia || reflexivity).
Qed.

(** C1, as the driver has it.  On an attached tty with an active
    partner (slot present, [open_count > 0]) [tty0tty_tiocmset] returns
    0 and leaves the partner's MSR wired to the request: setting RTS,
    unless the same call also clears it, asserts the partner's CTS;
    setting DTR, unless the same call also clears it, asserts its DSR
    and CD; clearing RTS clears its CTS; clearing DTR clears its DSR and
    CD.  The LOOP bit of the masks is ignored altogether: a call whose
    masks differ only in LOOP leaves exactly the same memory, so LOOP
    reaches neither the partner nor the caller's own MCR. *)
Theorem tiocmset_wiring_rule (ps : tty0tty_serial) (set clear : Z) :
  tty0tty_table k !! partner_of i = Some ps -> 0 < open_count ps ->
  exists k' ps',
    tty0tty_tiocmset t set clear k = Some (0, k') /\
    tty0tty_table k' !! partner_of i = Some ps' /\
    (truth (Z.land set TIOCM_RTS) = true ->
     truth (Z.land clear TIOCM_RTS) = false ->
       asserted (msr ps') MSR_CTS = true) /\
    (truth (Z.land set TIOCM_DTR) = true ->
     truth (Z.land clear TIOCM_DTR) = false ->
       asserted (msr ps') MSR_DSR = true /\
       asserted (msr ps') MSR_CD = true) /\
    (truth (Z.land clear TIOCM_RTS) = true ->
       asserted (msr ps') MSR_CTS = false) /\
    (truth (Z.land clear TIOCM_DTR) = true ->
       asserted (msr ps') MSR_DSR = false /\
       asserted (msr ps') MSR_CD = false) /\
    (forall set2 clear2,
       differ_only_in TIOCM_LOOP set set2 ->
       differ_only_in TIOCM_LOOP clear clear2 ->
       tty0tty_tiocmset t set2 clear2 k = Some (0, k')).
Proof using Hattached.
  intros Hp Hoc.
  assert (Hrec : partner_rec (tty0tty_table k) i = Some ps)
    by (apply partner_rec_Some; auto).
  pose proof (tiocmset_attached set clear) as Hrun.
  cbv zeta in Hrun. rewrite Hrec in Hrun.
  eexists _, _. split; [exact Hrun | ].
  split; [cbn [set_table tty0tty_table]; apply lookup_insert_eq | ].
  cbn [with_msr msr].
  assert (Hline : forall n, 0 <= n < 32 ->
            asserted
              (to_int
                 (snd (null_modem_set set clear
                         (to_unsigned (mcr s), to_unsigned (msr ps)))))
              (2 ^ n) =
            Z.testbit
              (snd (null_modem_set set clear
                      (to_unsigned (mcr s), to_unsigned (msr ps)))) n).
  { intros n Hn. rewrite asserted_bit, to_int_testbit by lia. reflexivity. }
  revert Hline. modem_bits. intros Hline.
  rewrite !Hline, !null_modem_set_msr_bit by lia.
  cbn [Z.eqb Pos.eqb orb].
  split; [ | split; [ | split; [ | split]]].
  - intros Hset Hclear. rewrite Hset, Hclear, orb_true_r. reflexivity.
  - intros Hset Hclear. rewrite Hset, Hclear, !orb_true_r.
    split; reflexivity.
  - intros Hclear. rewrite Hclear. apply andb_false_r.
  - intros Hclear. rewrite Hclear. split; apply andb_false_r.
  - intros set2 clear2 Hs Hc.
    rewrite (tiocmset_ignores_loop set clear set2 clear2 Hs Hc).
    exact Hrun.
Qed.

(** C6, as the driver has it.  On an attached tty whose partner is
    inactive (slot [NULL], or [open_count] not positive),
    [tty0tty_tiocmset] still returns 0 and still records RTS and DTR of
    the request in the caller's MCR (they follow the [set] and [clear]
    masks); every other bit of the MCR, LOOP among them, stays as it
    was, the LOOP bit of the masks being ignored.  That is its only
    write: the caller's record changes in its MCR only, every other slot
    of the table, the partner's included, and every tty stay as they
    were. *)
Theorem tiocmset_partner_inactive (set clear : Z) :
  partner_inactive k i ->
  exists k' s',
    tty0tty_tiocmset t set clear k = Some (0, k') /\
    tty0tty_table k' !! i = Some s' /\
    s' = with_mcr (mcr s') s /\
    asserted (mcr s') MCR_RTS =
      (asserted (mcr s) MCR_RTS || truth (Z.land set TIOCM_RTS))
      && negb (truth (Z.land clear TIOCM_RTS)) /\
    asserted (mcr s') MCR_DTR =
      (asserted (mcr s) MCR_DTR || truth (Z.land set TIOCM_DTR))
      && negb (truth (Z.land clear TIOCM_DTR)) /\
    (forall n, 2 <= n < 32 -> Z.testbit (mcr s') n = Z.testbit (mcr s) n) /\
    (forall j, j <> i -> tty0tty_table k' !! j = tty0tty_table k !! j) /\
    ttys k' = ttys k /\
    asserted (mcr s') MCR_LOOP = asserted (mcr s) MCR_LOOP /\
    (forall set2 clear2,
       differ_only_in TIOCM_LOOP set set2 ->
       differ_only_in TIOCM_LOOP clear clear2 ->
       tty0tty_tiocmset t set2 clear2 k = Some (0, k')).
Proof using Hattached.
  intros Hin.
  assert (Hrec : partner_rec (tty0tty_table k) i = None)
    by (apply partner_rec_None; exact Hin).
  pose proof (tiocmset_attached set clear) as Hrun.
  cbv zeta in Hrun. rewrite Hrec in Hrun.
  assert (Hmasks : forall set2 clear2,
            differ_only_in TIOCM_LOOP set set2 ->
            differ_only_in TIOCM_LOOP clear clear2 ->
            tty0tty_tiocmset t set2 clear2 k = tty0tty_tiocmset t set clear k)
    by (intros set2 clear2; apply tiocmset_ignores_loop).
  rewrite Hrun in Hmasks.
  eexists _, _. split; [exact Hrun | ].
  split; [cbn [set_table tty0tty_table]; apply lookup_insert_eq | ].
  split; [reflexivity | ]. cbn [with_mcr mcr].
  assert (Hbit : forall n, 0 <= n < 32 ->
            Z.testbit
              (to_int (fst (null_modem_set set clear (to_unsigned (mcr s), 0))))
              n =
            if n =? 1
            then (Z.testbit (mcr s) 1 || Z.testbit set 2)
                 && negb (Z.testbit clear 2)
            else if n =? 0
            then (Z.testbit (mcr s) 0 || Z.testbit set 1)
                 && negb (Z.testbit clear 1)
            else Z.testbit (mcr s) n).
  { intros n Hn. rewrite to_int_testbit, null_modem_set_mcr_bit by lia.
    rewrite !to_unsigned_testbit by lia. reflexivity. }
  modem_bits. rewrite !asserted_bit by lia.
  split; [rewrite Hbit by lia; reflexivity | ].
  split; [rewrite Hbit by lia; reflexivity | ].
  split.
  - intros n Hn. rewrite Hbit by lia.
    destruct (Z.eqb_spec n 1); [lia | ]. destruct (Z.eqb_spec n 0); [lia | ].
    reflexivity.
  - split; [ | split; [reflexivity | split; [ | exact Hmasks]]].
    + intros j Hj. cbn [set_table tty0tty_table].
      apply lookup_insert_ne. congruence.
    + change MCR_LOOP with (2 ^ 2). rewrite !asserted_bit by lia.
      rewrite Hbit by lia. reflexivity.
Qed.

(** C10.  On an attached tty [tty0tty_tiocmset] returns 0 and writes
    neither the caller's own MSR nor the partner's MCR; the partner's
    MSR afterwards is its previous MSR in every bit but CTS (4), CD (5)
    and DSR (6), so RI in particular is kept. *)
Theorem tiocmset_frame (set clear : Z) :
  exists k' s',
    tty0tty_tiocmset t set clear k = Some (0, k') /\
    tty0tty_table k' !! i = Some s' /\
    msr s' = msr s /\
    (forall ps, tty0tty_table k !! partner_of i = Some ps ->
       exists ps',
         tty0tty_table k' !! partner_of i = Some ps' /\
         mcr ps' = mcr ps /\
         asserted (msr ps') MSR_RI = asserted (msr ps) MSR_RI /\
         (forall n, 0 <= n < 32 -> n <> 4 -> n <> 5 -> n <> 6 ->
            Z.testbit (msr ps') n = Z.testbit (msr ps) n)).
Proof using Hattached.
  pose proof (tiocmset_attached set clear) as Hrun.
  cbv zeta in Hrun.
  destruct (partner_rec (tty0tty_table k) i) as [ps0 | ] eqn:Hrec.
  - apply partner_rec_Some in Hrec as [Hps0 Hoc].
    eexists _, _. split; [exact Hrun | ].
    cbn [set_table tty0tty_table].
    split.
    { rewrite lookup_insert_ne by apply partner_of_neq.
      apply lookup_insert_eq. }
    split; [reflexivity | ].
    intros ps Hps. rewrite Hps0 in Hps. injection Hps as ->.
    eexists. split; [apply lookup_insert_eq | ].
    split; [reflexivity | ]. cbn [with_msr msr].
    assert (Hbits : forall n, 0 <= n < 32 -> n <> 4 -> n <> 5 -> n <> 6 ->
              Z.testbit
                (to_int
                   (snd (null_modem_set set clear
                           (to_unsigned (mcr s), to_unsigned (msr ps))))) n =
              Z.testbit (msr ps) n).
    { intros n Hn H4 H5 H6.
      rewrite to_int_testbit, null_modem_set_msr_bit by lia.
      destruct (Z.eqb_spec n 4); [lia | ]. destruct (Z.eqb_spec n 5); [lia | ].
      destruct (Z.eqb_spec n 6); [lia | ].
      apply to_unsigned_testbit. lia. }
    split; [ | exact Hbits].
    modem_bits. rewrite !asserted_bit by lia. apply Hbits; lia.
  - eexists _, _. split; [exact Hrun | ].
    cbn [set_table tty0tty_table].
    split; [apply lookup_insert_eq | ]. split; [reflexivity | ].
    intros ps Hps. exists ps.
    split.
    { rewrite lookup_insert_ne; [exact Hps | ].
      intros Heq. apply (partner_of_neq i). symmetry. exact Heq. }
    repeat split; reflexivity.
Qed.

(** Whatever field [f] of the records is neither [mcr] nor [msr], the
    call leaves it alone in every slot; it touches no tty and no task. *)
Lemma tiocmset_other_fields {B : Type} (f : tty0tty_serial -> B)
    set clear :
  (forall v r, f (with_mcr v r) = f r) ->
  (forall v r, f (with_msr v r) = f r) ->
  exists k',
    tty0tty_tiocmset t set clear k = Some (0, k') /\
    (forall j, f <$> tty0tty_table k' !! j = f <$> tty0tty_table k !! j) /\
    ttys k' = ttys k /\ tasks k' = tasks k.
Proof using Hattached.
  intros Hmcr Hmsr.
  pose proof (tiocmset_attached set clear) as Hrun.
  cbv zeta in Hrun.
  destruct Hattached as (_ & _ & Hs & _).
  destruct (partner_rec (tty0tty_table k) i) as [ps | ] eqn:Hrec.
  - apply partner_rec_Some in Hrec as [Hps _].
    eexists. split; [exact Hrun | ].
    split; [ | split; reflexivity].
    intros j. cbn [set_table tty0tty_table].
    rewrite (lookup_insert_field f _ (partner_of i) j ps).
    + apply (lookup_insert_field f _ i j s); [exact Hs | apply Hmcr].
    + rewrite lookup_insert_ne; [exact Hps | ].
      intros Heq. apply (partner_of_neq i). symmetry. exact Heq.
    + apply Hmsr.
  - eexists. split; [exact Hrun | ].
    split; [ | split; reflexivity].
    intros j. cbn [set_table tty0tty_table].
    apply (lookup_insert_field f _ i j s); [exact Hs | apply Hmcr].
Qed.

(** C2, as the driver has it.  On an attached tty [tty0tty_tiocmset]
    returns 0 and leaves the event counters of every port as they were,
    whichever status bits of the partner it flips; it does not touch
    any wait queue or any task, so a task that sleeps in [TIOCMIWAIT]
    (state [TASK_INTERRUPTIBLE]) when the call is made is still asleep,
    with its old snapshot, once the call is over. *)
Theorem tiocmset_counts_no_edge (set clear : Z) :
  exists k',
    tty0tty_tiocmset t set clear k = Some (0, k') /\
    (forall j,
       icount <$> tty0tty_table k' !! j = icount <$> tty0tty_table k !! j) /\
    (forall j,
       wait <$> tty0tty_table k' !! j = wait <$> tty0tty_table k !! j) /\
    tasks k' = tasks k /\
    (forall current c j arg cprev,
       tasks k !! current = Some c -> state c = TASK_INTERRUPTIBLE ->
       tiocmiwait_run current j arg cprev k
         [after (tty0tty_tiocmset t set clear)]
       = Some (Sleeping cprev, k')).
Proof using Hattached.
  destruct (tiocmset_other_fields icount set clear) as
    (k' & Hrun & Hic & _ & Htasks); [reflexivity | reflexivity | ].
  destruct (tiocmset_other_fields wait set clear) as
    (k2 & Hrun2 & Hwait & _ & _); [reflexivity | reflexivity | ].
  rewrite Hrun in Hrun2. injection Hrun2 as <-.
  exists k'. split; [exact Hrun | ]. split; [exact Hic | ].
  split; [exact Hwait | ]. split; [exact Htasks | ].
  intros current c j arg cprev Hc Hst.
  cbn [tiocmiwait_run]. unfold after. rewrite Hrun, Htasks, Hc.
  cbn [mbind option_bind]. rewrite Hst. reflexivity.
Qed.

(** [tty0tty_write] in closed form, the port being open. *)
Lemma write_attached buffer count :
  open_count s <> 0 ->
  tty0tty_write t buffer count k =
    match partner_rec (tty0tty_table k) i with
    | Some ps =>
        match tty ps with
        | Some x => k' ← flip_push x buffer count k; Some (count, k')
        | None => Some (- EINVAL, k)
        end
    | None => Some (- EINVAL, k)
    end.
Proof using Hattached.
  destruct Hattached
    as (Hi & (ts & Ht & Hd) & Hs & (own & ots & Hown & Hots & Hidx)).
  intros Hoc.
  unfold tty0tty_write.
  rewrite Ht; cbn [mbind option_bind]. rewrite Hd, Hs; cbn [mbind option_bind].
  destruct (Z.eqb_spec (open_count s) 0) as [H0 | _]; [contradiction | ].
  rewrite Hown; cbn [mbind option_bind]. rewrite Hots; cbn [mbind option_bind].
  rewrite Hidx, (active_partner_valid _ i Hi); cbn [mbind option_bind].
  destruct (partner_rec (tty0tty_table k) i) as [ps | ]; [ | reflexivity].
  destruct (tty ps); reflexivity.
Qed.

End Attached.

Ltac attached_tac :=
  split; [unfold valid_index, TINY_TTY_MINORS; lia | ];
  split; [eexists; split; reflexivity | ];
  split; [reflexivity | ];
  eexists _, _; repeat split; reflexivity.

(** ** Setting the modem lines: instances *)

Lemma tiocmset_wiring_rule_witness :
  exists k' ps',
    tty0tty_tiocmset tty_a TIOCM_RTS 0 pair_open = Some (0, k') /\
    tty0tty_table k' !! 1 = Some ps' /\
    asserted (msr ps') MSR_CTS = true /\
    tty0tty_tiocmset tty_a (Z.lor TIOCM_RTS TIOCM_LOOP) 0 pair_open
      = Some (0, k').
Proof.
  destruct (tiocmset_wiring_rule pair_open tty_a 0 (port tty_a 1 0 0)
              ltac:(attached_tac) (port tty_b 1 0 0) TIOCM_RTS 0)
    as (k' & ps' & Hrun & Hps & Hrts & _ & _ & _ & Hloop).
  - reflexivity.
  - reflexivity.
  - exists k', ps'. split; [exact Hrun | ]. split; [exact Hps | ].
    split; [apply Hrts; reflexivity | ].
    apply Hloop; reflexivity.
Defined.

(** C1 as worded fails in two places, both ports being open with all
    lines down.  A call that sets LOOP on port 0 returns 0 with the
    memory as it was: the caller's MCR does not carry LOOP afterwards
    and [tty0tty_tiocmget] does not report it.  And a call that names
    RTS in both masks sets RTS and yet leaves the partner's CTS down,
    the clearing being done last. *)
Lemma tiocmset_loop_not_recorded :
  (tty0tty_tiocmset tty_a TIOCM_LOOP 0 pair_open = Some (0, pair_open) /\
   tty0tty_tiocmget tty_a pair_open = Some 0 /\
   ~ (exists k' s',
        tty0tty_tiocmset tty_a TIOCM_LOOP 0 pair_open = Some (0, k') /\
        tty0tty_table k' !! 0 = Some s' /\
        asserted (mcr s') MCR_LOOP = true)) /\
  (truth (Z.land TIOCM_RTS TIOCM_RTS) = true /\
   exists k' ps',
     tty0tty_tiocmset tty_a TIOCM_RTS TIOCM_RTS pair_open = Some (0, k') /\
     tty0tty_table k' !! 1 = Some ps' /\
     asserted (msr ps') MSR_CTS = false).
Proof.
  assert (Hsame : tty0tty_tiocmset tty_a TIOCM_LOOP 0 pair_open
                  = Some (0, pair_open)) by reflexivity.
  split.
  - split; [exact Hsame | ]. split; [reflexivity | ].
    intros (k' & s' & Hrun & Hs & Hloop).
    rewrite Hsame in Hrun. injection Hrun as <-.
    vm_compute in Hs. injection Hs as <-. discriminate Hloop.
  - split; [reflexivity | ].
    eexists _, _. split; [vm_compute; reflexivity | ].
    split; [vm_compute; reflexivity | reflexivity].
Qed.

(** C6 as worded fails: port 0 is open, port 1 is closed, and port 0
    asks for LOOP.  The call returns 0 with the memory as it was: the
    local control register has not been updated with the requested
    mask, LOOP is not in it, and [tty0tty_tiocmget] does not report
    it. *)
Lemma tiocmset_loop_dropped_alone :
  tty0tty_tiocmset tty_a TIOCM_LOOP 0 partner_closed
    = Some (0, partner_closed) /\
  tty0tty_tiocmget tty_a partner_closed = Some 0 /\
  ~ (exists k' s',
       tty0tty_tiocmset tty_a TIOCM_LOOP 0 partner_closed = Some (0, k') /\
       tty0tty_table k' !! 0 = Some s' /\
       asserted (mcr s') MCR_LOOP = true).
Proof.
  assert (Hsame : tty0tty_tiocmset tty_a TIOCM_LOOP 0 partner_closed
                  = Some (0, partner_closed)) by reflexivity.
  split; [exact Hsame | ]. split; [reflexivity | ].
  intros (k' & s' & Hrun & Hs & Hloop).
  rewrite Hsame in Hrun. injection Hrun as <-.
  vm_compute in Hs. injection Hs as <-. discriminate Hloop.
Qed.

Lemma tiocmset_partner_inactive_witness :
  exists k' s',
    tty0tty_tiocmset tty_a TIOCM_DTR 0 partner_closed = Some (0, k') /\
    tty0tty_table k' !! 0 = Some s' /\
    asserted (mcr s') MCR_DTR = true /\
    tty0tty_table k' !! 1 = tty0tty_table partner_closed !! 1.
Proof.
  destruct (tiocmset_partner_inactive partner_closed tty_a 0
              (port tty_a 1 0 0) ltac:(attached_tac) TIOCM_DTR 0)
    as (k' & s' & Hrun & Hs & _ & _ & Hdtr & _ & Hframe & _).
  - unfold partner_inactive.
    change (tty0tty_table partner_closed !! partner_of 0)
      with (Some (port tty_b 0 0 0)).
    simpl. lia.
  - exists k', s'. split; [exact Hrun | ]. split; [exact Hs | ].
    split; [rewrite Hdtr; reflexivity | ].
    apply Hframe. lia.
Defined.

Lemma tiocmset_frame_witness :
  exists k' s' ps',
    tty0tty_tiocmset tty_a (Z.lor TIOCM_RTS TIOCM_DTR) 0 pair_open
      = Some (0, k') /\
    tty0tty_table k' !! 0 = Some s' /\ msr s' = 0 /\
    tty0tty_table k' !! 1 = Some ps' /\ mcr ps' = 0 /\
    asserted (msr ps') MSR_RI = false.
Proof.
  destruct (tiocmset_frame pair_open tty_a 0 (port tty_a 1 0 0)
              ltac:(attached_tac) (Z.lor TIOCM_RTS TIOCM_DTR) 0)
    as (k' & s' & Hrun & Hs & Hmsr & Hp).
  destruct (Hp (port tty_b 1 0 0)) as (ps' & Hps & Hmcr & Hri & _);
      [reflexivity | ].
  exists k', s', ps'. repeat split; assumption.
Defined.

Lemma tiocmset_counts_no_edge_witness :
  exists k',
    tty0tty_tiocmset tty_a TIOCM_RTS 0 pair_waiting = Some (0, k') /\
    icount <$> tty0tty_table k' !! 1
      = icount <$> tty0tty_table pair_waiting !! 1 /\
    tiocmiwait_run task_w 1 TIOCM_CTS zero_icount pair_waiting
      [after (tty0tty_tiocmset tty_a TIOCM_RTS 0)]
    = Some (Sleeping zero_icount, k').
Proof.
  destruct (tiocmset_counts_no_edge pair_waiting tty_a 0 (port tty_a 1 0 0)
              ltac:(attached_tac) TIOCM_RTS 0)
    as (k' & Hrun & Hic & _ & _ & Hsleep).
  exists k'. split; [exact Hrun | ]. split; [apply Hic | ].
  apply (Hsleep task_w
           {| state := TASK_INTERRUPTIBLE; sigpending := false |});
    reflexivity.
Defined.

(** C2 as worded fails: with both ports open, port 0 sets RTS and then
    clears it.  Port 1's CTS goes up and down again, yet its CTS counter
    is what it was (not two more), and a task that called [TIOCMIWAIT]
    for CTS on port 1 before the two calls is still asleep after them. *)
Lemma tiocmset_rts_edges_not_counted :
  exists k1 k2 b0 b1 b2 kw,
    tty0tty_tiocmset tty_a TIOCM_RTS 0 pair_open = Some (0, k1) /\
    tty0tty_tiocmset tty_a 0 TIOCM_RTS k1 = Some (0, k2) /\
    tty0tty_table pair_open !! 1 = Some b0 /\
    tty0tty_table k1 !! 1 = Some b1 /\
    tty0tty_table k2 !! 1 = Some b2 /\
    asserted (msr b0) MSR_CTS = false /\
    asserted (msr b1) MSR_CTS = true /\
    asserted (msr b2) MSR_CTS = false /\
    cts (icount b1) = cts (icount b0) /\
    cts (icount b2) = cts (icount b0) /\
    cts (icount b2) <> cts (icount b0) + 2 /\
    tty0tty_ioctl_tiocmiwait task_w tty_b TIOCMIWAIT TIOCM_CTS pair_open
      [after (tty0tty_tiocmset tty_a TIOCM_RTS 0);
       after (tty0tty_tiocmset tty_a 0 TIOCM_RTS)]
    = Some (Sleeping zero_icount, kw).
Proof.
  eexists _, _, _, _, _, _.
  split; [vm_compute; reflexivity | ].
  split; [vm_compute; reflexivity | ].
  split; [vm_compute; reflexivity | ].
  split; [vm_compute; reflexivity | ].
  split; [vm_compute; reflexivity | ].
  split; [reflexivity | ]. split; [reflexivity | ]. split; [reflexivity | ].
  split; [reflexivity | ]. split; [reflexivity | ].
  split; [intros H; discriminate H | ].
  vm_compute. reflexivity.
Qed.

(** ** Writing data *)

(** C3, as the driver has it.  A write on a port that is not open
    returns [-EINVAL]; a write on an open port whose partner is
    inactive (slot [NULL], or [open_count] not positive) returns
    [-EINVAL] as well, whatever the number of bytes.  In both cases the
    memory is left exactly as it was: nothing is delivered or queued
    and no counter moves. *)
Theorem write_without_listener (k : kernel) (t : tty_ptr) (ts : tty_struct)
    (i : Z) (s : tty0tty_serial) (buffer : list Z) (count : Z) :
  ttys k !! t = Some ts -> driver_data ts = Some i ->
  tty0tty_table k !! i = Some s ->
  (open_count s = 0 ->
     tty0tty_write t buffer count k = Some (- EINVAL, k)) /\
  (0 < open_count s -> attached k t i s -> partner_inactive k i ->
     tty0tty_write t buffer count k = Some (- EINVAL, k)).
Proof.
  intros Ht Hd Hs. split.
  - intros H0. unfold tty0tty_write.
    rewrite Ht; cbn [mbind option_bind]. rewrite Hd, Hs; cbn [mbind option_bind].
    rewrite H0. reflexivity.
  - intros Hoc Ha Hin. rewrite (write_attached k t i s Ha) by lia.
    assert (Hrec : partner_rec (tty0tty_table k) i = None)
      by (apply partner_rec_None; exact Hin).
    rewrite Hrec. reflexivity.
Qed.

Lemma write_without_listener_witness :
  tty0tty_write tty_a [65; 66; 67] 3 partner_closed
    = Some (- EINVAL, partner_closed) /\
  tty0tty_write tty_b [65; 66; 67] 3 partner_closed
    = Some (- EINVAL, partner_closed).
Proof.
  split.
  - destruct (write_without_listener partner_closed tty_a
                (tty_of 0)
                0 (port tty_a 1 0 0) [65; 66; 67] 3)
      as [_ Hlonely]; [reflexivity | reflexivity | reflexivity | ].
    apply Hlonely.
    + reflexivity.
    + attached_tac.
    + unfold partner_inactive.
      change (tty0tty_table partner_closed !! partner_of 0)
        with (Some (port tty_b 0 0 0)).
      simpl. lia.
  - destruct (write_without_listener partner_closed tty_b
                (tty_of 1)
                1 (port tty_b 0 0 0) [65; 66; 67] 3)
      as [Hclosed _]; [reflexivity | reflexivity | reflexivity | ].
    apply Hclosed. reflexivity.
Defined.

(** C3 as worded fails: port 0 is open, port 1 is closed, and three
    bytes are written to port 0.  The call does not report 3 bytes
    accepted but [-EINVAL], and the sender's [tx] counter is what it
    was, not three more. *)
Lemma write_to_closed_partner_rejected :
  exists r k' a0 a1,
    tty0tty_write tty_a [65; 66; 67] 3 partner_closed = Some (r, k') /\
    r = - EINVAL /\ r <> 3 /\
    tty0tty_table partner_closed !! 0 = Some a0 /\
    tty0tty_table k' !! 0 = Some a1 /\
    tx (icount a1) = tx (icount a0) /\
    tx (icount a1) <> tx (icount a0) + 3.
Proof.
  eexists _, _, _, _.
  split; [vm_compute; reflexivity | ].
  split; [reflexivity | ]. split; [intros H; discriminate H | ].
  split; [vm_compute; reflexivity | ]. split; [vm_compute; reflexivity | ].
  split; [reflexivity | intros H; discriminate H].
Qed.

(** ** Waiting for a change *)

Lemma no_change_true cnow cprev :
  no_change cnow cprev = true <-> counters_unchanged cnow cprev.
Proof.
  unfold no_change, counters_unchanged.
  rewrite !andb_true_iff, !Z.eqb_eq. tauto.
Qed.

Lemma asked_change_true arg cnow cprev :
  asked_change arg cnow cprev = true <-> requested_changed arg cnow cprev.
Proof.
  unfold asked_change, requested_changed.
  rewrite !orb_true_iff, !andb_true_iff, !negb_true_iff, !Z.eqb_neq. tauto.
Qed.

Lemma requested_changed_some_changed arg cnow cprev :
  requested_changed arg cnow cprev -> ~ counters_unchanged cnow cprev.
Proof. unfold requested_changed, counters_unchanged. tauto. Qed.

(** Queueing the task and marking it asleep, on a head that is well
    formed. *)
Lemma tiocmiwait_sleep_spec current i s q c k :
  tty0tty_table k !! i = Some s -> wait s = Some q ->
  tasks k !! current = Some c ->
  tiocmiwait_sleep current i k
  = Some (set_tasks <[current := with_state TASK_INTERRUPTIBLE c]>
            (set_table <[i := with_wait (Some (current :: q)) s]> k)).
Proof.
  intros Hs Hq Hc. unfold tiocmiwait_sleep, add_wait_queue, set_current_state.
  rewrite Hs. cbn [mbind option_bind]. rewrite Hq.
  cbn [mbind option_bind set_table tasks]. rewrite Hc. reflexivity.
Qed.

Lemma unlink_here current q : unlink current (current :: q) = q.
Proof. cbn [unlink]. rewrite decide_True by reflexivity. reflexivity. Qed.

(** On a head that is not well formed the call is undefined. *)
Lemma tiocmiwait_no_head current t ts i s0 arg k env :
  ttys k !! t = Some ts -> driver_data ts = Some i ->
  tty0tty_table k !! i = Some s0 -> wait s0 = None ->
  tty0tty_ioctl_tiocmiwait current t TIOCMIWAIT arg k env = None.
Proof.
  intros Ht Hd Hs Hq.
  unfold tty0tty_ioctl_tiocmiwait, tiocmiwait_sleep, add_wait_queue.
  rewrite Ht; cbn [mbind option_bind]. rewrite Z.eqb_refl, Hd.
  cbn [mbind option_bind]. rewrite Hs. cbn [mbind option_bind].
  rewrite Hq. reflexivity.
Qed.

(** The call reaches its first [schedule()]. *)
Lemma tiocmiwait_enters current t ts i s0 q c0 arg k env :
  ttys k !! t = Some ts -> driver_data ts = Some i ->
  tty0tty_table k !! i = Some s0 -> wait s0 = Some q ->
  tasks k !! current = Some c0 -> sigpending c0 = false ->
  tty0tty_ioctl_tiocmiwait current t TIOCMIWAIT arg k env
  = tiocmiwait_run current i arg (icount s0)
      (set_tasks <[current := with_state TASK_INTERRUPTIBLE c0]>
         (set_table <[i := with_wait (Some (current :: q)) s0]> k)) env.
Proof.
  intros Ht Hd Hs Hq Hc Hsig. unfold tty0tty_ioctl_tiocmiwait.
  rewrite Ht; cbn [mbind option_bind]. rewrite Z.eqb_refl, Hd.
  cbn [mbind option_bind]. rewrite Hs. cbn [mbind option_bind].
  rewrite (tiocmiwait_sleep_spec current i s0 q c0 k Hs Hq Hc).
  cbn [mbind option_bind set_tasks tasks]. rewrite lookup_insert_eq.
  cbn [mbind option_bind with_state sigpending]. rewrite Hsig. reflexivity.
Qed.

(** With a signal pending at the first [schedule()] the call comes
    back at once. *)
Lemma tiocmiwait_enters_signalled current t ts i s0 q c0 arg k env :
  ttys k !! t = Some ts -> driver_data ts = Some i ->
  tty0tty_table k !! i = Some s0 -> wait s0 = Some q ->
  tasks k !! current = Some c0 -> sigpending c0 = true ->
  exists kq,
    tty0tty_ioctl_tiocmiwait current t TIOCMIWAIT arg k env
    = Some (Returned (- ERESTARTSYS), kq) /\
    wait <$> tty0tty_table kq !! i = Some (Some q) /\
    state <$> tasks kq !! current = Some TASK_RUNNING.
Proof.
  intros Ht Hd Hs Hq Hc Hsig. unfold tty0tty_ioctl_tiocmiwait.
  rewrite Ht; cbn [mbind option_bind]. rewrite Z.eqb_refl, Hd.
  cbn [mbind option_bind]. rewrite Hs. cbn [mbind option_bind].
  rewrite (tiocmiwait_sleep_spec current i s0 q c0 k Hs Hq Hc).
  cbn [mbind option_bind set_tasks tasks]. rewrite lookup_insert_eq.
  cbn [mbind option_bind with_state sigpending]. rewrite Hsig.
  unfold set_current_state. cbn [tasks set_tasks]. rewrite lookup_insert_eq.
  cbn [mbind option_bind].
  unfold tiocmiwait_wake, remove_wait_queue.
  cbn [set_tasks set_table tty0tty_table ttys tasks].
  rewrite lookup_insert_eq. cbn [mbind option_bind with_wait wait].
  rewrite decide_True by apply list_elem_of_here.
  cbn [mbind option_bind set_table set_tasks tasks].
  rewrite lookup_insert_eq.
  cbn [mbind option_bind with_state sigpending]. rewrite Hsig.
  eexists. split; [reflexivity | ].
  cbn [set_table set_tasks tty0tty_table tasks].
  rewrite !lookup_insert_eq, unlink_here. split; reflexivity.
Qed.

(** One return of [schedule()]: the four ways the loop goes on. *)
Lemma tiocmiwait_run_wake current i arg cprev k f env c s q :
  tasks (f k) !! current = Some c -> state c = TASK_RUNNING ->
  tty0tty_table (f k) !! i = Some s -> wait s = Some q -> current ∈ q ->
  exists kq,
    remove_wait_queue current i (f k) = Some kq /\
    wait <$> tty0tty_table kq !! i = Some (Some (unlink current q)) /\
    (sigpending c = true ->
       tiocmiwait_run current i arg cprev k (f :: env)
       = Some (Returned (- ERESTARTSYS), kq)) /\
    (sigpending c = false -> counters_unchanged (icount s) cprev ->
       tiocmiwait_run current i arg cprev k (f :: env)
       = Some (Returned (- EIO), kq)) /\
    (sigpending c = false -> requested_changed arg (icount s) cprev ->
       tiocmiwait_run current i arg cprev k (f :: env)
       = Some (Returned 0, kq)) /\
    (sigpending c = false -> ~ counters_unchanged (icount s) cprev ->
     ~ requested_changed arg (icount s) cprev ->
       exists ks,
         tiocmiwait_sleep current i kq = Some ks /\
         wait <$> tty0tty_table ks !! i
           = Some (Some (current :: unlink current q)) /\
         state <$> tasks ks !! current = Some TASK_INTERRUPTIBLE /\
         tiocmiwait_run current i arg cprev k (f :: env)
         = tiocmiwait_run current i arg (icount s) ks env).
Proof.
  intros Hc Hst Hs Hq Hin.
  assert (Hrm : remove_wait_queue current i (f k)
               = Some (set_table
                         <[i := with_wait (Some (unlink current q)) s]>
                         (f k))).
  { unfold remove_wait_queue. rewrite Hs. cbn [mbind option_bind].
    rewrite Hq. cbn [mbind option_bind].
    rewrite decide_True by exact Hin. reflexivity. }
  eexists. split; [exact Hrm | ].
  split; [cbn [set_table tty0tty_table]; rewrite lookup_insert_eq;
          reflexivity | ].
  assert (Hrun : tiocmiwait_run current i arg cprev k (f :: env) =
                 r ← tiocmiwait_wake current i arg cprev (f k);
                 match r with
                 | (Returned v, k') => Some (Returned v, k')
                 | (Sleeping cnow, k') =>
                     tiocmiwait_run current i arg cnow k' env
                 end).
  { cbn [tiocmiwait_run]. rewrite Hc. cbn [mbind option_bind].
    rewrite Hst. reflexivity. }
  rewrite Hrun. unfold tiocmiwait_wake. rewrite Hrm.
  cbn [mbind option_bind set_table tasks tty0tty_table].
  rewrite Hc, lookup_insert_eq. cbn [mbind option_bind with_wait icount].
  split; [ | split; [ | split; [ | ]]].
  - intros ->. reflexivity.
  - intros -> Hno. apply no_change_true in Hno. rewrite Hno. reflexivity.
  - intros -> Hask.
    pose proof (requested_changed_some_changed _ _ _ Hask) as Hno.
    rewrite <- no_change_true in Hno. apply not_true_is_false in Hno.
    apply asked_change_true in Hask. rewrite Hno, Hask. reflexivity.
  - intros -> Hno Hask.
    rewrite <- no_change_true in Hno. rewrite <- asked_change_true in Hask.
    apply not_true_is_false in Hno, Hask. rewrite Hno, Hask.
    rewrite (tiocmiwait_sleep_spec current i
               (with_wait (Some (unlink current q)) s)
               (unlink current q) c);
      [ | cbn [set_table tty0tty_table]; apply lookup_insert_eq
        | reflexivity | exact Hc].
    cbn [mbind option_bind]. eexists. split; [reflexivity | ].
    cbn [set_tasks set_table tty0tty_table tasks].
    rewrite !lookup_insert_eq. repeat split; reflexivity.
Qed.

(** C4.  What [tty0tty_ioctl_tiocmiwait] does on a record of the
    table.  On a record whose wait queue head nobody has initialised,
    the call is undefined at its first [add_wait_queue].  On a record
    whose head is well formed the call is as the claim says.  It takes a
    snapshot of the counters, queues the task and marks it
    [TASK_INTERRUPTIBLE]; with a signal already pending it comes back
    at once with [-ERESTARTSYS], otherwise it sleeps, and stays asleep
    for as long as the task is not made runnable.  Every time the
    scheduler runs the task again the loop takes the task off the
    queue and goes one of four ways: with a signal pending it returns
    [-ERESTARTSYS]; otherwise, if none of the four monitored counters
    (RI, DSR, CD, CTS) differs from the last snapshot, it returns
    [-EIO]; otherwise, if a counter whose line is named in the mask
    differs, it returns 0; otherwise it keeps the counters it has just
    read as the new snapshot, queues the task again, marks it
    [TASK_INTERRUPTIBLE] and sleeps on. *)
Theorem tiocmiwait_outcomes (current : positive) (t : tty_ptr)
    (ts : tty_struct) (i : Z) (s0 : tty0tty_serial) (c0 : task_struct)
    (arg : Z) (k : kernel) :
  ttys k !! t = Some ts -> driver_data ts = Some i ->
  tty0tty_table k !! i = Some s0 -> tasks k !! current = Some c0 ->
  (wait s0 = None ->
     forall env,
       tty0tty_ioctl_tiocmiwait current t TIOCMIWAIT arg k env = None) /\
  (forall q, wait s0 = Some q ->
     exists k1,
       tiocmiwait_sleep current i k = Some k1 /\
       wait <$> tty0tty_table k1 !! i = Some (Some (current :: q)) /\
       state <$> tasks k1 !! current = Some TASK_INTERRUPTIBLE /\
       (sigpending c0 = false -> forall env,
          tty0tty_ioctl_tiocmiwait current t TIOCMIWAIT arg k env
          = tiocmiwait_run current i arg (icount s0) k1 env) /\
       (sigpending c0 = true -> forall env, exists kq,
          tty0tty_ioctl_tiocmiwait current t TIOCMIWAIT arg k env
          = Some (Returned (- ERESTARTSYS), kq) /\
          wait <$> tty0tty_table kq !! i = Some (Some q))) /\
  (forall cprev ka,
     tiocmiwait_run current i arg cprev ka [] = Some (Sleeping cprev, ka)) /\
  (forall cprev ka f env c,
     tasks (f ka) !! current = Some c -> state c = TASK_INTERRUPTIBLE ->
     tiocmiwait_run current i arg cprev ka (f :: env)
     = tiocmiwait_run current i arg cprev (f ka) env) /\
  (forall cprev ka f env c s q,
     tasks (f ka) !! current = Some c -> state c = TASK_RUNNING ->
     tty0tty_table (f ka) !! i = Some s -> wait s = Some q -> current ∈ q ->
     exists kq,
       remove_wait_queue current i (f ka) = Some kq /\
       wait <$> tty0tty_table kq !! i = Some (Some (unlink current q)) /\
       (sigpending c = true ->
          tiocmiwait_run current i arg cprev ka (f :: env)
          = Some (Returned (- ERESTARTSYS), kq)) /\
       (sigpending c = false -> counters_unchanged (icount s) cprev ->
          tiocmiwait_run current i arg cprev ka (f :: env)
          = Some (Returned (- EIO), kq)) /\
       (sigpending c = false -> requested_changed arg (icount s) cprev ->
          tiocmiwait_run current i arg cprev ka (f :: env)
          = Some (Returned 0, kq)) /\
       (sigpending c = false -> ~ counters_unchanged (icount s) cprev ->
        ~ requested_changed arg (icount s) cprev ->
          exists ks,
            tiocmiwait_sleep current i kq = Some ks /\
            wait <$> tty0tty_table ks !! i
              = Some (Some (current :: unlink current q)) /\
            state <$> tasks ks !! current = Some TASK_INTERRUPTIBLE /\
            tiocmiwait_run current i arg cprev ka (f :: env)
            = tiocmiwait_run current i arg (icount s) ks env)).
Proof.
  intros Ht Hd Hs Hc. split; [ | split; [ | split; [ | split]]].
  - intros Hq env. apply (tiocmiwait_no_head current t ts i s0); assumption.
  - intros q Hq. eexists.
    split; [apply (tiocmiwait_sleep_spec current i s0 q c0 k Hs Hq Hc) | ].
    cbn [set_tasks set_table tty0tty_table tasks].
    rewrite !lookup_insert_eq.
    split; [reflexivity | ]. split; [reflexivity | ]. split.
    + intros Hsig env.
      apply (tiocmiwait_enters current t ts i s0 q c0); assumption.
    + intros Hsig env.
      destruct (tiocmiwait_enters_signalled current t ts i s0 q c0 arg k env
                  Ht Hd Hs Hq Hc Hsig) as (kq & Hrun & Hwait & _).
      exists kq. split; assumption.
  - reflexivity.
  - intros cprev ka f env c Hcf Hst. cbn [tiocmiwait_run].
    rewrite Hcf. cbn [mbind option_bind]. rewrite Hst. reflexivity.
  - intros cprev ka f env c s q. apply tiocmiwait_run_wake.
Qed.

(** On the record that the first open creates the call is undefined.
    With both ports open on well-formed heads: a spurious wake-up
    (task runnable, no signal, no counter moved) ends the call with
    [-EIO]; a signal ends it with [-ERESTARTSYS]; a counted CTS edge
    ends a wait for CTS with 0 and sends a wait for DSR back to sleep,
    queued again, with the counters it saw as its snapshot. *)
Lemma tiocmiwait_outcomes_witness :
  tty0tty_ioctl_tiocmiwait task_w tty_b TIOCMIWAIT TIOCM_CTS first_opened
    [make_runnable task_w false] = None /\
  (exists kq,
     tty0tty_ioctl_tiocmiwait task_w tty_b TIOCMIWAIT TIOCM_CTS pair_open
       [make_runnable task_w false]
     = Some (Returned (- EIO), kq)) /\
  (exists kq,
     tty0tty_ioctl_tiocmiwait task_w tty_b TIOCMIWAIT TIOCM_CTS pair_open
       [make_runnable task_w true]
     = Some (Returned (- ERESTARTSYS), kq)) /\
  (exists kq,
     tty0tty_ioctl_tiocmiwait task_w tty_b TIOCMIWAIT TIOCM_CTS pair_open
       [make_runnable task_w false ∘ count_cts 1]
     = Some (Returned 0, kq)) /\
  (exists ks,
     tty0tty_ioctl_tiocmiwait task_w tty_b TIOCMIWAIT TIOCM_DSR pair_open
       [make_runnable task_w false ∘ count_cts 1]
     = Some (Sleeping (icount (counted 1)), ks) /\
     wait <$> tty0tty_table ks !! 1 = Some (Some [task_w]) /\
     state <$> tasks ks !! task_w = Some TASK_INTERRUPTIBLE).
Proof.
  split.
  - destruct (tiocmiwait_outcomes task_w tty_b (tty_of 1) 1
                (with_open_count 1
                   (with_tty (Some tty_b) (with_msr 0 (with_open_count 0 junk))))
                {| state := TASK_RUNNING; sigpending := false |}
                TIOCM_CTS first_opened)
      as (Hundef & _);
      [reflexivity | reflexivity | reflexivity | reflexivity | ].
    apply Hundef. reflexivity.
  - assert (Hall : forall arg,
              exists k1,
                tiocmiwait_sleep task_w 1 pair_open = Some k1 /\
                (forall env,
                   tty0tty_ioctl_tiocmiwait task_w tty_b TIOCMIWAIT arg
                     pair_open env
                   = tiocmiwait_run task_w 1 arg zero_icount k1 env) /\
                (forall f env c s q,
                   tasks (f k1) !! task_w = Some c ->
                   state c = TASK_RUNNING ->
                   tty0tty_table (f k1) !! 1 = Some s ->
                   wait s = Some q -> task_w ∈ q ->
                   exists kq,
                     (sigpending c = true ->
                        tiocmiwait_run task_w 1 arg zero_icount k1 (f :: env)
                        = Some (Returned (- ERESTARTSYS), kq)) /\
                     (sigpending c = false ->
                      counters_unchanged (icount s) zero_icount ->
                        tiocmiwait_run task_w 1 arg zero_icount k1 (f :: env)
                        = Some (Returned (- EIO), kq)) /\
                     (sigpending c = false ->
                      requested_changed arg (icount s) zero_icount ->
                        tiocmiwait_run task_w 1 arg zero_icount k1 (f :: env)
                        = Some (Returned 0, kq)) /\
                     (sigpending c = false ->
                      ~ counters_unchanged (icount s) zero_icount ->
                      ~ requested_changed arg (icount s) zero_icount ->
                        exists ks,
                          wait <$> tty0tty_table ks !! 1
                            = Some (Some (task_w :: unlink task_w q)) /\
                          state <$> tasks ks !! task_w
                            = Some TASK_INTERRUPTIBLE /\
                          tiocmiwait_run task_w 1 arg zero_icount k1
                            (f :: env)
                          = tiocmiwait_run task_w 1 arg (icount s) ks env))).
    { intros arg.
      destruct (tiocmiwait_outcomes task_w tty_b (tty_of 1) 1
                  (port tty_b 1 0 0)
                  {| state := TASK_RUNNING; sigpending := false |}
                  arg pair_open)
        as (_ & Henter & _ & _ & Hwake);
        [reflexivity | reflexivity | reflexivity | reflexivity | ].
      destruct (Henter [] eq_refl) as (k1 & Hsleep & _ & _ & Hrun & _).
      exists k1. split; [exact Hsleep | ].
      split; [apply Hrun; reflexivity | ].
      intros f env c s q Hc Hst Hs Hq Hin.
      destruct (Hwake zero_icount k1 f env c s q Hc Hst Hs Hq Hin)
        as (kq & _ & _ & Hsig & Heio & Hzero & Hagain).
      exists kq. split; [exact Hsig | ]. split; [exact Heio | ].
      split; [exact Hzero | ].
      intros H1 H2 H3. destruct (Hagain H1 H2 H3) as (ks & _ & Hks).
      exists ks. exact Hks. }
    destruct (Hall TIOCM_CTS) as (k1 & Hsleep & Henter & Hwake).
    destruct (Hall TIOCM_DSR) as (k1' & Hsleep' & Henter' & Hwake').
    rewrite Hsleep in Hsleep'. injection Hsleep' as <-.
    assert (Hk1 : Some k1 = tiocmiwait_sleep task_w 1 pair_open)
      by (symmetry; exact Hsleep).
    vm_compute in Hk1. injection Hk1 as Hk1.
    split; [ | split; [ | split]].
    + destruct (Hwake (make_runnable task_w false) []
                  {| state := TASK_RUNNING; sigpending := false |}
                  (with_wait (Some [task_w]) (port tty_b 1 0 0)) [task_w])
        as (kq & _ & Heio & _);
        [rewrite Hk1; reflexivity | reflexivity | rewrite Hk1; reflexivity
        | reflexivity | apply list_elem_of_here | ].
      exists kq. rewrite Henter. apply Heio; [reflexivity | ].
      repeat split; reflexivity.
    + destruct (Hwake (make_runnable task_w true) []
                  {| state := TASK_RUNNING; sigpending := true |}
                  (with_wait (Some [task_w]) (port tty_b 1 0 0)) [task_w])
        as (kq & Hsig & _);
        [rewrite Hk1; reflexivity | reflexivity | rewrite Hk1; reflexivity
        | reflexivity | apply list_elem_of_here | ].
      exists kq. rewrite Henter. apply Hsig. reflexivity.
    + destruct (Hwake (make_runnable task_w false ∘ count_cts 1) []
                  {| state := TASK_RUNNING; sigpending := false |}
                  (with_wait (Some [task_w]) (counted 1)) [task_w])
        as (kq & _ & _ & Hzero & _);
        [rewrite Hk1; reflexivity | reflexivity | rewrite Hk1; reflexivity
        | reflexivity | apply list_elem_of_here | ].
      exists kq. rewrite Henter. apply Hzero; [reflexivity | ].
      right. right. right. split; [reflexivity | ].
      cbn. intros H; discriminate H.
    + destruct (Hwake' (make_runnable task_w false ∘ count_cts 1) []
                  {| state := TASK_RUNNING; sigpending := false |}
                  (with_wait (Some [task_w]) (counted 1)) [task_w])
        as (kq & _ & _ & _ & Hagain);
        [rewrite Hk1; reflexivity | reflexivity | rewrite Hk1; reflexivity
        | reflexivity | apply list_elem_of_here | ].
      destruct Hagain as (ks & Hq & Hst & Hrun).
      * reflexivity.
      * intros (_ & _ & _ & Hcts). cbn in Hcts. discriminate Hcts.
      * intros [[H _] | [[_ H] | [[H _] | [H _]]]];
          [vm_compute in H; discriminate H | apply H; reflexivity
          | vm_compute in H; discriminate H | vm_compute in H; discriminate H].
      * exists ks. rewrite Henter', Hrun. rewrite unlink_here in Hq.
        split; [reflexivity | ]. split; [exact Hq | exact Hst].
Defined.

(** ** Opening a port *)

Lemma open_returns k t ts fresh s1 :
  ttys k !! t = Some ts -> valid_index (index ts) ->
  slot_or_fresh (tty0tty_table k) (index ts) fresh = Some s1 ->
  tty0tty_open t fresh k =
    Some (0,
      {| ttys := <[t := with_driver_data (Some (index ts)) ts]>
                   (<[t := with_driver_data None ts]> (ttys k));
         tty0tty_table :=
           <[index ts :=
               with_open_count (to_int (open_count s1 + 1))
                 (with_tty (Some t)
                    (with_msr
                       (null_modem_msr
                          (partner_mcr (tty0tty_table k) (index ts))) s1))]>
             (<[index ts := s1]> (tty0tty_table k));
         tasks := tasks k |}).
Proof.
  intros Ht Hi Hslot. unfold tty0tty_open.
  rewrite Ht; cbn [mbind option_bind set_ttys tty0tty_table].
  rewrite (table_at_valid _ _ Hi); cbn [mbind option_bind].
  unfold slot_or_fresh in Hslot.
  destruct (tty0tty_table k !! index ts) as [s | ] eqn:Hs.
  - injection Hslot as ->.
    rewrite (active_partner_valid _ _ Hi).
    cbn [mbind option_bind set_ttys tty0tty_table].
    rewrite Hs; cbn [mbind option_bind].
    unfold set_table, set_ttys, partner_mcr; cbn [ttys tty0tty_table tasks].
    rewrite (insert_id (tty0tty_table k) (index ts) s1) by exact Hs.
    reflexivity.
  - destruct fresh as [m | ]; [ | discriminate Hslot].
    injection Hslot as <-. cbn [set_table set_ttys tty0tty_table].
    rewrite (active_partner_valid _ _ Hi); cbn [mbind option_bind].
    rewrite partner_rec_insert_own, lookup_insert_eq.
    cbn [mbind option_bind].
    unfold set_table, set_ttys, partner_mcr; cbn [ttys tty0tty_table tasks].
    reflexivity.
Qed.

(** What a successful open leaves in the table. *)
Lemma open_table k t ts fresh s1 :
  ttys k !! t = Some ts -> valid_index (index ts) ->
  slot_or_fresh (tty0tty_table k) (index ts) fresh = Some s1 ->
  exists k' s',
    tty0tty_open t fresh k = Some (0, k') /\
    tty0tty_table k' !! index ts = Some s' /\
    msr s' = null_modem_msr (partner_mcr (tty0tty_table k) (index ts)) /\
    open_count s' = to_int (open_count s1 + 1) /\
    mcr s' = mcr s1 /\ icount s' = icount s1 /\ tty s' = Some t /\
    (forall j, j <> index ts ->
       tty0tty_table k' !! j = tty0tty_table k !! j).
Proof.
  intros Ht Hi Hslot. eexists _, _.
  split; [apply (open_returns k t ts fresh s1 Ht Hi Hslot) | ].
  cbn [tty0tty_table].
  split; [apply lookup_insert_eq | ].
  repeat (split; [reflexivity | ]).
  intros j Hj. rewrite !lookup_insert_ne by congruence. reflexivity.
Qed.

(** A successful open attaches the tty to its port. *)
Lemma open_attaches k t ts fresh s1 :
  ttys k !! t = Some ts -> valid_index (index ts) ->
  slot_or_fresh (tty0tty_table k) (index ts) fresh = Some s1 ->
  exists k' s',
    tty0tty_open t fresh k = Some (0, k') /\ attached k' t (index ts) s'.
Proof.
  intros Ht Hi Hslot. eexists _, _.
  split; [apply (open_returns k t ts fresh s1 Ht Hi Hslot) | ].
  unfold attached. cbn [ttys tty0tty_table].
  split; [exact Hi | ]. split.
  - eexists. split; [apply lookup_insert_eq | reflexivity].
  - split; [apply lookup_insert_eq | ].
    eexists _, _. split; [reflexivity | ].
    split; [apply lookup_insert_eq | reflexivity].
Qed.

Lemma asserted_null_modem_msr m :
  asserted (null_modem_msr m) MSR_CTS = asserted m MCR_RTS /\
  asserted (null_modem_msr m) MSR_DSR = asserted m MCR_DTR /\
  asserted (null_modem_msr m) MSR_CD = asserted m MCR_DTR /\
  asserted (null_modem_msr m) MSR_RI = false.
Proof.
  modem_bits. rewrite !asserted_bit, !null_modem_msr_bit by lia.
  repeat split; reflexivity.
Qed.

(** C5.  An open of a port whose partner is active (slot present,
    [open_count > 0]) returns 0 and leaves the port's MSR computed from
    the partner's current MCR by the wiring rule: CTS is up exactly
    when the partner's RTS is, DSR and CD exactly when its DTR is, RI is
    down; so with RTS and DTR up at the partner the opener sees CTS, DSR
    and CD at once.  The open counts nothing: the port's counters are
    those its record had (those of the new block on the very first
    open) and every other slot, the partner's with its counters, is as
    it was.  This holds for every such open, the first one included. *)
Theorem open_seeds_status (k : kernel) (t : tty_ptr) (ts : tty_struct)
    (fresh : option tty0tty_serial) (s1 ps : tty0tty_serial) :
  ttys k !! t = Some ts -> valid_index (index ts) ->
  slot_or_fresh (tty0tty_table k) (index ts) fresh = Some s1 ->
  tty0tty_table k !! partner_of (index ts) = Some ps -> 0 < open_count ps ->
  exists k' s',
    tty0tty_open t fresh k = Some (0, k') /\
    tty0tty_table k' !! index ts = Some s' /\
    msr s' = null_modem_msr (mcr ps) /\
    asserted (msr s') MSR_CTS = asserted (mcr ps) MCR_RTS /\
    asserted (msr s') MSR_DSR = asserted (mcr ps) MCR_DTR /\
    asserted (msr s') MSR_CD = asserted (mcr ps) MCR_DTR /\
    asserted (msr s') MSR_RI = false /\
    icount s' = icount s1 /\
    (forall j, j <> index ts ->
       tty0tty_table k' !! j = tty0tty_table k !! j).
Proof.
  intros Ht Hi Hslot Hps Hoc.
  destruct (open_table k t ts fresh s1 Ht Hi Hslot)
    as (k' & s' & Hrun & Hs' & Hmsr & _ & _ & Hic & _ & Hframe).
  assert (Hrec : partner_rec (tty0tty_table k) (index ts) = Some ps)
    by (apply partner_rec_Some; auto).
  unfold partner_mcr in Hmsr. rewrite Hrec in Hmsr.
  exists k', s'. split; [exact Hrun | ]. split; [exact Hs' | ].
  split; [exact Hmsr | ]. rewrite Hmsr.
  destruct (asserted_null_modem_msr (mcr ps)) as (H1 & H2 & H3 & H4).
  repeat (split; [assumption | ]). exact Hframe.
Qed.

Lemma open_seeds_status_witness :
  exists k' s',
    tty0tty_open tty_a (Some junk) partner_ready = Some (0, k') /\
    tty0tty_table k' !! 0 = Some s' /\
    asserted (msr s') MSR_CTS = true /\
    asserted (msr s') MSR_DSR = true /\
    asserted (msr s') MSR_CD = true /\
    icount s' = icount junk.
Proof.
  destruct (open_seeds_status partner_ready tty_a
              (tty_of 0)
              (Some junk) (with_open_count 0 junk) (port tty_b 1 0 3))
    as (k' & s' & Hrun & Hs' & _ & Hcts & Hdsr & Hcd & _ & Hic & _).
  - reflexivity.
  - unfold valid_index, TINY_TTY_MINORS. simpl. lia.
  - reflexivity.
  - reflexivity.
  - reflexivity.
  - exists k', s'. split; [exact Hrun | ]. split; [exact Hs' | ].
    split; [rewrite Hcts; reflexivity | ].
    split; [rewrite Hdsr; reflexivity | ].
    split; [rewrite Hcd; reflexivity | exact Hic].
Defined.

(** C9.  Every open that finds or gets a record (that is, every open
    but one whose [kmalloc] fails) returns 0 and stores a whole new MSR
    in the port's record, whatever the old MSR and the old count were.
    With the partner active the new MSR is wired to the partner's MCR:
    CTS is up exactly when the partner's RTS is, DSR and CD exactly when
    its DTR is, and every other bit is down.  With the partner [NULL] or
    not open it is 0.  So an open of a port that is already open, made
    after the partner has closed, leaves the MSR at 0. *)
Theorem open_overwrites_status (k : kernel) (t : tty_ptr) (ts : tty_struct)
    (fresh : option tty0tty_serial) (s1 : tty0tty_serial) :
  ttys k !! t = Some ts -> valid_index (index ts) ->
  slot_or_fresh (tty0tty_table k) (index ts) fresh = Some s1 ->
  exists k' s',
    tty0tty_open t fresh k = Some (0, k') /\
    tty0tty_table k' !! index ts = Some s' /\
    msr s' = null_modem_msr (partner_mcr (tty0tty_table k) (index ts)) /\
    (forall ps, tty0tty_table k !! partner_of (index ts) = Some ps ->
       0 < open_count ps ->
       msr s' = null_modem_msr (mcr ps) /\
       asserted (msr s') MSR_CTS = asserted (mcr ps) MCR_RTS /\
       asserted (msr s') MSR_DSR = asserted (mcr ps) MCR_DTR /\
       asserted (msr s') MSR_CD = asserted (mcr ps) MCR_DTR /\
       (forall n, 0 <= n -> n <> 4 -> n <> 5 -> n <> 6 ->
                  Z.testbit (msr s') n = false)) /\
    (partner_inactive k (index ts) -> msr s' = 0).
Proof.
  intros Ht Hi Hslot.
  destruct (open_table k t ts fresh s1 Ht Hi Hslot)
    as (k' & s' & Hrun & Hs' & Hmsr & _).
  exists k', s'. split; [exact Hrun | ]. split; [exact Hs' | ].
  split; [exact Hmsr | ]. split.
  - intros ps Hps Hoc.
    assert (Hrec : partner_rec (tty0tty_table k) (index ts) = Some ps)
      by (apply partner_rec_Some; auto).
    unfold partner_mcr in Hmsr. rewrite Hrec in Hmsr.
    split; [exact Hmsr | ]. rewrite Hmsr.
    destruct (asserted_null_modem_msr (mcr ps)) as (Hcts & Hdsr & Hcd & _).
    split; [exact Hcts | ]. split; [exact Hdsr | ]. split; [exact Hcd | ].
    intros n Hn H4 H5 H6. rewrite null_modem_msr_bit by exact Hn.
    destruct (Z.eqb_spec n 4); [contradiction | ].
    destruct (Z.eqb_spec n 5); [contradiction | ].
    destruct (Z.eqb_spec n 6); [contradiction | ]. reflexivity.
  - intros Hin.
    assert (Hrec : partner_rec (tty0tty_table k) (index ts) = None)
      by (apply partner_rec_None; exact Hin).
    rewrite Hmsr. unfold partner_mcr. rewrite Hrec. reflexivity.
Qed.

(** Port 0 is open with CTS and RI up in its MSR.  Opened again while
    port 1 is open with DTR alone, it reads DSR and CD and nothing else;
    opened again after port 1 has closed, it reads 0. *)
Lemma open_overwrites_status_witness :
  (exists k' s',
     msr <$> tty0tty_table stale_status !! 0 = Some 0x90 /\
     tty0tty_open tty_a None stale_status = Some (0, k') /\
     tty0tty_table k' !! 0 = Some s' /\
     asserted (msr s') MSR_DSR = true /\ asserted (msr s') MSR_CD = true /\
     asserted (msr s') MSR_CTS = false /\ asserted (msr s') MSR_RI = false) /\
  (exists k' s0 s',
     tty0tty_table partner_gone !! 0 = Some s0 /\
     open_count s0 = 1 /\ msr s0 = 0x70 /\
     tty0tty_open tty_a None partner_gone = Some (0, k') /\
     tty0tty_table k' !! 0 = Some s' /\
     msr s' = 0).
Proof.
  split.
  - destruct (open_overwrites_status stale_status tty_a (tty_of 0)
                None (port tty_a 1 0x90 0))
      as (k' & s' & Hrun & Hs' & _ & Hwired & _).
    + reflexivity.
    + unfold valid_index, TINY_TTY_MINORS. simpl. lia.
    + reflexivity.
    + destruct (Hwired (port tty_b 1 0 1))
        as (_ & Hcts & Hdsr & Hcd & Hrest); [reflexivity | reflexivity | ].
      exists k', s'. split; [reflexivity | ]. split; [exact Hrun | ].
      split; [exact Hs' | ].
      split; [rewrite Hdsr; reflexivity | ].
      split; [rewrite Hcd; reflexivity | ].
      split; [rewrite Hcts; reflexivity | ].
      change MSR_RI with (2 ^ 7). rewrite asserted_bit by lia.
      apply Hrest; lia.
  - destruct (open_overwrites_status partner_gone tty_a (tty_of 0)
                None (port tty_a 1 0x70 0))
      as (k' & s' & Hrun & Hs' & _ & _ & Hzero).
    + reflexivity.
    + unfold valid_index, TINY_TTY_MINORS. simpl. lia.
    + reflexivity.
    + exists k', (port tty_a 1 0x70 0), s'.
      split; [reflexivity | ]. split; [reflexivity | ].
      split; [reflexivity | ].
      split; [exact Hrun | ]. split; [exact Hs' | ].
      apply Hzero. unfold partner_inactive.
      change (tty0tty_table partner_gone !! partner_of (index (tty_of 0)))
        with (Some (port tty_b 0 0 3)).
      simpl. lia.
Defined.

(** ** The open count *)

(** [H : (x ← o; f x) = Some _]: [o] is some [x], named with its
    equation. *)
Tactic Notation "open_bind" hyp(H) "as" simple_intropattern(x) ident(E) :=
  match type of H with
  | mbind _ ?o = Some _ =>
      destruct o as [x | ] eqn:E; cbn [mbind option_bind] in H;
      [ | discriminate H]
  end.

Lemma table_at_Some tbl i slot :
  table_at tbl i = Some slot -> valid_index i /\ slot = tbl !! i.
Proof.
  unfold table_at, valid_index.
  destruct (Z.leb_spec 0 i), (Z.ltb_spec i TINY_TTY_MINORS);
    cbn [andb]; intros [= <-]; auto.
Qed.

Lemma active_partner_lookup tbl idx ps :
  active_partner tbl idx = Some (Some ps) -> tbl !! partner_of idx = Some ps.
Proof.
  unfold active_partner. intros H. open_bind H as slot E.
  apply table_at_Some in E as [_ ->].
  destruct (tbl !! partner_of idx) as [s | ]; [ | discriminate H].
  destruct (0 <? open_count s); [ | discriminate H].
  injection H as ->. reflexivity.
Qed.


(** A push that is defined changes the receiving tty and nothing
    else. *)
Lemma flip_push_Some x buffer count k k2 :
  flip_push x buffer count k = Some k2 ->
  exists tx,
    ttys k !! x = Some tx /\
    0 <= count <= Z.of_nat (length buffer) /\
    k2 = set_ttys
           <[x := with_flip
                    (flip_buffer tx
                     ++ take (Z.to_nat (flip_copied count (flip_room tx)))
                          buffer)
                    (flip_room tx - flip_copied count (flip_room tx)) tx]> k.
Proof.
  unfold flip_push. intros H. open_bind H as tx Htx.
  destruct (Z.leb_spec 0 count), (Z.leb_spec count (Z.of_nat (length buffer)));
    cbn [andb] in H; try discriminate H.
  injection H as <-. exists tx. split; [reflexivity | ]. split; [lia | ].
  reflexivity.
Qed.

Lemma write_table t buffer count k r k' :
  tty0tty_write t buffer count k = Some (r, k') ->
  tty0tty_table k' = tty0tty_table k.
Proof.
  unfold tty0tty_write. intros H. open_bind H as ts Ht.
  destruct (driver_data ts); [ | injection H as <- <-; reflexivity].
  open_bind H as s Hs.
  destruct (open_count s =? 0); [injection H as <- <-; reflexivity | ].
  open_bind H as own Hown. open_bind H as ots Hots. open_bind H as p Hp.
  destruct (match p with Some ps => tty ps | None => None end);
    [ | injection H as <- <-; reflexivity].
  open_bind H as k2 Hpush. injection H as <- <-.
  apply flip_push_Some in Hpush as (tx & _ & _ & ->). reflexivity.
Qed.















(** * Further properties of the driver *)

(** ** Data reaching the partner *)

Lemma flip_push_spec x tx buffer count k :
  ttys k !! x = Some tx -> 0 <= count <= Z.of_nat (length buffer) ->
  flip_push x buffer count k =
    Some (set_ttys
            <[x := with_flip
                     (flip_buffer tx
                      ++ take (Z.to_nat (flip_copied count (flip_room tx)))
                           buffer)
                     (flip_room tx - flip_copied count (flip_room tx)) tx]>
            k).
Proof.
  intros Hx Hcount. unfold flip_push. rewrite Hx. cbn [mbind option_bind].
  destruct (Z.leb_spec 0 count); [ | lia].
  destruct (Z.leb_spec count (Z.of_nat (length buffer))); [ | lia].
  reflexivity.
Qed.

(** A write does not undo what [tty0tty_open] set up. *)
Lemma write_keeps_attached k t i s buffer count r k' :
  attached k t i s ->
  tty0tty_write t buffer count k = Some (r, k') ->
  attached k' t i s.
Proof.
  intros Ha Hrun.
  pose proof (write_table _ _ _ _ _ _ Hrun) as Htbl.
  destruct Ha as (Hi & (ts & Ht & Hd) & Hs & (own & ots & Hown & Hots & Hidx)).
  assert (Hkeep : forall y ty, ttys k !! y = Some ty ->
            exists ty', ttys k' !! y = Some ty' /\
                        index ty' = index ty /\
                        driver_data ty' = driver_data ty).
  { revert Hrun. unfold tty0tty_write. intros H. open_bind H as ts0 Ht0.
    destruct (driver_data ts0);
      [ | injection H as <- <-; intros y ty Hy; exists ty; auto].
    open_bind H as s0 Hs0.
    destruct (open_count s0 =? 0);
      [injection H as <- <-; intros y ty Hy; exists ty; auto | ].
    open_bind H as own0 Hown0. open_bind H as ots0 Hots0.
    open_bind H as p Hp.
    destruct (match p with Some ps => tty ps | None => None end) as [x | ];
      [ | injection H as <- <-; intros y ty Hy; exists ty; auto].
    open_bind H as k2 Hpush. injection H as <- <-.
    apply flip_push_Some in Hpush as (tx & Htx & _ & ->).
    intros y ty Hy. cbn [set_ttys ttys].
    destruct (decide (x = y)) as [<- | Hne].
    - rewrite lookup_insert_eq. rewrite Htx in Hy. injection Hy as <-.
      eexists. split; [reflexivity | split; reflexivity].
    - rewrite lookup_insert_ne by exact Hne. exists ty. auto. }
  destruct (Hkeep t ts Ht) as (ts' & Ht' & _ & Hd').
  destruct (Hkeep own ots Hots) as (ots' & Hots' & Hidx' & _).
  split; [exact Hi | ]. split.
  - exists ts'. split; [exact Ht' | congruence].
  - split; [rewrite Htbl; exact Hs | ].
    exists own, ots'. split; [exact Hown | ]. split; [exact Hots' | congruence].
Qed.

(** X1.  A write of [count] bytes (the buffer holding at least that
    many) through an attached tty of an open port whose partner is
    active, the partner's record pointing at a live tty.  The call
    returns [count] whatever [tty_insert_flip_string] copied: the
    partner's tty receives, after what it had, the first bytes of the
    buffer in order, as many as its flip buffer takes and at most
    [count].  With room for all of them it receives all [count]; with
    room for fewer it receives as many as there is room for, fewer
    than the call reports, the number copied being dropped by the
    driver.  No other tty, no record of the
    table and no task is touched. *)
Theorem write_delivers (k : kernel) (t x : tty_ptr) (i : Z)
    (s ps : tty0tty_serial) (tx : tty_struct) (buffer : list Z) (count : Z) :
  attached k t i s -> open_count s <> 0 ->
  tty0tty_table k !! partner_of i = Some ps -> 0 < open_count ps ->
  tty ps = Some x -> ttys k !! x = Some tx ->
  0 <= count <= Z.of_nat (length buffer) ->
  exists k' tx',
    tty0tty_write t buffer count k = Some (count, k') /\
    ttys k' !! x = Some tx' /\
    flip_buffer tx'
      = flip_buffer tx
        ++ take (Z.to_nat (Z.min count (Z.max 0 (flip_room tx)))) buffer /\
    (count <= flip_room tx ->
       flip_buffer tx' = flip_buffer tx ++ take (Z.to_nat count) buffer) /\
    (0 <= flip_room tx < count ->
       Z.of_nat (length (flip_buffer tx'))
       = Z.of_nat (length (flip_buffer tx)) + flip_room tx) /\
    index tx' = index tx /\ driver_data tx' = driver_data tx /\
    (forall y, y <> x -> ttys k' !! y = ttys k !! y) /\
    tty0tty_table k' = tty0tty_table k /\
    tasks k' = tasks k.
Proof.
  intros Ha Hoc Hps Hpos Hx Htx Hcount.
  assert (Hrec : partner_rec (tty0tty_table k) i = Some ps)
    by (apply partner_rec_Some; auto).
  rewrite (write_attached k t i s Ha buffer count Hoc), Hrec, Hx.
  rewrite (flip_push_spec x tx buffer count k Htx Hcount).
  cbn [mbind option_bind].
  eexists _, _. split; [reflexivity | ].
  cbn [set_ttys ttys tty0tty_table tasks].
  split; [apply lookup_insert_eq | ].
  cbn [with_flip flip_buffer index driver_data]. unfold flip_copied.
  split; [reflexivity | ]. split; [ | split].
  - intros Hroom. do 3 f_equal. lia.
  - intros Hroom. rewrite length_app, length_take. lia.
  - split; [reflexivity | ]. split; [reflexivity | ].
    split; [ | split; reflexivity].
    intros y Hy. apply lookup_insert_ne. congruence.
Qed.

(** Three bytes written with room for two of them at the other side:
    the call returns 3 and two bytes arrive. *)
Lemma write_delivers_witness :
  exists k' tx',
    tty0tty_write tty_a [65; 66; 67] 3
      (set_ttys <[tty_b := with_flip [] 2 (tty_of 1)]> pair_open)
    = Some (3, k') /\
    ttys k' !! tty_b = Some tx' /\ flip_buffer tx' = [65; 66].
Proof.
  destruct (write_delivers
              (set_ttys <[tty_b := with_flip [] 2 (tty_of 1)]> pair_open)
              tty_a tty_b 0 (port tty_a 1 0 0) (port tty_b 1 0 0)
              (with_flip [] 2 (tty_of 1)) [65; 66; 67] 3)
    as (k' & tx' & Hrun & Htx' & Hflip & _).
  - attached_tac.
  - discriminate.
  - reflexivity.
  - reflexivity.
  - reflexivity.
  - reflexivity.
  - cbn. lia.
  - exists k', tx'. split; [exact Hrun | ]. split; [exact Htx' | exact Hflip].
Defined.

(** ** Reading the modem lines *)

Ltac line_bits :=
  change TIOCM_RI with TIOCM_RNG; change TIOCM_CD with TIOCM_CAR;
  change TIOCM_LOOP with (2 ^ 15); change TIOCM_CTS with (2 ^ 5);
  change TIOCM_CAR with (2 ^ 6); change TIOCM_RNG with (2 ^ 7);
  change TIOCM_DSR with (2 ^ 8); change MCR_LOOP with (2 ^ 2);
  modem_bits.

Lemma testbit_line (b : bool) a n :
  0 <= a -> Z.testbit (if b then 2 ^ a else 0) n = b && (a =? n).
Proof.
  intros Ha. destruct b; cbn [andb].
  - apply Z.pow2_bits_eqb, Ha.
  - apply Z.bits_0.
Qed.

(** Bit by bit, what [tty0tty_tiocmget] answers for a record. *)
Lemma tiocmget_bits k t ts i s :
  ttys k !! t = Some ts -> driver_data ts = Some i ->
  tty0tty_table k !! i = Some s ->
  exists r,
    tty0tty_tiocmget t k = Some r /\
    forall n,
      Z.testbit r n =
        (Z.testbit (mcr s) 0 && (1 =? n))
        || (Z.testbit (mcr s) 1 && (2 =? n))
        || (Z.testbit (mcr s) 2 && (15 =? n))
        || (Z.testbit (msr s) 4 && (5 =? n))
        || (Z.testbit (msr s) 5 && (6 =? n))
        || (Z.testbit (msr s) 7 && (7 =? n))
        || (Z.testbit (msr s) 6 && (8 =? n)).
Proof.
  intros Ht Hd Hs. unfold tty0tty_tiocmget.
  rewrite Ht; cbn [mbind option_bind]. rewrite Hd; cbn [mbind option_bind].
  rewrite Hs; cbn [mbind option_bind]. cbv zeta beta.
  eexists. split; [reflexivity | ].
  intros n. line_bits.
  rewrite !to_unsigned_testbit by lia.
  rewrite !Z.lor_spec, !testbit_line by lia.
  rewrite !orb_assoc. reflexivity.
Qed.

(** X3.  [tty0tty_tiocmget] through a tty that points at a record
    reports each of the seven lines from its own register bit (DTR, RTS
    and LOOP from the MCR; CTS, CAR, RI and DSR from the MSR), one line
    never leaking into another, and sets no other bit of its answer. *)
Theorem tiocmget_reports_lines (k : kernel) (t : tty_ptr) (ts : tty_struct)
    (i : Z) (s : tty0tty_serial) :
  ttys k !! t = Some ts -> driver_data ts = Some i ->
  tty0tty_table k !! i = Some s ->
  exists r,
    tty0tty_tiocmget t k = Some r /\
    asserted r TIOCM_DTR = asserted (mcr s) MCR_DTR /\
    asserted r TIOCM_RTS = asserted (mcr s) MCR_RTS /\
    asserted r TIOCM_LOOP = asserted (mcr s) MCR_LOOP /\
    asserted r TIOCM_CTS = asserted (msr s) MSR_CTS /\
    asserted r TIOCM_CAR = asserted (msr s) MSR_CD /\
    asserted r TIOCM_RI = asserted (msr s) MSR_RI /\
    asserted r TIOCM_DSR = asserted (msr s) MSR_DSR /\
    (forall n, n <> 1 -> n <> 2 -> n <> 15 -> n <> 5 -> n <> 6 -> n <> 7 ->
               n <> 8 -> Z.testbit r n = false).
Proof.
  intros Ht Hd Hs.
  destruct (tiocmget_bits k t ts i s Ht Hd Hs) as (r & Hrun & Hbits).
  exists r. split; [exact Hrun | ].
  line_bits. rewrite !asserted_bit, !Hbits by lia.
  cbn [Z.eqb Pos.eqb andb orb].
  repeat (split; [rewrite ?andb_true_r, ?andb_false_r, ?orb_false_r;
                  reflexivity | ]).
  intros n H1 H2 H15 H5 H6 H7 H8. rewrite Hbits.
  repeat match goal with
         | |- context [?a =? n] => destruct (Z.eqb_spec a n); [lia | ]
         end.
  rewrite !andb_false_r. reflexivity.
Qed.

Lemma tiocmget_reports_lines_witness :
  exists r,
    tty0tty_tiocmget tty_a partner_gone = Some r /\
    asserted r TIOCM_CTS = true /\ asserted r TIOCM_RI = false /\
    Z.testbit r 0 = false.
Proof.
  destruct (tiocmget_reports_lines partner_gone tty_a
              (tty_of 0)
              0 (port tty_a 1 0x70 0))
    as (r & Hrun & _ & _ & _ & Hcts & _ & Hri & _ & Hrest);
    [reflexivity | reflexivity | reflexivity | ].
  exists r. split; [exact Hrun | ].
  split; [rewrite Hcts; reflexivity | ].
  split; [rewrite Hri; reflexivity | ].
  apply Hrest; lia.
Defined.

(** ** Setting the lines, then reading them *)

(** The two records [tty0tty_tiocmset] leaves, bit by bit. *)
Lemma tiocmset_records k t i s set clear :
  attached k t i s ->
  exists k' s',
    tty0tty_tiocmset t set clear k = Some (0, k') /\
    ttys k' = ttys k /\
    tty0tty_table k' !! i = Some s' /\
    msr s' = msr s /\
    (forall n, 0 <= n < 32 ->
       Z.testbit (mcr s') n =
         if n =? 1
         then (Z.testbit (mcr s) 1 || Z.testbit set 2)
              && negb (Z.testbit clear 2)
         else if n =? 0
         then (Z.testbit (mcr s) 0 || Z.testbit set 1)
              && negb (Z.testbit clear 1)
         else Z.testbit (mcr s) n) /\
    (forall ps, tty0tty_table k !! partner_of i = Some ps ->
       exists ps',
         tty0tty_table k' !! partner_of i = Some ps' /\
         mcr ps' = mcr ps /\
         (open_count ps <= 0 -> ps' = ps) /\
         (0 < open_count ps ->
          forall n, 0 <= n < 32 ->
            Z.testbit (msr ps') n =
              if n =? 4
              then (Z.testbit (msr ps) 4 || Z.testbit set 2)
                   && negb (Z.testbit clear 2)
              else if (n =? 5) || (n =? 6)
              then (Z.testbit (msr ps) n || Z.testbit set 1)
                   && negb (Z.testbit clear 1)
              else Z.testbit (msr ps) n)).
Proof.
  intros Ha.
  pose proof (tiocmset_attached k t i s Ha set clear) as Hrun.
  cbv zeta in Hrun.
  assert (Hmcr : forall m0 n, 0 <= n < 32 ->
            Z.testbit
              (to_int (fst (null_modem_set set clear (to_unsigned (mcr s), m0))))
              n =
            if n =? 1
            then (Z.testbit (mcr s) 1 || Z.testbit set 2)
                 && negb (Z.testbit clear 2)
            else if n =? 0
            then (Z.testbit (mcr s) 0 || Z.testbit set 1)
                 && negb (Z.testbit clear 1)
            else Z.testbit (mcr s) n).
  { intros m0 n Hn. rewrite to_int_testbit, null_modem_set_mcr_bit by lia.
    rewrite !to_unsigned_testbit by lia. reflexivity. }
  destruct (partner_rec (tty0tty_table k) i) as [ps0 | ] eqn:Hrec.
  - apply partner_rec_Some in Hrec as [Hps0 Hoc].
    eexists _, _. split; [exact Hrun | ]. split; [reflexivity | ].
    cbn [set_table tty0tty_table]. split.
    { rewrite lookup_insert_ne by apply partner_of_neq.
      apply lookup_insert_eq. }
    split; [reflexivity | ]. split; [apply Hmcr | ].
    intros ps Hps. rewrite Hps0 in Hps. injection Hps as ->.
    eexists. split; [apply lookup_insert_eq | ].
    split; [reflexivity | ]. split; [lia | ].
    intros _ n Hn. cbn [with_msr msr].
    rewrite to_int_testbit, null_modem_set_msr_bit by lia.
    rewrite !to_unsigned_testbit by lia. reflexivity.
  - apply partner_rec_None in Hrec.
    eexists _, _. split; [exact Hrun | ]. split; [reflexivity | ].
    cbn [set_table tty0tty_table].
    split; [apply lookup_insert_eq | ]. split; [reflexivity | ].
    split; [apply Hmcr | ].
    intros ps Hps. rewrite Hps in Hrec. exists ps.
    split.
    { rewrite lookup_insert_ne; [exact Hps | ].
      intros Heq. apply (partner_of_neq i). symmetry. exact Heq. }
    split; [reflexivity | ]. split; [reflexivity | lia].
Qed.

(** X4.  Reading back what was set.  After [tty0tty_tiocmset] through
    an attached tty, [tty0tty_tiocmget] through the same tty reports RTS
    (and DTR) up exactly when it was up before or the call set it, and
    the call did not clear it; every other bit of the answer, the
    caller's own CTS, CAR, RI, DSR and LOOP among them, is as
    [tty0tty_tiocmget] answered before the call. *)
Theorem tiocmget_after_tiocmset (k : kernel) (t : tty_ptr) (i : Z)
    (s : tty0tty_serial) (set clear : Z) :
  attached k t i s ->
  exists k' r0 r,
    tty0tty_tiocmget t k = Some r0 /\
    tty0tty_tiocmset t set clear k = Some (0, k') /\
    tty0tty_tiocmget t k' = Some r /\
    asserted r TIOCM_RTS =
      (asserted r0 TIOCM_RTS || truth (Z.land set TIOCM_RTS))
      && negb (truth (Z.land clear TIOCM_RTS)) /\
    asserted r TIOCM_DTR =
      (asserted r0 TIOCM_DTR || truth (Z.land set TIOCM_DTR))
      && negb (truth (Z.land clear TIOCM_DTR)) /\
    (forall n, n <> 1 -> n <> 2 -> Z.testbit r n = Z.testbit r0 n).
Proof.
  intros Ha.
  destruct (tiocmset_records k t i s set clear Ha)
    as (k' & s' & Hrun & Httys & Hs' & Hmsr & Hmcr & _).
  destruct Ha as (_ & (ts & Ht & Hd) & Hs & _).
  destruct (tiocmget_bits k t ts i s Ht Hd Hs) as (r0 & Hget0 & Hb0).
  assert (Ht' : ttys k' !! t = Some ts) by (rewrite Httys; exact Ht).
  destruct (tiocmget_bits k' t ts i s' Ht' Hd Hs') as (r & Hget & Hb).
  exists k', r0, r. split; [exact Hget0 | ]. split; [exact Hrun | ].
  split; [exact Hget | ].
  line_bits. rewrite !asserted_bit, !Hb, !Hb0, Hmsr by lia.
  cbn [Z.eqb Pos.eqb andb orb].
  rewrite ?andb_true_r, ?andb_false_r, ?orb_false_r, ?orb_false_l.
  rewrite !Hmcr by lia. cbn [Z.eqb Pos.eqb].
  split; [reflexivity | ]. split; [reflexivity | ].
  assert (Hloop : Z.testbit (mcr s') 2 = Z.testbit (mcr s) 2)
    by (rewrite Hmcr by lia; reflexivity).
  intros n H1 H2. rewrite Hb, Hb0, Hmsr, Hloop.
  destruct (Z.eqb_spec 1 n); [lia | ]. destruct (Z.eqb_spec 2 n); [lia | ].
  rewrite !andb_false_r. reflexivity.
Qed.

Lemma tiocmget_after_tiocmset_witness :
  exists k' r,
    tty0tty_tiocmset tty_a TIOCM_RTS TIOCM_DTR partner_gone = Some (0, k') /\
    tty0tty_tiocmget tty_a k' = Some r /\
    asserted r TIOCM_RTS = true /\ asserted r TIOCM_DTR = false /\
    asserted r TIOCM_CTS = true.
Proof.
  destruct (tiocmget_after_tiocmset partner_gone tty_a 0
              (port tty_a 1 0x70 0) TIOCM_RTS TIOCM_DTR)
    as (k' & r0 & r & Hget0 & Hrun & Hget & Hrts & Hdtr & Hrest).
  - attached_tac.
  - exists k', r. split; [exact Hrun | ]. split; [exact Hget | ].
    assert (Hr0 : r0 = Z.lor TIOCM_CTS (Z.lor TIOCM_CAR TIOCM_DSR)).
    { vm_compute in Hget0. injection Hget0 as <-. reflexivity. }
    subst r0.
    split; [rewrite Hrts; reflexivity | ].
    split; [rewrite Hdtr; reflexivity | ].
    change TIOCM_CTS with (2 ^ 5). rewrite asserted_bit by lia.
    rewrite Hrest by lia. reflexivity.
Defined.

(** X5.  The other end of the cable.  After [tty0tty_tiocmset] through
    an attached tty, [tty0tty_tiocmget] through a tty of the partner
    port answers as before when the partner is not open; when it is
    open, CTS follows the caller's RTS request and DSR and CAR follow
    its DTR request (up when up before or set, unless cleared), and all
    other bits of the answer, RI and the partner's own DTR, RTS and LOOP
    among them, are as before. *)
Theorem partner_tiocmget_after_tiocmset (k : kernel) (t t2 : tty_ptr)
    (ts2 : tty_struct) (i : Z) (s ps : tty0tty_serial) (set clear : Z) :
  attached k t i s ->
  ttys k !! t2 = Some ts2 -> driver_data ts2 = Some (partner_of i) ->
  tty0tty_table k !! partner_of i = Some ps ->
  exists k' r0 r,
    tty0tty_tiocmget t2 k = Some r0 /\
    tty0tty_tiocmset t set clear k = Some (0, k') /\
    tty0tty_tiocmget t2 k' = Some r /\
    (open_count ps <= 0 -> r = r0) /\
    (0 < open_count ps ->
       asserted r TIOCM_CTS =
         (asserted r0 TIOCM_CTS || truth (Z.land set TIOCM_RTS))
         && negb (truth (Z.land clear TIOCM_RTS)) /\
       asserted r TIOCM_DSR =
         (asserted r0 TIOCM_DSR || truth (Z.land set TIOCM_DTR))
         && negb (truth (Z.land clear TIOCM_DTR)) /\
       asserted r TIOCM_CAR =
         (asserted r0 TIOCM_CAR || truth (Z.land set TIOCM_DTR))
         && negb (truth (Z.land clear TIOCM_DTR)) /\
       (forall n, n <> 5 -> n <> 6 -> n <> 8 ->
          Z.testbit r n = Z.testbit r0 n)).
Proof.
  intros Ha Ht2 Hd2 Hps.
  destruct (tiocmset_records k t i s set clear Ha)
    as (k' & s' & Hrun & Httys & _ & _ & _ & Hpartner).
  destruct (Hpartner ps Hps) as (ps' & Hps' & Hmcr & Hidle & Hmsr).
  destruct (tiocmget_bits k t2 ts2 _ ps Ht2 Hd2 Hps) as (r0 & Hget0 & Hb0).
  assert (Ht2' : ttys k' !! t2 = Some ts2) by (rewrite Httys; exact Ht2).
  destruct (tiocmget_bits k' t2 ts2 _ ps' Ht2' Hd2 Hps') as (r & Hget & Hb).
  exists k', r0, r. split; [exact Hget0 | ]. split; [exact Hrun | ].
  split; [exact Hget | ]. split.
  - intros Hoc. rewrite (Hidle Hoc) in Hps'.
    assert (Hsame : tty0tty_tiocmget t2 k' = tty0tty_tiocmget t2 k).
    { unfold tty0tty_tiocmget. rewrite Httys, Ht2. cbn [mbind option_bind].
      rewrite Hd2. cbn [mbind option_bind]. rewrite Hps', Hps. reflexivity. }
    rewrite Hsame, Hget0 in Hget. injection Hget as <-. reflexivity.
  - intros Hoc. specialize (Hmsr Hoc).
    line_bits. rewrite !asserted_bit, !Hb, !Hb0, Hmcr by lia.
    cbn [Z.eqb Pos.eqb andb orb].
    rewrite ?andb_true_r, ?andb_false_r, ?orb_false_r, ?orb_false_l.
    rewrite !Hmsr by lia. cbn [Z.eqb Pos.eqb orb].
    split; [reflexivity | ]. split; [reflexivity | ]. split; [reflexivity | ].
    assert (Hri : Z.testbit (msr ps') 7 = Z.testbit (msr ps) 7)
      by (rewrite Hmsr by lia; reflexivity).
    intros n H5 H6 H8. rewrite Hb, Hb0, Hmcr, Hri.
    destruct (Z.eqb_spec 5 n); [lia | ]. destruct (Z.eqb_spec 6 n); [lia | ].
    destruct (Z.eqb_spec 8 n); [lia | ].
    rewrite !andb_false_r. reflexivity.
Qed.

Lemma partner_tiocmget_after_tiocmset_witness :
  exists k' r,
    tty0tty_tiocmset tty_a (Z.lor TIOCM_RTS TIOCM_DTR) 0 pair_open
      = Some (0, k') /\
    tty0tty_tiocmget tty_b k' = Some r /\
    asserted r TIOCM_CTS = true /\ asserted r TIOCM_DSR = true /\
    asserted r TIOCM_CAR = true /\ asserted r TIOCM_RI = false.
Proof.
  destruct (partner_tiocmget_after_tiocmset pair_open tty_a tty_b
              (tty_of 1)
              0 (port tty_a 1 0 0) (port tty_b 1 0 0)
              (Z.lor TIOCM_RTS TIOCM_DTR) 0)
    as (k' & r0 & r & Hget0 & Hrun & Hget & _ & Hlines).
  - attached_tac.
  - reflexivity.
  - reflexivity.
  - reflexivity.
  - destruct Hlines as (Hcts & Hdsr & Hcar & Hrest); [reflexivity | ].
    exists k', r. split; [exact Hrun | ]. split; [exact Hget | ].
    assert (Hr0 : r0 = 0)
      by (vm_compute in Hget0; injection Hget0 as <-; reflexivity).
    subst r0.
    split; [rewrite Hcts; reflexivity | ].
    split; [rewrite Hdsr; reflexivity | ].
    split; [rewrite Hcar; reflexivity | ].
    change TIOCM_RI with (2 ^ 7). rewrite asserted_bit by lia.
    rewrite Hrest by lia. reflexivity.
Defined.

(** ** Repeating a request *)

Lemma to_int_ext a b :
  (forall n, 0 <= n < 32 -> Z.testbit a n = Z.testbit b n) ->
  to_int a = to_int b.
Proof.
  intros Hbits.
  assert (Hmod : a mod 2 ^ 32 = b mod 2 ^ 32).
  { apply Z.bits_inj'. intros n Hn.
    destruct (Z.lt_ge_cases n 32) as [Hlt | Hge].
    - rewrite !Z.mod_pow2_bits_low by lia. apply Hbits. lia.
    - rewrite !Z.mod_pow2_bits_high by lia. reflexivity. }
  unfold to_int. rewrite Hmod. reflexivity.
Qed.

(** Applying the four conditionals to their own result changes nothing
    in the 32 bits that are stored. *)
Lemma null_modem_set_again set clear m r :
  let regs := null_modem_set set clear (m, r) in
  let regs2 :=
    null_modem_set set clear
      (to_unsigned (to_int (fst regs)), to_unsigned (to_int (snd regs))) in
  to_int (fst regs2) = to_int (fst regs) /\
  to_int (snd regs2) = to_int (snd regs).
Proof.
  cbv zeta. split; apply to_int_ext; intros n Hn.
  - rewrite !null_modem_set_mcr_bit by lia.
    rewrite !to_unsigned_testbit, !to_int_testbit by lia.
    rewrite !null_modem_set_mcr_bit by lia. cbn [Z.eqb Pos.eqb].
    destruct (n =? 1), (n =? 0), (Z.testbit m 1), (Z.testbit m 0),
      (Z.testbit set 2), (Z.testbit set 1), (Z.testbit clear 2),
      (Z.testbit clear 1); reflexivity.
  - rewrite !null_modem_set_msr_bit by lia.
    rewrite !to_unsigned_testbit, !to_int_testbit by lia.
    rewrite !null_modem_set_msr_bit by lia. cbn [Z.eqb Pos.eqb].
    destruct (Z.eqb_spec n 4) as [-> | H4].
    + destruct (Z.testbit r 4), (Z.testbit set 2), (Z.testbit clear 2);
        reflexivity.
    + destruct ((n =? 5) || (n =? 6)); [ | reflexivity].
      destruct (Z.testbit r n), (Z.testbit set 1), (Z.testbit clear 1);
        reflexivity.
Qed.

(** X6.  [tty0tty_tiocmset] is idempotent: the same request made again
    through the same attached tty returns 0 again and leaves the memory
    exactly as the first call left it, whether the partner is open or
    not and even when a line is named in both masks. *)
Theorem tiocmset_idempotent (k : kernel) (t : tty_ptr) (i : Z)
    (s : tty0tty_serial) (set clear : Z) :
  attached k t i s ->
  exists k',
    tty0tty_tiocmset t set clear k = Some (0, k') /\
    tty0tty_tiocmset t set clear k' = Some (0, k').
Proof.
  intros Ha.
  pose proof (tiocmset_attached k t i s Ha set clear) as Hrun.
  cbv zeta in Hrun.
  destruct Ha as (Hi & (ts & Ht & Hd) & Hs & (own & ots & Hown & Hots & Hidx)).
  assert (Hne : partner_of i <> i) by apply partner_of_neq.
  destruct (partner_rec (tty0tty_table k) i) as [ps | ] eqn:Hrec.
  - apply partner_rec_Some in Hrec as [Hps Hoc].
    destruct (null_modem_set_again set clear (to_unsigned (mcr s))
                (to_unsigned (msr ps))) as [Hfst Hsnd].
    set (regs := null_modem_set set clear
                   (to_unsigned (mcr s), to_unsigned (msr ps))) in *.
    set (s1 := with_mcr (to_int (fst regs)) s) in *.
    set (ps1 := with_msr (to_int (snd regs)) ps) in *.
    set (k1 := set_table <[partner_of i := ps1]>
                 (set_table <[i := s1]> k)) in *.
    assert (Hs1 : tty0tty_table k1 !! i = Some s1).
    { unfold k1. cbn [set_table tty0tty_table].
      rewrite lookup_insert_ne by exact Hne. apply lookup_insert_eq. }
    assert (Hps1 : tty0tty_table k1 !! partner_of i = Some ps1)
      by (unfold k1; cbn [set_table tty0tty_table]; apply lookup_insert_eq).
    assert (Ha1 : attached k1 t i s1).
    { split; [exact Hi | ]. split; [exists ts; auto | ].
      split; [exact Hs1 | ]. exists own, ots. auto. }
    assert (Hrec1 : partner_rec (tty0tty_table k1) i = Some ps1)
      by (apply partner_rec_Some; auto).
    exists k1. split; [exact Hrun | ].
    rewrite (tiocmset_attached k1 t i s1 Ha1 set clear). cbv zeta.
    rewrite Hrec1.
    change (mcr s1) with (to_int (fst regs)).
    change (msr ps1) with (to_int (snd regs)).
    rewrite Hfst, Hsnd. fold regs. do 2 f_equal.
    unfold set_table. cbn [ttys tty0tty_table tasks].
    change (with_mcr (to_int (fst regs)) s1) with s1.
    change (with_msr (to_int (snd regs)) ps1) with ps1.
    rewrite (insert_id (tty0tty_table k1) i s1 Hs1).
    rewrite (insert_id (tty0tty_table k1) (partner_of i) ps1 Hps1).
    reflexivity.
  - destruct (null_modem_set_again set clear (to_unsigned (mcr s)) 0)
      as [Hfst _].
    set (regs := null_modem_set set clear (to_unsigned (mcr s), 0)) in *.
    set (s1 := with_mcr (to_int (fst regs)) s) in *.
    set (k1 := set_table <[i := s1]> k) in *.
    assert (Hs1 : tty0tty_table k1 !! i = Some s1)
      by (unfold k1; cbn [set_table tty0tty_table]; apply lookup_insert_eq).
    assert (Ha1 : attached k1 t i s1).
    { split; [exact Hi | ]. split; [exists ts; auto | ].
      split; [exact Hs1 | ]. exists own, ots. auto. }
    assert (Hrec1 : partner_rec (tty0tty_table k1) i = None)
      by (unfold k1; cbn [set_table tty0tty_table];
          rewrite partner_rec_insert_own; exact Hrec).
    assert (Hbits : to_int (fst (null_modem_set set clear
                                   (to_unsigned (to_int (fst regs)), 0)))
                    = to_int (fst regs)).
    { apply to_int_ext. intros n Hn.
      rewrite null_modem_set_mcr_bit by lia.
      rewrite !to_unsigned_testbit, !to_int_testbit by lia.
      unfold regs. rewrite !null_modem_set_mcr_bit by lia.
      cbn [Z.eqb Pos.eqb].
      destruct (n =? 1), (n =? 0), (Z.testbit (to_unsigned (mcr s)) 1),
        (Z.testbit (to_unsigned (mcr s)) 0),
        (Z.testbit set 2), (Z.testbit set 1), (Z.testbit clear 2),
        (Z.testbit clear 1); reflexivity. }
    exists k1. split; [exact Hrun | ].
    rewrite (tiocmset_attached k1 t i s1 Ha1 set clear). cbv zeta.
    rewrite Hrec1. change (mcr s1) with (to_int (fst regs)).
    rewrite Hbits. do 2 f_equal.
    unfold set_table. cbn [ttys tty0tty_table tasks].
    change (with_mcr (to_int (fst regs)) s1) with s1.
    rewrite (insert_id (tty0tty_table k1) i s1 Hs1). reflexivity.
Qed.

Lemma tiocmset_idempotent_witness :
  exists k',
    tty0tty_tiocmset tty_a TIOCM_RTS TIOCM_DTR pair_open = Some (0, k') /\
    tty0tty_tiocmset tty_a TIOCM_RTS TIOCM_DTR k' = Some (0, k').
Proof.
  apply (tiocmset_idempotent pair_open tty_a 0 (port tty_a 1 0 0)).
  attached_tac.
Defined.

(** ** Opening and closing *)

(** X7.  An open followed by a close through the same tty gives the
    port its [open_count] back.  The record otherwise keeps what the
    open wrote (the MSR computed from the partner, the pointer to the
    tty), and no other slot of the table is touched.  The count must be
    a count: at least 0 and below [INT_MAX]. *)
Theorem open_then_close (k : kernel) (t : tty_ptr) (ts : tty_struct)
    (fresh : option tty0tty_serial) (s1 : tty0tty_serial) :
  ttys k !! t = Some ts -> valid_index (index ts) ->
  slot_or_fresh (tty0tty_table k) (index ts) fresh = Some s1 ->
  0 <= open_count s1 < INT_MAX ->
  exists k1 k2 s2,
    tty0tty_open t fresh k = Some (0, k1) /\
    tty0tty_close t k1 = Some k2 /\
    tty0tty_table k2 !! index ts = Some s2 /\
    open_count s2 = open_count s1 /\
    msr s2 = null_modem_msr (partner_mcr (tty0tty_table k) (index ts)) /\
    tty s2 = Some t /\ mcr s2 = mcr s1 /\ icount s2 = icount s1 /\
    (forall j, j <> index ts ->
       tty0tty_table k2 !! j = tty0tty_table k !! j).
Proof.
  intros Ht Hi Hslot Hoc.
  pose proof (open_returns k t ts fresh s1 Ht Hi Hslot) as Hopen.
  eexists _, _, _. split; [exact Hopen | ].
  unfold tty0tty_close. cbn [ttys]. rewrite lookup_insert_eq.
  cbn [mbind option_bind with_driver_data driver_data].
  unfold do_close. cbn [tty0tty_table]. rewrite lookup_insert_eq.
  cbn [mbind option_bind with_open_count open_count].
  rewrite (to_int_id (open_count s1 + 1))
    by (unfold int_range, INT_MAX in *; lia).
  destruct (Z.eqb_spec (open_count s1 + 1) 0) as [H0 | _]; [lia | ].
  split; [reflexivity | ]. cbn [set_table tty0tty_table].
  split; [apply lookup_insert_eq | ].
  cbn [with_open_count with_tty with_msr open_count msr tty mcr icount].
  split.
  { rewrite to_int_id by (unfold int_range, INT_MAX in *; lia). lia. }
  repeat (split; [reflexivity | ]).
  intros j Hj. rewrite !lookup_insert_ne by congruence. reflexivity.
Qed.

Lemma open_then_close_witness :
  exists k1 k2,
    tty0tty_open tty_a None pair_open = Some (0, k1) /\
    tty0tty_close tty_a k1 = Some k2 /\
    open_count <$> tty0tty_table k1 !! 0 = Some 2 /\
    open_count <$> tty0tty_table k2 !! 0 = Some 1.
Proof.
  destruct (open_then_close pair_open tty_a
              (tty_of 0)
              None (port tty_a 1 0 0))
    as (k1 & k2 & s2 & Hopen & Hclose & Hs2 & Hoc & _).
  - reflexivity.
  - unfold valid_index, TINY_TTY_MINORS. simpl. lia.
  - reflexivity.
  - unfold INT_MAX. simpl. lia.
  - exists k1, k2. split; [exact Hopen | ]. split; [exact Hclose | ].
    split.
    + assert (Hk1 : Some (0, k1) = tty0tty_open tty_a None pair_open)
        by (symmetry; exact Hopen).
      vm_compute in Hk1. injection Hk1 as ->. reflexivity.
    + change (index (tty_of 0)) with 0 in Hs2.
      rewrite Hs2. cbn. rewrite Hoc. reflexivity.
Defined.

(** X8.  When the slot of the port is [NULL] and [kmalloc] fails, the
    open returns [-ENOMEM] and the table is as it was; the tty is left
    with no driver data, so that afterwards, through this tty, a write
    and a write-room query return [-ENODEV] and a close does nothing. *)
Theorem open_without_memory_then (k : kernel) (t : tty_ptr) (ts : tty_struct) :
  ttys k !! t = Some ts -> valid_index (index ts) ->
  tty0tty_table k !! index ts = None ->
  exists k',
    tty0tty_open t None k = Some (- ENOMEM, k') /\
    tty0tty_table k' = tty0tty_table k /\
    driver_data <$> ttys k' !! t = Some None /\
    (forall y, y <> t -> ttys k' !! y = ttys k !! y) /\
    (forall buffer count,
       tty0tty_write t buffer count k' = Some (- ENODEV, k')) /\
    tty0tty_write_room t k' = Some (- ENODEV) /\
    tty0tty_close t k' = Some k'.
Proof.
  intros Ht Hi Hslot.
  unfold tty0tty_open. rewrite Ht. cbn [mbind option_bind set_ttys tty0tty_table].
  rewrite (table_at_valid _ _ Hi). cbn [mbind option_bind]. rewrite Hslot.
  eexists. split; [reflexivity | ]. split; [reflexivity | ].
  cbn [set_ttys ttys]. split; [rewrite lookup_insert_eq; reflexivity | ].
  split; [intros y Hy; apply lookup_insert_ne; congruence | ].
  assert (Hnull : ttys (set_ttys <[t := with_driver_data None ts]> k) !! t
                  = Some (with_driver_data None ts))
    by (cbn [set_ttys ttys]; apply lookup_insert_eq).
  unfold tty0tty_write, tty0tty_write_room, tty0tty_close.
  split; [intros buffer count | split]; rewrite Hnull; reflexivity.
Qed.

Lemma open_without_memory_then_witness :
  exists k',
    tty0tty_open tty_a None boot = Some (- ENOMEM, k') /\
    tty0tty_write tty_a [65] 1 k' = Some (- ENODEV, k') /\
    tty0tty_close tty_a k' = Some k'.
Proof.
  destruct (open_without_memory_then boot tty_a
              (tty_of 0))
    as (k' & Hopen & _ & _ & _ & Hwrite & _ & Hclose).
  - reflexivity.
  - unfold valid_index, TINY_TTY_MINORS. simpl. lia.
  - reflexivity.
  - exists k'. split; [exact Hopen | ]. split; [apply Hwrite | exact Hclose].
Defined.

(** X9.  The first open of a port initialises three fields of the new
    record only: the count (1), the MSR (computed from the partner) and
    the pointer to the tty.  The MCR, the wait queue and the counters
    are those of the block [kmalloc] returned, and [tty0tty_tiocmget]
    right after the open reports DTR, RTS and LOOP from that MCR. *)
Theorem first_open_keeps_block (k : kernel) (t : tty_ptr) (ts : tty_struct)
    (m : tty0tty_serial) :
  ttys k !! t = Some ts -> valid_index (index ts) ->
  tty0tty_table k !! index ts = None ->
  exists k' r,
    tty0tty_open t (Some m) k = Some (0, k') /\
    tty0tty_table k' !! index ts =
      Some {| tty := Some t; open_count := 1;
              msr := null_modem_msr (partner_mcr (tty0tty_table k) (index ts));
              mcr := mcr m; wait := wait m; icount := icount m |} /\
    tty0tty_tiocmget t k' = Some r /\
    asserted r TIOCM_DTR = asserted (mcr m) MCR_DTR /\
    asserted r TIOCM_RTS = asserted (mcr m) MCR_RTS /\
    asserted r TIOCM_LOOP = asserted (mcr m) MCR_LOOP.
Proof.
  intros Ht Hi Hslot.
  assert (Hfresh : slot_or_fresh (tty0tty_table k) (index ts) (Some m)
                   = Some (with_open_count 0 m))
    by (unfold slot_or_fresh; rewrite Hslot; reflexivity).
  pose proof (open_returns k t ts (Some m) _ Ht Hi Hfresh) as Hopen.
  match type of Hopen with _ = Some (0, ?k1) => set (k' := k1) in * end.
  assert (Hs' : tty0tty_table k' !! index ts =
                Some {| tty := Some t; open_count := 1;
                        msr := null_modem_msr
                                 (partner_mcr (tty0tty_table k) (index ts));
                        mcr := mcr m; wait := wait m; icount := icount m |}).
  { unfold k'. cbn [tty0tty_table]. rewrite lookup_insert_eq. reflexivity. }
  assert (Ht' : ttys k' !! t = Some (with_driver_data (Some (index ts)) ts))
    by (unfold k'; cbn [ttys]; apply lookup_insert_eq).
  destruct (tiocmget_bits k' t _ (index ts) _ Ht' eq_refl Hs')
    as (r & Hget & Hbits).
  exists k', r. split; [exact Hopen | ]. split; [exact Hs' | ].
  split; [exact Hget | ].
  line_bits. rewrite !asserted_bit, !Hbits by lia. cbn [mcr msr].
  rewrite !null_modem_msr_bit by lia.
  cbn [Z.eqb Pos.eqb andb orb].
  rewrite ?andb_true_r, ?andb_false_r, ?orb_false_r, ?orb_false_l.
  repeat split; reflexivity.
Qed.

Lemma first_open_keeps_block_witness :
  exists k' r,
    tty0tty_open tty_a (Some junk) boot = Some (0, k') /\
    mcr <$> tty0tty_table k' !! 0 = Some 0xFF /\
    tty0tty_tiocmget tty_a k' = Some r /\
    asserted r TIOCM_DTR = true /\ asserted r TIOCM_LOOP = true.
Proof.
  destruct (first_open_keeps_block boot tty_a
              (tty_of 0)
              junk)
    as (k' & r & Hopen & Hs' & Hget & Hdtr & _ & Hloop).
  - reflexivity.
  - unfold valid_index, TINY_TTY_MINORS. simpl. lia.
  - reflexivity.
  - exists k', r. split; [exact Hopen | ].
    change (index (tty_of 0)) with 0 in Hs'.
    split; [rewrite Hs'; reflexivity | ]. split; [exact Hget | ].
    split; [rewrite Hdtr; reflexivity | rewrite Hloop; reflexivity].
Defined.

(** X10.  When the partner gives up its last open, the port that stays
    open is not told: through its tty [tty0tty_tiocmget] answers exactly
    as before the close (lines the partner had raised still read as
    raised) and [tty0tty_write_room] still answers 255, while every
    write is from then on refused with [-EINVAL] and changes nothing. *)
Theorem after_partner_last_close (k : kernel) (ta tb : tty_ptr)
    (tsb : tty_struct) (i : Z) (s ps : tty0tty_serial) :
  attached k ta i s -> open_count s <> 0 ->
  ttys k !! tb = Some tsb -> driver_data tsb = Some (partner_of i) ->
  tty0tty_table k !! partner_of i = Some ps -> open_count ps = 1 ->
  exists k',
    tty0tty_close tb k = Some k' /\
    tty0tty_tiocmget ta k' = tty0tty_tiocmget ta k /\
    tty0tty_write_room ta k' = Some 255 /\
    (forall buffer count,
       tty0tty_write ta buffer count k' = Some (- EINVAL, k')).
Proof.
  intros Ha Hoc Htb Hdb Hps Hone.
  assert (Hne : partner_of i <> i) by apply partner_of_neq.
  set (k' := set_table <[partner_of i := with_open_count 0 ps]> k).
  assert (Hclose : tty0tty_close tb k = Some k').
  { unfold tty0tty_close. rewrite Htb. cbn [mbind option_bind]. rewrite Hdb.
    unfold do_close. rewrite Hps. cbn [mbind option_bind]. rewrite Hone.
    reflexivity. }
  assert (Hi' : tty0tty_table k' !! i = tty0tty_table k !! i)
    by (unfold k'; cbn [set_table tty0tty_table];
        apply lookup_insert_ne; exact Hne).
  assert (Ha' : attached k' ta i s).
  { destruct Ha as (Hi & Hta & Hs & Hown).
    split; [exact Hi | ]. split; [exact Hta | ].
    split; [rewrite Hi'; exact Hs | exact Hown]. }
  assert (Hrec : partner_rec (tty0tty_table k') i = None).
  { apply partner_rec_None. unfold k'. cbn [set_table tty0tty_table].
    rewrite lookup_insert_eq. cbn. lia. }
  destruct Ha as (_ & (tsa & Hta & Hda) & Hs & _).
  exists k'. split; [exact Hclose | ]. split; [ | split].
  - unfold tty0tty_tiocmget. change (ttys k') with (ttys k).
    rewrite Hta. cbn [mbind option_bind]. rewrite Hda.
    cbn [mbind option_bind]. rewrite Hi'. reflexivity.
  - unfold tty0tty_write_room. change (ttys k') with (ttys k).
    rewrite Hta. cbn [mbind option_bind]. rewrite Hda, Hi', Hs.
    cbn [mbind option_bind].
    destruct (Z.eqb_spec (open_count s) 0); [contradiction | reflexivity].
  - intros buffer count.
    rewrite (write_attached k' ta i s Ha' buffer count Hoc), Hrec.
    reflexivity.
Qed.

Lemma after_partner_last_close_witness :
  exists k' r,
    tty0tty_close tty_b
      {| ttys := sample_ttys;
         tty0tty_table := {[ 0 := port tty_a 1 0x70 0; 1 := port tty_b 1 0 3 ]};
         tasks := sample_tasks |} = Some k' /\
    tty0tty_tiocmget tty_a k' = Some r /\
    asserted r TIOCM_CTS = true /\
    tty0tty_write tty_a [65] 1 k' = Some (- EINVAL, k').
Proof.
  destruct (after_partner_last_close
              {| ttys := sample_ttys;
                 tty0tty_table :=
                   {[ 0 := port tty_a 1 0x70 0; 1 := port tty_b 1 0 3 ]};
                 tasks := sample_tasks |}
              tty_a tty_b
              (tty_of 1)
              0 (port tty_a 1 0x70 0) (port tty_b 1 0 3))
    as (k' & Hclose & Hget & _ & Hwrite).
  - attached_tac.
  - discriminate.
  - reflexivity.
  - reflexivity.
  - reflexivity.
  - reflexivity.
  - exists k', (Z.lor TIOCM_CTS (Z.lor TIOCM_CAR TIOCM_DSR)).
    split; [exact Hclose | ]. split; [rewrite Hget; reflexivity | ].
    split; [reflexivity | apply Hwrite].
Defined.

(** ** What no call of the driver changes *)

Lemma open_cases t fresh k r k' :
  tty0tty_open t fresh k = Some (r, k') ->
  (r = - ENOMEM /\ tty0tty_table k' = tty0tty_table k) \/
  (exists ts s1,
     ttys k !! t = Some ts /\ valid_index (index ts) /\
     slot_or_fresh (tty0tty_table k) (index ts) fresh = Some s1).
Proof.
  unfold tty0tty_open. intros H. open_bind H as ts Ht.
  cbn [set_ttys tty0tty_table] in H. open_bind H as slot Hslot.
  apply table_at_Some in Hslot as [Hi ->].
  unfold slot_or_fresh.
  destruct (tty0tty_table k !! index ts) as [s | ] eqn:Hs.
  - right. exists ts, s. rewrite ?Hs.
    split; [reflexivity | split; [exact Hi | reflexivity]].
  - destruct fresh as [m | ].
    + right. exists ts, (with_open_count 0 m). rewrite ?Hs.
      split; [reflexivity | split; [exact Hi | reflexivity]].
    + left. injection H as <- <-. split; reflexivity.
Qed.

Lemma tiocmset_keeps_field {B : Type} (f : tty0tty_serial -> B)
    t set clear k r k' :
  kept_field f ->
  tty0tty_tiocmset t set clear k = Some (r, k') ->
  forall j, f <$> tty0tty_table k' !! j = f <$> tty0tty_table k !! j.
Proof.
  intros (Hmcr & Hmsr & _ & _). unfold tty0tty_tiocmset. intros H j.
  open_bind H as ts Ht. open_bind H as i Hd. open_bind H as s Hs.
  open_bind H as own Hown. open_bind H as ots Hots. open_bind H as p Hp.
  destruct (null_modem_set set clear _) as [m_mcr m_msr].
  cbn [set_table tty0tty_table ttys] in H.
  rewrite lookup_insert_eq in H. cbn [mbind option_bind with_mcr tty] in H.
  open_bind H as own' Hown'. open_bind H as ots' Hots'.
  open_bind H as p' Hp'.
  assert (Hmine : f <$>
                    (<[i := with_mcr (to_int m_mcr) s]> (tty0tty_table k)) !! j
                  = f <$> tty0tty_table k !! j)
    by (apply (lookup_insert_field f _ i j s); [assumption | apply Hmcr]).
  destruct p' as [ps | ]; injection H as <- <-; cbn [tty0tty_table].
  - rewrite <- Hmine.
    apply (lookup_insert_field f _ _ j ps); [ | apply Hmsr].
    apply active_partner_lookup. assumption.
  - exact Hmine.
Qed.

Lemma perform_keeps_field {B : Type} (f : tty0tty_serial -> B) c k k' j s :
  kept_field f -> perform c k = Some k' ->
  tty0tty_table k !! j = Some s ->
  exists s', tty0tty_table k' !! j = Some s' /\ f s' = f s.
Proof.
  intros Hf Hrun Hs.
  assert (Hsame : (forall i, f <$> tty0tty_table k' !! i
                             = f <$> tty0tty_table k !! i) ->
                  exists s', tty0tty_table k' !! j = Some s' /\ f s' = f s).
  { intros Hall. specialize (Hall j). rewrite Hs in Hall.
    destruct (tty0tty_table k' !! j) as [s' | ]; [ | discriminate Hall].
    exists s'. split; [reflexivity | ]. injection Hall as Heq. exact Heq. }
  destruct c as [t fresh | t | t b m | t | t | t st cl];
    cbn [perform] in Hrun.
  - destruct (tty0tty_open t fresh k) as [[r k2] | ] eqn:Hopen;
      [ | discriminate Hrun].
    injection Hrun as <-.
    destruct (open_cases _ _ _ _ _ Hopen)
      as [[_ Htbl] | (ts & s1 & Ht & Hi & Hslot)].
    + exists s. rewrite Htbl. auto.
    + rewrite (open_returns k t ts fresh s1 Ht Hi Hslot) in Hopen.
      injection Hopen as _ <-. cbn [tty0tty_table].
      destruct (Z.eq_dec j (index ts)) as [-> | Hne].
      * unfold slot_or_fresh in Hslot. rewrite Hs in Hslot.
        injection Hslot as <-. rewrite lookup_insert_eq.
        eexists. split; [reflexivity | ].
        destruct Hf as (_ & Hmsr & Hoc & Htty).
        rewrite Hoc, Htty, Hmsr. reflexivity.
      * rewrite !lookup_insert_ne by congruence. exists s. auto.
  - unfold tty0tty_close in Hrun. open_bind Hrun as ts Ht.
    destruct (driver_data ts) as [i | ];
      [ | injection Hrun as <-; exists s; auto].
    unfold do_close in Hrun. open_bind Hrun as si Hsi.
    destruct (open_count si =? 0); injection Hrun as <-;
      [exists s; auto | ].
    apply Hsame. intros i0. cbn [set_table tty0tty_table].
    apply (lookup_insert_field f _ i i0 si); [exact Hsi | apply Hf].
  - destruct (tty0tty_write t b m k) as [[r k2] | ] eqn:Hw;
      [ | discriminate Hrun].
    injection Hrun as <-. rewrite (write_table _ _ _ _ _ _ Hw).
    exists s. auto.
  - open_bind Hrun as r Hr. injection Hrun as <-. exists s. auto.
  - open_bind Hrun as r Hr. injection Hrun as <-. exists s. auto.
  - destruct (tty0tty_tiocmset t st cl k) as [[r k2] | ] eqn:Hset;
      [ | discriminate Hrun].
    injection Hrun as <-. apply Hsame.
    apply (tiocmset_keeps_field f _ _ _ _ _ _ Hf Hset).
Qed.

Lemma perform_all_keeps_field {B : Type} (f : tty0tty_serial -> B) cs :
  kept_field f ->
  forall k k' j s,
    perform_all cs k = Some k' -> tty0tty_table k !! j = Some s ->
    exists s', tty0tty_table k' !! j = Some s' /\ f s' = f s.
Proof.
  intros Hf. induction cs as [ | c cs IH]; intros k k' j s Hrun Hs.
  - injection Hrun as <-. exists s. auto.
  - cbn [perform_all] in Hrun. open_bind Hrun as k1 Hc.
    destruct (perform_keeps_field f c k k1 j s Hf Hc Hs) as (s1 & Hs1 & Hf1).
    destruct (IH k1 k' j s1 Hrun Hs1) as (s' & Hs' & Hf').
    exists s'. split; [exact Hs' | congruence].
Qed.

(** X11.  Whatever calls of the driver are made (opens, closes, writes,
    write-room and modem-line queries, modem-line settings), a record
    that is in the table stays in its slot with its event counters
    exactly as they were: no CTS, DSR, RI or DCD edge and no byte is ever
    counted.  So [TIOCGICOUNT] through a tty that points at the record
    copies out the same structure after the calls as before them. *)
Theorem counters_never_move (cs : list call) (k k' : kernel) (j : Z)
    (s : tty0tty_serial) :
  perform_all cs k = Some k' ->
  tty0tty_table k !! j = Some s ->
  exists s',
    tty0tty_table k' !! j = Some s' /\
    icount s' = icount s /\
    (forall t ts ts' user_ok,
       ttys k !! t = Some ts -> driver_data ts = Some j ->
       ttys k' !! t = Some ts' -> driver_data ts' = Some j ->
       tty0tty_ioctl_tiocgicount t TIOCGICOUNT user_ok k'
       = tty0tty_ioctl_tiocgicount t TIOCGICOUNT user_ok k).
Proof.
  intros Hrun Hs.
  assert (Hkept : kept_field icount) by (repeat split; reflexivity).
  destruct (perform_all_keeps_field icount cs Hkept k k' j s Hrun Hs)
    as (s' & Hs' & Hic).
  exists s'. split; [exact Hs' | ]. split; [exact Hic | ].
  intros t ts ts' user_ok Ht Hd Ht' Hd'.
  unfold tty0tty_ioctl_tiocgicount. rewrite Ht, Ht'.
  cbn [mbind option_bind]. rewrite Z.eqb_refl, Hd, Hd'.
  cbn [mbind option_bind]. rewrite Hs, Hs'. cbn [mbind option_bind].
  rewrite Hic. reflexivity.
Qed.

Lemma counters_never_move_witness :
  exists k',
    perform_all
      [Tiocmset tty_a TIOCM_RTS 0; Write tty_a [65; 66] 2;
       Tiocmset tty_a 0 TIOCM_RTS; Close tty_a; Open tty_a None]
      pair_open = Some k' /\
    icount <$> tty0tty_table k' !! 1 = Some zero_icount /\
    tty0tty_ioctl_tiocgicount tty_b TIOCGICOUNT true k'
    = tty0tty_ioctl_tiocgicount tty_b TIOCGICOUNT true pair_open.
Proof.
  destruct (perform_all
              [Tiocmset tty_a TIOCM_RTS 0; Write tty_a [65; 66] 2;
               Tiocmset tty_a 0 TIOCM_RTS; Close tty_a; Open tty_a None]
              pair_open) as [k' | ] eqn:Hrun;
    [ | vm_compute in Hrun; discriminate Hrun].
  destruct (counters_never_move _ pair_open k' 1 (port tty_b 1 0 0) Hrun)
    as (s' & Hs' & Hic & Hsame); [reflexivity | ].
  exists k'. split; [reflexivity | ].
  split; [rewrite Hs'; cbn; rewrite Hic; reflexivity | ].
  assert (Hk : Some k' = perform_all
                 [Tiocmset tty_a TIOCM_RTS 0; Write tty_a [65; 66] 2;
                  Tiocmset tty_a 0 TIOCM_RTS; Close tty_a; Open tty_a None]
                 pair_open) by (symmetry; exact Hrun).
  apply (Hsame tty_b
           (tty_of 1)
           (with_flip [65; 66] 4094 (tty_of 1)));
    try reflexivity.
  vm_compute in Hk. injection Hk as ->. reflexivity.
Defined.

(** ** The ring indicator *)

Lemma msr_lines_only_insert tbl i s :
  msr_lines_only tbl -> lines_only (msr s) -> msr_lines_only (<[i := s]> tbl).
Proof.
  intros Htbl Hs j s' Hj. destruct (decide (i = j)) as [<- | Hne].
  - rewrite lookup_insert_eq in Hj. injection Hj as <-. exact Hs.
  - rewrite lookup_insert_ne in Hj by exact Hne. apply (Htbl j s' Hj).
Qed.

Lemma lines_only_null_modem_msr m : lines_only (null_modem_msr m).
Proof.
  intros n Hn H4 H5 H6. rewrite null_modem_msr_bit by lia.
  destruct (Z.eqb_spec n 4); [lia | ].
  destruct (Z.eqb_spec n 5); [lia | ].
  destruct (Z.eqb_spec n 6); [lia | ]. reflexivity.
Qed.

Lemma lines_only_null_modem_set set clear m_mcr m_msr :
  lines_only m_msr ->
  lines_only (to_int (snd (null_modem_set set clear
                             (m_mcr, to_unsigned m_msr)))).
Proof.
  intros Hm n Hn H4 H5 H6.
  rewrite to_int_testbit, null_modem_set_msr_bit by lia.
  destruct (Z.eqb_spec n 4); [lia | ].
  destruct (Z.eqb_spec n 5); [lia | ].
  destruct (Z.eqb_spec n 6); [lia | ]. cbn [orb].
  rewrite to_unsigned_testbit by lia. apply Hm; assumption.
Qed.

Lemma tiocmset_msr_lines_only t set clear k r k' :
  msr_lines_only (tty0tty_table k) ->
  tty0tty_tiocmset t set clear k = Some (r, k') ->
  msr_lines_only (tty0tty_table k').
Proof.
  intros Hinv. unfold tty0tty_tiocmset. intros H.
  open_bind H as ts Ht. open_bind H as i Hd. open_bind H as s Hs.
  open_bind H as own Hown. open_bind H as ots Hots. open_bind H as p Hp.
  assert (Hnew : lines_only
                   (to_int (snd (null_modem_set set clear
                      (to_unsigned (mcr s),
                       match p with
                       | Some ps => to_unsigned (msr ps)
                       | None => 0
                       end))))).
  { destruct p as [ps | ].
    - apply lines_only_null_modem_set.
      apply (Hinv (partner_of (index ots)) ps).
      apply active_partner_lookup. exact Hp.
    - change 0 with (to_unsigned 0) at 1.
      apply lines_only_null_modem_set. intros n _ _ _ _. apply Z.bits_0. }
  destruct (null_modem_set set clear _) as [m_mcr m_msr].
  cbn [snd] in Hnew.
  cbn [set_table tty0tty_table ttys] in H.
  rewrite lookup_insert_eq in H. cbn [mbind option_bind with_mcr tty] in H.
  open_bind H as own' Hown'. open_bind H as ots' Hots'.
  open_bind H as p' Hp'.
  assert (Hmine : msr_lines_only
                    (<[i := with_mcr (to_int m_mcr) s]> (tty0tty_table k)))
    by (apply msr_lines_only_insert; [exact Hinv | apply (Hinv i s Hs)]).
  destruct p' as [ps | ]; injection H as <- <-; cbn [tty0tty_table].
  - apply msr_lines_only_insert; [exact Hmine | exact Hnew].
  - exact Hmine.
Qed.

Lemma close_keeps_field {B : Type} (f : tty0tty_serial -> B) t k k' :
  (forall v r, f (with_open_count v r) = f r) ->
  tty0tty_close t k = Some k' ->
  forall j, f <$> tty0tty_table k' !! j = f <$> tty0tty_table k !! j.
Proof.
  intros Hf Hrun j. unfold tty0tty_close in Hrun. open_bind Hrun as ts Ht.
  destruct (driver_data ts) as [i | ]; [ | injection Hrun as <-; reflexivity].
  unfold do_close in Hrun. open_bind Hrun as si Hsi.
  destruct (open_count si =? 0); injection Hrun as <-; [reflexivity | ].
  cbn [set_table tty0tty_table].
  apply (lookup_insert_field f _ i j si); [exact Hsi | apply Hf].
Qed.

Lemma perform_msr_lines_only c k k' :
  msr_lines_only (tty0tty_table k) -> perform c k = Some k' ->
  msr_lines_only (tty0tty_table k').
Proof.
  intros Hinv Hrun.
  destruct c as [t fresh | t | t b m | t | t | t st cl];
    cbn [perform] in Hrun.
  - destruct (tty0tty_open t fresh k) as [[r k2] | ] eqn:Hopen;
      [ | discriminate Hrun].
    injection Hrun as <-.
    destruct (open_cases _ _ _ _ _ Hopen)
      as [[_ Htbl] | (ts & s1 & Ht & Hi & Hslot)].
    + rewrite Htbl. exact Hinv.
    + rewrite (open_returns k t ts fresh s1 Ht Hi Hslot) in Hopen.
      injection Hopen as _ <-. cbn [tty0tty_table].
      intros j s' Hj. destruct (decide (index ts = j)) as [<- | Hne].
      * rewrite lookup_insert_eq in Hj. injection Hj as <-.
        apply lines_only_null_modem_msr.
      * rewrite !lookup_insert_ne in Hj by exact Hne. apply (Hinv j s' Hj).
  - intros j s' Hj.
    pose proof (close_keeps_field msr t k k' ltac:(reflexivity) Hrun j)
      as Hsame.
    rewrite Hj in Hsame.
    destruct (tty0tty_table k !! j) as [s0 | ] eqn:Hs0; [ | discriminate Hsame].
    injection Hsame as Heq. rewrite Heq. apply (Hinv j s0 Hs0).
  - destruct (tty0tty_write t b m k) as [[r k2] | ] eqn:Hw;
      [ | discriminate Hrun].
    injection Hrun as <-. rewrite (write_table _ _ _ _ _ _ Hw). exact Hinv.
  - open_bind Hrun as r Hr. injection Hrun as <-. exact Hinv.
  - open_bind Hrun as r Hr. injection Hrun as <-. exact Hinv.
  - destruct (tty0tty_tiocmset t st cl k) as [[r k2] | ] eqn:Hset;
      [ | discriminate Hrun].
    injection Hrun as <-.
    apply (tiocmset_msr_lines_only _ _ _ _ _ _ Hinv Hset).
Qed.

Lemma perform_all_msr_lines_only cs : forall k k',
  msr_lines_only (tty0tty_table k) -> perform_all cs k = Some k' ->
  msr_lines_only (tty0tty_table k').
Proof.
  induction cs as [ | c cs IH]; intros k k' Hinv Hrun.
  - injection Hrun as <-. exact Hinv.
  - cbn [perform_all] in Hrun. open_bind Hrun as k1 Hc.
    apply (IH k1 k'); [ | exact Hrun].
    apply (perform_msr_lines_only c k k1 Hinv Hc).
Qed.

(** X12.  In any memory reached from an all-[NULL] table by driver
    calls, no record has anything but CTS, CD and DSR in its MSR: of the
    32 bits only bits 4, 5 and 6 can be up (whatever the block that
    [kmalloc] returned held, and whatever masks [tty0tty_tiocmset] was
    given).  In particular the ring indicator is never raised, and
    [tty0tty_tiocmget] never reports [TIOCM_RI]. *)
Theorem ring_never_raised (cs : list call) (k0 k : kernel) :
  tty0tty_table k0 = ∅ ->
  perform_all cs k0 = Some k ->
  (forall i s, tty0tty_table k !! i = Some s ->
     asserted (msr s) MSR_RI = false /\
     forall n, 0 <= n < 32 -> n <> 4 -> n <> 5 -> n <> 6 ->
               Z.testbit (msr s) n = false) /\
  (forall t ts i s,
     ttys k !! t = Some ts -> driver_data ts = Some i ->
     tty0tty_table k !! i = Some s ->
     exists r, tty0tty_tiocmget t k = Some r /\ asserted r TIOCM_RI = false).
Proof.
  intros Hboot Hrun.
  assert (Hinv : msr_lines_only (tty0tty_table k)).
  { apply (perform_all_msr_lines_only cs k0 k); [ | exact Hrun].
    intros i s Hs. rewrite Hboot, lookup_empty in Hs. discriminate Hs. }
  split.
  - intros i s Hs. split; [ | apply (Hinv i s Hs)].
    change MSR_RI with (2 ^ 7). rewrite asserted_bit by lia.
    apply (Hinv i s Hs); lia.
  - intros t ts i s Ht Hd Hs.
    destruct (tiocmget_bits k t ts i s Ht Hd Hs) as (r & Hget & Hbits).
    exists r. split; [exact Hget | ].
    change TIOCM_RI with (2 ^ 7). rewrite asserted_bit, Hbits by lia.
    rewrite (Hinv i s Hs 7) by lia.
    cbn [Z.eqb Pos.eqb andb orb].
    rewrite ?andb_false_r. reflexivity.
Qed.

Lemma ring_never_raised_witness :
  exists k r,
    perform_all
      [Open tty_a (Some junk); Open tty_b (Some junk);
       Tiocmset tty_a (Z.lor TIOCM_RTS TIOCM_RI) 0] boot = Some k /\
    msr <$> tty0tty_table k !! 1 = Some 0x70 /\
    tty0tty_tiocmget tty_b k = Some r /\ asserted r TIOCM_RI = false.
Proof.
  destruct (perform_all
              [Open tty_a (Some junk); Open tty_b (Some junk);
               Tiocmset tty_a (Z.lor TIOCM_RTS TIOCM_RI) 0] boot)
    as [k | ] eqn:Hrun; [ | vm_compute in Hrun; discriminate Hrun].
  destruct (ring_never_raised _ boot k eq_refl Hrun) as [_ Hget].
  assert (Hk : Some k = perform_all
                 [Open tty_a (Some junk); Open tty_b (Some junk);
                  Tiocmset tty_a (Z.lor TIOCM_RTS TIOCM_RI) 0] boot)
    by (symmetry; exact Hrun).
  vm_compute in Hk. injection Hk as Hk.
  assert (Htb : exists tb sb,
             ttys k !! tty_b = Some tb /\ driver_data tb = Some 1 /\
             tty0tty_table k !! 1 = Some sb /\ msr sb = 0x70).
  { rewrite Hk. eexists _, _. repeat split; reflexivity. }
  destruct Htb as (tb & sb & Htb & Hdb & Hsb & Hmsr).
  destruct (Hget tty_b tb 1 sb Htb Hdb Hsb) as (r & Hr & Hri).
  exists k, r. split; [reflexivity | ].
  split; [rewrite Hsb; cbn; rewrite Hmsr; reflexivity | ].
  split; [exact Hr | exact Hri].
Defined.

(** ** Wait queue heads *)

(** No call of the driver initialises a wait queue head: when no block
    comes with one, no record of the table has one, and [TIOCMIWAIT] is
    undefined through every tty that points at a record. *)
Lemma tiocmiwait_undefined_on_created_records cs : forall k0 k,
  (forall j s, tty0tty_table k0 !! j = Some s -> wait s = None) ->
  Forall no_head_given cs ->
  perform_all cs k0 = Some k ->
  forall current t ts i s arg env,
    ttys k !! t = Some ts -> driver_data ts = Some i ->
    tty0tty_table k !! i = Some s ->
    wait s = None /\
    tty0tty_ioctl_tiocmiwait current t TIOCMIWAIT arg k env = None.
Proof.
  assert (Hkept : kept_field wait) by (repeat split; reflexivity).
  induction cs as [ | c cs IH]; intros k0 k Hinv Hgiven Hrun.
  - injection Hrun as <-. intros current t ts i s arg env Ht Hd Hs.
    split; [apply (Hinv i s Hs) | ].
    apply (tiocmiwait_no_head current t ts i s arg k0 env Ht Hd Hs).
    apply (Hinv i s Hs).
  - apply Forall_cons in Hgiven as [Hc Hgiven].
    cbn [perform_all] in Hrun. open_bind Hrun as k1 Hstep.
    apply (IH k1 k); [ | exact Hgiven | exact Hrun].
    intros j s1 Hs1.
    destruct (tty0tty_table k0 !! j) as [s0 | ] eqn:Hs0.
    + destruct (perform_keeps_field wait c k0 k1 j s0 Hkept Hstep Hs0)
        as (s' & Hs' & Heq).
      rewrite Hs1 in Hs'. injection Hs' as <-. rewrite Heq.
      apply (Hinv j s0 Hs0).
    + destruct c as [t fresh | t | t b m | t | t | t st cl];
        cbn [perform] in Hstep.
      * destruct (tty0tty_open t fresh k0) as [[r k2] | ] eqn:Hopen;
          [ | discriminate Hstep].
        injection Hstep as <-.
        destruct (open_cases _ _ _ _ _ Hopen)
          as [[_ Htbl] | (ts & s2 & Ht & Hi & Hslot)].
        -- rewrite Htbl, Hs0 in Hs1. discriminate Hs1.
        -- rewrite (open_returns k0 t ts fresh s2 Ht Hi Hslot) in Hopen.
           injection Hopen as _ <-. cbn [tty0tty_table] in Hs1.
           destruct (decide (index ts = j)) as [<- | Hne].
           ++ rewrite lookup_insert_eq in Hs1. injection Hs1 as <-.
              cbn [with_open_count with_tty with_msr wait].
              unfold slot_or_fresh in Hslot. rewrite Hs0 in Hslot.
              destruct fresh as [m | ]; [ | discriminate Hslot].
              injection Hslot as <-. exact Hc.
           ++ rewrite !lookup_insert_ne in Hs1 by exact Hne.
              rewrite Hs0 in Hs1. discriminate Hs1.
      * pose proof (close_keeps_field wait t k0 k1 ltac:(reflexivity) Hstep j)
          as Hsame.
        rewrite Hs1, Hs0 in Hsame. discriminate Hsame.
      * destruct (tty0tty_write t b m k0) as [[r k2] | ] eqn:Hw;
          [ | discriminate Hstep].
        injection Hstep as <-. rewrite (write_table _ _ _ _ _ _ Hw) in Hs1.
        rewrite Hs0 in Hs1. discriminate Hs1.
      * open_bind Hstep as r Hr. injection Hstep as <-.
        rewrite Hs0 in Hs1. discriminate Hs1.
      * open_bind Hstep as r Hr. injection Hstep as <-.
        rewrite Hs0 in Hs1. discriminate Hs1.
      * destruct (tty0tty_tiocmset t st cl k0) as [[r k2] | ] eqn:Hset;
          [ | discriminate Hstep].
        injection Hstep as <-.
        pose proof (tiocmset_keeps_field wait _ _ _ _ _ _ Hkept Hset j)
          as Hsame.
        rewrite Hs1, Hs0 in Hsame. discriminate Hsame.
Qed.

(** ** Waiting when only the driver touches its memory *)

Lemma perform_tasks c k k' : perform c k = Some k' -> tasks k' = tasks k.
Proof.
  intros Hrun.
  destruct c as [t fresh | t | t b m | t | t | t st cl];
    cbn [perform] in Hrun.
  - destruct (tty0tty_open t fresh k) as [[r k2] | ] eqn:Hopen;
      [ | discriminate Hrun].
    injection Hrun as <-. revert Hopen. unfold tty0tty_open. intros H.
    open_bind H as ts Ht. open_bind H as slot Hslot.
    destruct slot as [s | ]; [ | destruct fresh as [m | ]];
      try (injection H as <- <-; reflexivity);
      open_bind H as p Hp; open_bind H as s' Hs';
      injection H as <- <-; reflexivity.
  - unfold tty0tty_close in Hrun. open_bind Hrun as ts Ht.
    destruct (driver_data ts) as [i | ]; [ | injection Hrun as <-; reflexivity].
    unfold do_close in Hrun. open_bind Hrun as si Hsi.
    destruct (open_count si =? 0); injection Hrun as <-; reflexivity.
  - destruct (tty0tty_write t b m k) as [[r k2] | ] eqn:Hw;
      [ | discriminate Hrun].
    injection Hrun as <-. revert Hw. unfold tty0tty_write. intros H.
    open_bind H as ts Ht.
    destruct (driver_data ts); [ | injection H as <- <-; reflexivity].
    open_bind H as s Hs.
    destruct (open_count s =? 0); [injection H as <- <-; reflexivity | ].
    open_bind H as own Hown. open_bind H as ots Hots. open_bind H as p Hp.
    destruct (match p with Some ps => tty ps | None => None end);
      [ | injection H as <- <-; reflexivity].
    open_bind H as k3 Hpush. injection H as <- <-.
    apply flip_push_Some in Hpush as (tx & _ & _ & ->). reflexivity.
  - open_bind Hrun as r Hr. injection Hrun as <-. reflexivity.
  - open_bind Hrun as r Hr. injection Hrun as <-. reflexivity.
  - destruct (tty0tty_tiocmset t st cl k) as [[r k2] | ] eqn:Hset;
      [ | discriminate Hrun].
    injection Hrun as <-. revert Hset. unfold tty0tty_tiocmset. intros H.
    open_bind H as ts Ht. open_bind H as i Hd. open_bind H as s Hs.
    open_bind H as own Hown. open_bind H as ots Hots. open_bind H as p Hp.
    destruct (null_modem_set st cl _) as [m_mcr m_msr].
    open_bind H as s' Hs'. open_bind H as own' Hown'.
    open_bind H as ots' Hots'. open_bind H as p' Hp'.
    destruct p' as [ps | ]; injection H as <- <-; reflexivity.
Qed.

(** What a happening keeps of a sleeping task's view: the counters and
    the wait queue of every record, and the tasks it does not name. *)
Lemma happen_keeps {B : Type} (f : tty0tty_serial -> B) h k i s :
  kept_field f -> tty0tty_table k !! i = Some s ->
  (exists s', tty0tty_table (happen h k) !! i = Some s' /\ f s' = f s) /\
  (forall task,
     match h with
     | Driver_call _ => True
     | Made_runnable task' _ => task' <> task
     end ->
     tasks (happen h k) !! task = tasks k !! task).
Proof.
  intros Hf Hs. destruct h as [c | task' sig]; cbn [happen].
  - destruct (perform c k) as [k1 | ] eqn:Hrun; cbn [default from_option id].
    + split.
      * apply (perform_keeps_field f c k k1 i s Hf Hrun Hs).
      * intros task _. rewrite (perform_tasks c k k1 Hrun). reflexivity.
    + split; [exists s; auto | reflexivity].
  - split; [exists s; auto | ].
    intros task Hne. unfold make_runnable. cbn [set_tasks tasks].
    apply lookup_insert_ne. exact Hne.
Qed.

Lemma tiocmiwait_run_closed current i arg c0 q hs : forall k s c,
  tty0tty_table k !! i = Some s ->
  icount s = c0 -> wait s = Some (current :: q) ->
  tasks k !! current = Some c -> state c = TASK_INTERRUPTIBLE ->
  exists k',
    tiocmiwait_run current i arg c0 k (map happen hs)
    = Some (match first_wake current hs with
            | None => Sleeping c0
            | Some true => Returned (- ERESTARTSYS)
            | Some false => Returned (- EIO)
            end, k').
Proof.
  induction hs as [ | h hs IH]; intros k s c Hs Hic Hq Hc Hst.
  - exists k. reflexivity.
  - cbn [map].
    destruct (happen_keeps (λ r, (icount r, wait r)) h k i s)
      as [(s' & Hs' & Hkept) Htasks];
      [repeat split; reflexivity | exact Hs | ].
    injection Hkept as Hic' Hq'.
    assert (Hgo : tasks (happen h k) !! current = tasks k !! current ->
                  first_wake current (h :: hs) = first_wake current hs ->
                  exists k',
                    tiocmiwait_run current i arg c0 k
                      (happen h :: map happen hs)
                    = Some (match first_wake current (h :: hs) with
                            | None => Sleeping c0
                            | Some true => Returned (- ERESTARTSYS)
                            | Some false => Returned (- EIO)
                            end, k')).
    { intros Hsame ->. cbn [tiocmiwait_run]. rewrite Hsame, Hc.
      cbn [mbind option_bind]. rewrite Hst.
      apply (IH (happen h k) s' c);
        [exact Hs' | congruence | congruence | | exact Hst].
      rewrite Hsame. exact Hc. }
    destruct h as [call | task sig].
    + apply Hgo; [apply Htasks; exact I | reflexivity].
    + destruct (decide (task = current)) as [-> | Hne].
      * cbn [first_wake]. rewrite decide_True by reflexivity.
        destruct (tiocmiwait_run_wake current i arg c0 k
                    (happen (Made_runnable current sig)) (map happen hs)
                    {| state := TASK_RUNNING; sigpending := sig |} s'
                    (current :: q))
          as (kq & _ & _ & Hsig & Heio & _).
        -- cbn [happen]. unfold make_runnable. cbn [set_tasks tasks].
           apply lookup_insert_eq.
        -- reflexivity.
        -- exact Hs'.
        -- congruence.
        -- apply list_elem_of_here.
        -- exists kq. destruct sig.
           ++ apply Hsig. reflexivity.
           ++ apply Heio; [reflexivity | ].
              rewrite Hic', Hic. repeat split; reflexivity.
      * apply Hgo; [apply Htasks; exact Hne | ].
        cbn [first_wake]. rewrite decide_False by exact Hne. reflexivity.
Qed.

(** X13.  [TIOCMIWAIT] on a record whose wait queue head is well
    formed, when nothing but the driver itself works on its records:
    while the task sleeps, other tasks call the driver (opens, closes,
    writes, queries and settings of the modem lines, on any port) and
    tasks are made runnable, with or without a signal.  The call then
    never returns 0.  With a signal pending when it is made it returns
    [-ERESTARTSYS] at once.  Otherwise it sleeps for as long as its task
    is not made runnable; the first time it is, the call ends with
    [-ERESTARTSYS] when a signal is pending and with [-EIO] otherwise,
    whatever lines the mask names and whatever was done to the lines
    meanwhile. *)
Theorem tiocmiwait_never_sees_change (current : positive) (t : tty_ptr)
    (ts : tty_struct) (i : Z) (s0 : tty0tty_serial) (q : list positive)
    (c0 : task_struct) (arg : Z) (k : kernel) (hs : list happening) :
  ttys k !! t = Some ts -> driver_data ts = Some i ->
  tty0tty_table k !! i = Some s0 -> wait s0 = Some q ->
  tasks k !! current = Some c0 ->
  exists r k',
    tty0tty_ioctl_tiocmiwait current t TIOCMIWAIT arg k (map happen hs)
    = Some (r, k') /\
    r = (if sigpending c0 then Returned (- ERESTARTSYS)
         else match first_wake current hs with
              | None => Sleeping (icount s0)
              | Some true => Returned (- ERESTARTSYS)
              | Some false => Returned (- EIO)
              end) /\
    r <> Returned 0.
Proof.
  intros Ht Hd Hs Hq Hc.
  destruct (sigpending c0) eqn:Hsig.
  - destruct (tiocmiwait_enters_signalled current t ts i s0 q c0 arg k
                (map happen hs) Ht Hd Hs Hq Hc Hsig) as (kq & Hrun & _).
    exists (Returned (- ERESTARTSYS)), kq.
    split; [exact Hrun | ]. split; [reflexivity | discriminate].
  - rewrite (tiocmiwait_enters current t ts i s0 q c0 arg k (map happen hs)
               Ht Hd Hs Hq Hc Hsig).
    destruct (tiocmiwait_run_closed current i arg (icount s0) q hs
                (set_tasks <[current := with_state TASK_INTERRUPTIBLE c0]>
                   (set_table <[i := with_wait (Some (current :: q)) s0]> k))
                (with_wait (Some (current :: q)) s0)
                (with_state TASK_INTERRUPTIBLE c0))
      as (k' & Hclosed).
    + cbn [set_tasks set_table tty0tty_table]. apply lookup_insert_eq.
    + reflexivity.
    + reflexivity.
    + cbn [set_tasks tasks]. apply lookup_insert_eq.
    + reflexivity.
    + eexists _, k'. split; [exact Hclosed | ]. split; [reflexivity | ].
      destruct (first_wake current hs) as [[ | ] | ]; discriminate.
Qed.

Lemma tiocmiwait_never_sees_change_witness :
  exists k',
    tty0tty_ioctl_tiocmiwait task_w tty_b TIOCMIWAIT TIOCM_CTS pair_open
      (map happen
         [Driver_call (Tiocmset tty_a TIOCM_RTS 0);
          Driver_call (Tiocmset tty_a 0 TIOCM_RTS);
          Made_runnable task_w false])
    = Some (Returned (- EIO), k').
Proof.
  destruct (tiocmiwait_never_sees_change task_w tty_b (tty_of 1)
              1 (port tty_b 1 0 0) []
              {| state := TASK_RUNNING; sigpending := false |}
              TIOCM_CTS pair_open
              [Driver_call (Tiocmset tty_a TIOCM_RTS 0);
               Driver_call (Tiocmset tty_a 0 TIOCM_RTS);
               Made_runnable task_w false])
    as (r & k' & Hrun & Hr & _);
    [reflexivity | reflexivity | reflexivity | reflexivity | reflexivity | ].
  exists k'. rewrite Hrun, Hr. reflexivity.
Defined.

(** ** The wait queue *)

(** One pass of the loop from the return of [schedule()], on a queue
    that has the entry of the call in front. *)
Lemma tiocmiwait_wake_queue current i arg cprev k q r k' :
  wait <$> tty0tty_table k !! i = Some (Some (current :: q)) ->
  tiocmiwait_wake current i arg cprev k = Some (r, k') ->
  match r with
  | Returned _ => wait <$> tty0tty_table k' !! i = Some (Some q)
  | Sleeping _ =>
      wait <$> tty0tty_table k' !! i = Some (Some (current :: q)) /\
      state <$> tasks k' !! current = Some TASK_INTERRUPTIBLE
  end.
Proof.
  intros Hq. unfold tiocmiwait_wake. intros H. open_bind H as kq Hrm.
  unfold remove_wait_queue in Hrm. open_bind Hrm as s Hs.
  cbn in Hq. injection Hq as Hq. rewrite Hq in Hrm.
  cbn [mbind option_bind] in Hrm.
  rewrite decide_True, unlink_here in Hrm by apply list_elem_of_here.
  injection Hrm as <-.
  assert (Hoff : wait <$> tty0tty_table
                            (set_table <[i := with_wait (Some q) s]> k) !! i
                 = Some (Some q))
    by (cbn [set_table tty0tty_table]; rewrite lookup_insert_eq; reflexivity).
  cbn [set_table tasks tty0tty_table] in H. open_bind H as c Hc.
  destruct (sigpending c); [injection H as <- <-; exact Hoff | ].
  rewrite lookup_insert_eq in H. cbn [mbind option_bind] in H.
  destruct (no_change _ cprev); [injection H as <- <-; exact Hoff | ].
  destruct (asked_change arg _ cprev); [injection H as <- <-; exact Hoff | ].
  rewrite (tiocmiwait_sleep_spec current i (with_wait (Some q) s) q c) in H;
    [ | cbn [set_table tty0tty_table]; apply lookup_insert_eq
      | reflexivity | exact Hc].
  cbn [mbind option_bind] in H. injection H as <- <-.
  cbn [set_tasks set_table tty0tty_table tasks].
  rewrite !lookup_insert_eq. split; reflexivity.
Qed.

Lemma tiocmiwait_run_balanced current i arg q env :
  Forall (leaves_queue i) env ->
  forall cprev k r k',
    wait <$> tty0tty_table k !! i = Some (Some (current :: q)) ->
    state <$> tasks k !! current = Some TASK_INTERRUPTIBLE ->
    tiocmiwait_run current i arg cprev k env = Some (r, k') ->
    match r with
    | Returned _ => wait <$> tty0tty_table k' !! i = Some (Some q)
    | Sleeping _ =>
        wait <$> tty0tty_table k' !! i = Some (Some (current :: q)) /\
        state <$> tasks k' !! current = Some TASK_INTERRUPTIBLE
    end.
Proof.
  induction 1 as [ | f env Hf _ IH]; intros cprev k r k' Hq Hst H.
  - injection H as <- <-. split; assumption.
  - cbn [tiocmiwait_run] in H. open_bind H as c Hc.
    assert (Hqf : wait <$> tty0tty_table (f k) !! i
                  = Some (Some (current :: q)))
      by (rewrite (Hf k); exact Hq).
    destruct (state c) eqn:Hstate.
    + open_bind H as r0 Hwake. destruct r0 as [[v | cnow] kr].
      * injection H as <- <-.
        apply (tiocmiwait_wake_queue _ _ _ _ _ _ _ _ Hqf Hwake).
      * destruct (tiocmiwait_wake_queue _ _ _ _ _ _ _ _ Hqf Hwake)
          as [Hq' Hst'].
        apply (IH cnow kr r k' Hq' Hst' H).
    + apply (IH cprev (f k) r k' Hqf); [ | exact H].
      rewrite Hc. cbn. rewrite Hstate. reflexivity.
Qed.

(** X14.  The loop of [TIOCMIWAIT] balances its queueing.  The call is
    made on a record whose wait queue head is well formed, and what
    else happens while the task sleeps leaves that queue alone.  Then
    the entry the call declared is on the queue, in front, and the task
    is [TASK_INTERRUPTIBLE] whenever the call is asleep in
    [schedule()], after any number of turns of the loop; and on each of
    its three [return]s the call has taken its entry off again and the
    queue is exactly as the call found it. *)
Theorem tiocmiwait_leaves_queue (current : positive) (t : tty_ptr)
    (ts : tty_struct) (i : Z) (s0 : tty0tty_serial) (q : list positive)
    (c0 : task_struct) (arg : Z) (k : kernel) (env : list (kernel -> kernel))
    (r : wait_result) (k' : kernel) :
  ttys k !! t = Some ts -> driver_data ts = Some i ->
  tty0tty_table k !! i = Some s0 -> wait s0 = Some q ->
  tasks k !! current = Some c0 ->
  Forall (leaves_queue i) env ->
  tty0tty_ioctl_tiocmiwait current t TIOCMIWAIT arg k env = Some (r, k') ->
  match r with
  | Returned _ => wait <$> tty0tty_table k' !! i = Some (Some q)
  | Sleeping _ =>
      wait <$> tty0tty_table k' !! i = Some (Some (current :: q)) /\
      state <$> tasks k' !! current = Some TASK_INTERRUPTIBLE
  end.
Proof.
  intros Ht Hd Hs Hq Hc Henv Hrun.
  destruct (sigpending c0) eqn:Hsig.
  - destruct (tiocmiwait_enters_signalled current t ts i s0 q c0 arg k env
                Ht Hd Hs Hq Hc Hsig) as (kq & Hret & Hwait & _).
    rewrite Hret in Hrun. injection Hrun as <- <-. exact Hwait.
  - rewrite (tiocmiwait_enters current t ts i s0 q c0 arg k env
               Ht Hd Hs Hq Hc Hsig) in Hrun.
    apply (tiocmiwait_run_balanced current i arg q env Henv _ _ _ _)
      with (3 := Hrun);
      cbn [set_tasks set_table tty0tty_table tasks];
      rewrite lookup_insert_eq; reflexivity.
Qed.

(** A wait for DSR on port 1: a CTS edge is counted and the task woken,
    the loop queues the task again; a second, spurious wake-up ends the
    call with [-EIO], the queue empty as before the call. *)
Lemma tiocmiwait_leaves_queue_witness :
  exists k',
    tty0tty_ioctl_tiocmiwait task_w tty_b TIOCMIWAIT TIOCM_DSR pair_open
      [make_runnable task_w false ∘ count_cts 1; make_runnable task_w false]
    = Some (Returned (- EIO), k') /\
    wait <$> tty0tty_table k' !! 1 = Some (Some []).
Proof.
  destruct (tty0tty_ioctl_tiocmiwait task_w tty_b TIOCMIWAIT TIOCM_DSR
              pair_open
              [make_runnable task_w false ∘ count_cts 1;
               make_runnable task_w false])
    as [[r k'] | ] eqn:Hrun; [ | vm_compute in Hrun; discriminate Hrun].
  assert (Hr : r = Returned (- EIO)).
  { assert (Hv : Some (r, k') = tty0tty_ioctl_tiocmiwait task_w tty_b
                   TIOCMIWAIT TIOCM_DSR pair_open
                   [make_runnable task_w false ∘ count_cts 1;
                    make_runnable task_w false])
      by (symmetry; exact Hrun).
    vm_compute in Hv. injection Hv as -> _. reflexivity. }
  subst r. exists k'. split; [reflexivity | ].
  apply (tiocmiwait_leaves_queue task_w tty_b (tty_of 1) 1 (port tty_b 1 0 0)
           [] {| state := TASK_RUNNING; sigpending := false |} TIOCM_DSR
           pair_open _ _ k' eq_refl eq_refl eq_refl eq_refl eq_refl)
    with (2 := Hrun).
  constructor; [ | constructor; [ | constructor]].
  - intros k0. unfold compose, make_runnable, count_cts.
    cbn [set_tasks set_table tty0tty_table].
    rewrite lookup_alter_eq. destruct (tty0tty_table k0 !! 1); reflexivity.
  - intros k0. reflexivity.
Defined.

(** ** Unloading the module *)

Lemma close_until_zero_spec fuel : forall i k s,
  tty0tty_table k !! i = Some s -> 0 <= open_count s <= INT_MAX ->
  (Z.to_nat (open_count s) <= fuel)%nat ->
  exists k',
    close_until_zero fuel i k = Some k' /\
    delete i (tty0tty_table k') = delete i (tty0tty_table k) /\
    ttys k' = ttys k /\ tasks k' = tasks k.
Proof.
  induction fuel as [ | fuel IH]; intros i k s Hs Hoc Hfuel;
    cbn [close_until_zero]; rewrite Hs; cbn [mbind option_bind].
  - destruct (Z.eqb_spec (open_count s) 0) as [_ | Hne]; [ | lia].
    exists k. auto.
  - destruct (Z.eqb_spec (open_count s) 0) as [_ | Hne]; [exists k; auto | ].
    unfold do_close. rewrite Hs. cbn [mbind option_bind].
    destruct (Z.eqb_spec (open_count s) 0) as [H0 | _]; [contradiction | ].
    cbn [mbind option_bind].
    rewrite to_int_id by (unfold int_range, INT_MAX in *; lia).
    destruct (IH i (set_table
                      <[i := with_open_count (open_count s - 1) s]> k)
                (with_open_count (open_count s - 1) s))
      as (k' & Hrun & Htbl & Httys & Htasks).
    + cbn [set_table tty0tty_table]. apply lookup_insert_eq.
    + cbn [with_open_count open_count]. lia.
    + cbn [with_open_count open_count]. lia.
    + exists k'. split; [exact Hrun | ].
      split; [ | split; [exact Httys | exact Htasks]].
      rewrite Htbl. cbn [set_table tty0tty_table]. apply delete_insert_eq.
Qed.

Lemma exit_slot_spec fuel n i k :
  valid_index i -> counts_within n k -> n <= INT_MAX ->
  (Z.to_nat n <= fuel)%nat ->
  exists k',
    exit_slot fuel i k = Some k' /\
    tty0tty_table k' = delete i (tty0tty_table k) /\
    ttys k' = ttys k /\ tasks k' = tasks k.
Proof.
  intros Hi Hk Hn Hfuel. unfold exit_slot.
  rewrite (table_at_valid _ i Hi). cbn [mbind option_bind].
  destruct (tty0tty_table k !! i) as [s | ] eqn:Hs.
  - pose proof (Hk i s Hs) as Hoc.
    destruct (close_until_zero_spec fuel i k s Hs)
      as (k' & Hrun & Htbl & Httys & Htasks); [lia | lia | ].
    rewrite Hrun. cbn [mbind option_bind]. eexists. split; [reflexivity | ].
    cbn [set_table tty0tty_table ttys tasks]. auto.
  - exists k. split; [reflexivity | ].
    split; [symmetry; apply delete_id, Hs | auto].
Qed.

Lemma exit_slots_spec fuel n slots : forall k,
  Forall valid_index slots -> counts_within n k -> n <= INT_MAX ->
  (Z.to_nat n <= fuel)%nat ->
  exists k',
    exit_slots fuel slots k = Some k' /\
    (forall j, tty0tty_table k' !! j
               = if decide (j ∈ slots) then None else tty0tty_table k !! j) /\
    ttys k' = ttys k /\ tasks k' = tasks k.
Proof.
  induction slots as [ | i slots IH]; intros k Hvalid Hk Hn Hfuel.
  - exists k. split; [reflexivity | ]. split; [ | auto].
    intros j. rewrite decide_False by apply not_elem_of_nil. reflexivity.
  - apply Forall_cons in Hvalid as [Hi Hvalid].
    destruct (exit_slot_spec fuel n i k Hi Hk Hn Hfuel)
      as (k1 & Hrun1 & Htbl1 & Httys1 & Htasks1).
    assert (Hk1 : counts_within n k1).
    { intros j s Hs. rewrite Htbl1 in Hs.
      apply lookup_delete_Some in Hs as [_ Hs]. apply (Hk j s Hs). }
    destruct (IH k1 Hvalid Hk1 Hn Hfuel)
      as (k' & Hrun & Htbl & Httys & Htasks).
    exists k'. cbn [exit_slots]. rewrite Hrun1. cbn [mbind option_bind].
    split; [exact Hrun | ].
    split; [ | split; congruence].
    intros j. rewrite Htbl, Htbl1.
    destruct (decide (j = i)) as [-> | Hne].
    + rewrite (decide_True (P := i ∈ i :: slots)) by apply list_elem_of_here.
      rewrite lookup_delete_eq. destruct (decide (i ∈ slots)); reflexivity.
    + rewrite lookup_delete_ne by congruence.
      destruct (decide (j ∈ slots)) as [Hin | Hout].
      * rewrite decide_True by (apply list_elem_of_further; exact Hin).
        reflexivity.
      * rewrite decide_False; [reflexivity | ].
        intros Hin. apply elem_of_cons in Hin as [Heq | Hin];
          [exact (Hne Heq) | exact (Hout Hin)].
Qed.

(** X15.  [tty0tty_exit] on a memory in which every [open_count] lies
    between 0 and [n]: each of its [while] loops ends within [n] turns,
    the function returns, and afterwards every one of the
    [TINY_TTY_MINORS] slots of the table is [NULL], whether the port was
    open, closed again or never opened.  The loops work on the records
    only: every tty, with the [driver_data] it holds, and every task is
    as before. *)
Theorem exit_frees_every_port (n : Z) (fuel : nat) (k : kernel) :
  counts_within n k -> n <= INT_MAX -> (Z.to_nat n <= fuel)%nat ->
  exists k',
    tty0tty_exit fuel k = Some k' /\
    (forall i, valid_index i -> tty0tty_table k' !! i = None) /\
    ttys k' = ttys k /\ tasks k' = tasks k.
Proof.
  intros Hk Hn Hfuel. unfold tty0tty_exit.
  destruct (exit_slots_spec fuel n (seqZ 0 TINY_TTY_MINORS) k)
    as (k' & Hrun & Htbl & Hrest); [ | exact Hk | exact Hn | exact Hfuel | ].
  - apply Forall_forall. intros i Hi. apply elem_of_seqZ in Hi.
    unfold valid_index. lia.
  - exists k'. split; [exact Hrun | ]. split; [ | exact Hrest].
    intros i Hi. rewrite Htbl. apply decide_True.
    apply elem_of_seqZ. unfold valid_index in Hi. lia.
Qed.

Lemma exit_frees_every_port_witness :
  exists k',
    tty0tty_exit 1 pair_open = Some k' /\
    tty0tty_table k' !! 0 = None /\ tty0tty_table k' !! 1 = None /\
    ttys k' = ttys pair_open.
Proof.
  destruct (exit_frees_every_port 1 1 pair_open)
    as (k' & Hrun & Hnull & Httys & _).
  - intros i s Hs.
    assert (Hi : i = 0 \/ i = 1).
    { destruct (decide (i = 0)) as [ | H0]; [auto | ].
      destruct (decide (i = 1)) as [ | H1]; [auto | ].
      unfold pair_open in Hs. cbn [tty0tty_table] in Hs.
      rewrite lookup_insert_ne in Hs by congruence.
      rewrite lookup_singleton_ne in Hs by congruence. discriminate Hs. }
    destruct Hi as [-> | ->]; vm_compute in Hs; injection Hs as <-;
      cbn [port open_count]; lia.
  - unfold INT_MAX. lia.
  - cbn. lia.
  - exists k'. split; [exact Hrun | ].
    split; [apply Hnull; unfold valid_index, TINY_TTY_MINORS; lia | ].
    split; [apply Hnull; unfold valid_index, TINY_TTY_MINORS; lia | ].
    exact Httys.
Defined.

(** ** Room for writing *)

(** X16.  [tty0tty_write_room] looks at the port's own [open_count] and
    at nothing else: through a tty attached to an open port it answers
    255 whether the partner is connected or not, and it answers 255
    again after a write through that tty, whether the write was
    delivered or refused and however many bytes it carried. *)
Theorem write_room_never_shrinks (k : kernel) (t : tty_ptr) (i : Z)
    (s : tty0tty_serial) :
  attached k t i s -> open_count s <> 0 ->
  tty0tty_write_room t k = Some 255 /\
  (forall buffer count r k',
     tty0tty_write t buffer count k = Some (r, k') ->
     tty0tty_write_room t k' = Some 255).
Proof.
  intros Ha Hoc.
  assert (Hroom : forall k0, attached k0 t i s ->
                             tty0tty_write_room t k0 = Some 255).
  { intros k0 (_ & (ts & Ht & Hd) & Hs & _). unfold tty0tty_write_room.
    rewrite Ht. cbn [mbind option_bind]. rewrite Hd, Hs.
    cbn [mbind option_bind].
    destruct (Z.eqb_spec (open_count s) 0); [contradiction | reflexivity]. }
  split; [apply Hroom, Ha | ].
  intros buffer count r k' Hw.
  apply Hroom. apply (write_keeps_attached k t i s buffer count r k' Ha Hw).
Qed.

Lemma write_room_never_shrinks_witness :
  tty0tty_write_room tty_a partner_closed = Some 255 /\
  exists k',
    tty0tty_write tty_a [65; 66; 67] 3 pair_open = Some (3, k') /\
    tty0tty_write_room tty_a k' = Some 255.
Proof.
  split.
  - apply (write_room_never_shrinks partner_closed tty_a 0 (port tty_a 1 0 0));
      [attached_tac | cbn; lia].
  - destruct (tty0tty_write tty_a [65; 66; 67] 3 pair_open)
      as [[r k'] | ] eqn:Hw; [ | vm_compute in Hw; discriminate Hw].
    assert (Hr : r = 3).
    { assert (Hv : Some (r, k') = tty0tty_write tty_a [65; 66; 67] 3 pair_open)
        by (symmetry; exact Hw).
      vm_compute in Hv. injection Hv as -> _. reflexivity. }
    subst r. exists k'. split; [reflexivity | ].
    destruct (write_room_never_shrinks pair_open tty_a 0 (port tty_a 1 0 0))
      as [_ Hafter]; [attached_tac | cbn; lia | ].
    apply (Hafter _ _ _ _ Hw).
Defined.
